(** * The MCP client layer and its Zapier bridge ([core/mcp])

    A shallow embedding of [core/mcp/client.py], [core/mcp/security.py],
    [core/mcp/exceptions.py] and [core/mcp/zapier_integration.py].

    Conventions of the embedding:
    - Python values of type [Any] (parameter payloads, results, parsed JSON)
      are the inductive [pyval]; a [dict] with string keys is an association
      list in insertion order, read with first-match lookup.  Numbers are
      integers.  The dictionaries keyed by tool name (the tool caches, the
      usage counts) are finite maps; [list(d.values())] lists their values in
      the order of the map.
    - [str] is [string]; [len], slices, [lower], [startswith] and [in] are the
      functions of module [Py] (characters are bytes, case mapping is ASCII).
    - instance attributes are record fields; a method that mutates [self] or
      raises is a computation in the monad [M], state passing with a result
      that is either a value or a raised exception.  What a method changed
      before it raised stays changed, as in Python.
    - [datetime.now(timezone.utc)] is a reading of a [Clock]; instants are
      microseconds, the resolution of [datetime].
    - the transport of [core/mcp/transport.py] is an oracle that decides
      every response: the client is verified against every transport. *)

From stdpp Require Import base option list gmap strings pretty.
From Stdlib Require Import ZArith Lia Ascii.

Open Scope Z_scope.
Open Scope string_scope.
#[local] Set Warnings "-register-all,-clear-no-such-hyp".

(** ** Python primitives *)

Module Py.

Inductive pyval : Type :=
| PNone
| PBool (b : bool)
| PInt (z : Z)
| PStr (s : string)
| PList (l : list pyval)
| PDict (d : list (string * pyval)).

Abbreviation dict := (list (string * pyval)).

(** [bool(v)] *)
Definition truthy (v : pyval) : bool :=
  match v with
  | PNone => false
  | PBool b => b
  | PInt z => negb (z =? 0)%Z
  | PStr s => negb (String.eqb s "")
  | PList l => match l with [] => false | _ => true end
  | PDict d => match d with [] => false | _ => true end
  end.

(** [d.get(k)] and [d.get(k, dflt)] *)
Fixpoint dget (k : string) (d : dict) : option pyval :=
  match d with
  | [] => None
  | (k', v) :: d' => if String.eqb k k' then Some v else dget k d'
  end.

Definition dget_or (k : string) (dflt : pyval) (d : dict) : pyval :=
  default dflt (dget k d).

(** [v == "s"] for a string literal *)
Definition eq_str (v : pyval) (s : string) : bool :=
  match v with PStr s' => String.eqb s' s | _ => false end.

(** [len(s)], [s[:n]], [s[n:]], [s[-n:]] *)
Definition len (s : string) : nat := String.length s.

Fixpoint take (n : nat) (s : string) : string :=
  match n, s with
  | S n', String c s' => String c (take n' s')
  | _, _ => ""
  end.

Fixpoint drop (n : nat) (s : string) : string :=
  match n, s with
  | S n', String _ s' => drop n' s'
  | _, _ => s
  end.

Definition last_n (n : nat) (s : string) : string :=
  drop (len s - n) s.

(** [s.startswith(p)] and [sub in s] *)
Definition startswith (s p : string) : bool := String.prefix p s.

Fixpoint str_in (sub s : string) : bool :=
  String.prefix sub s ||
  match s with
  | "" => false
  | String _ s' => str_in sub s'
  end.

(** [s.lower()] *)
Definition lower_ascii (c : ascii) : ascii :=
  let n := nat_of_ascii c in
  if ((65 <=? n) && (n <=? 90))%nat then ascii_of_nat (n + 32) else c.

Fixpoint lower (s : string) : string :=
  match s with
  | "" => ""
  | String c s' => String (lower_ascii c) (lower s')
  end.

(** ["sep".join(l)] *)
Fixpoint join (sep : string) (l : list string) : string :=
  match l with
  | [] => ""
  | [x] => x
  | x :: l' => x +:+ sep +:+ join sep l'
  end.

(** [any(f(x) for x in l)] *)
Definition any {A} (f : A -> bool) (l : list A) : bool := existsb f l.

(** [x in l] for a list of strings *)
Definition mem (x : string) (l : list string) : bool :=
  existsb (String.eqb x) l.

End Py.
Import Py.

(** ** The clock *)

Record Clock := mkClock { now_at : nat -> Z; reads : nat }.

Definition read_clock (k : Clock) : Z * Clock :=
  (now_at k (reads k), mkClock (now_at k) (S (reads k))).

(** ** Exceptions ([core/mcp/exceptions.py]) *)

Inductive exn_class :=
| MCPError
| MCPAuthenticationError
| MCPConnectionError
| MCPToolExecutionError
| MCPRateLimitError
| MCPValidationError
| MCPServerError
| OtherException.

(** An exception object: its class, [str(e)] (the [message] of an [MCPError])
    and the attributes the subclasses add. *)
Record exn := mkExn {
  e_class : exn_class;
  e_message : string;
  e_error_code : option string;
  e_is_token_expired : bool;
  e_retry_after : option Z;
  e_tool_name : option string;
  e_field_errors : list (string * list string);
  e_status_code : option Z
}.

Definition is_MCPError (e : exn) : bool :=
  match e_class e with OtherException => false | _ => true end.

Definition AuthenticationError (message : string) (is_token_expired : bool) : exn :=
  mkExn MCPAuthenticationError message (Some "AUTH_FAILED") is_token_expired None None [] None.

Definition ConnectionError (message : string) : exn :=
  mkExn MCPConnectionError message (Some "CONNECTION_FAILED") false None None [] None.

Definition ToolExecutionError (message : string) (tool_name : string) : exn :=
  mkExn MCPToolExecutionError message (Some "TOOL_EXECUTION_FAILED") false None
        (Some tool_name) [] None.

Definition RateLimitError (message : string) (retry_after : Z) : exn :=
  mkExn MCPRateLimitError message (Some "RATE_LIMITED") false (Some retry_after) None [] None.

Definition ValidationError (message : string) (field_errors : list (string * list string)) : exn :=
  mkExn MCPValidationError message (Some "VALIDATION_FAILED") false None None field_errors None.

Definition ServerError (message : string) (status_code : option Z) : exn :=
  mkExn MCPServerError message (Some "SERVER_ERROR") false None None [] status_code.

(** ** Computations that mutate [self] and may raise *)

Inductive Res (A : Type) :=
| Ret (a : A)
| Raise (e : exn).
Arguments Ret {A} a.
Arguments Raise {A} e.

Definition M (S A : Type) : Type := S -> Res A * S.

Definition ret {S A} (a : A) : M S A := fun s => (Ret a, s).
Definition raise {S A} (e : exn) : M S A := fun s => (Raise e, s).
Definition bind {S A B} (m : M S A) (k : A -> M S B) : M S B :=
  fun s => match m s with
           | (Ret a, s') => k a s'
           | (Raise e, s') => (Raise e, s')
           end.
Definition get {S} : M S S := fun s => (Ret s, s).
Definition modify {S} (f : S -> S) : M S unit := fun s => (Ret tt, f s).

(** [try: m  except Exception as e: h(e)] *)
Definition try_except {S A} (m : M S A) (h : exn -> M S A) : M S A :=
  fun s => match m s with
           | (Ret a, s') => (Ret a, s')
           | (Raise e, s') => h e s'
           end.

#[export] Instance M_ret {S} : MRet (M S) := fun A a => ret a.
#[export] Instance M_bind {S} : MBind (M S) := fun A B k m => bind m k.

(** ** The transport boundary ([core/mcp/transport.py])

    The client only reads the attributes below off a response, sends requests
    and asks whether the transport is connected.  What the transport answers is
    left to an oracle, so every statement about the client holds for every
    transport. *)

Inductive MCPMethod :=
| INITIALIZE | TOOLS_LIST | TOOLS_CALL | RESOURCES_LIST | RESOURCES_READ | PING.

(** The integer constants of [JSONRPCErrorCode] that the client compares
    against. *)
Record ErrorCodes := mkErrorCodes {
  SERVER_ERROR : Z;
  RATE_LIMITED : Z;
  METHOD_NOT_FOUND : Z;
  INVALID_PARAMS : Z;
  AUTHENTICATION_FAILED : Z
}.

(** JSON-Schema of a tool's parameters, [Dict[str, Any]] read through the
    two keys the code looks at: ["properties"] (a dict keyed by parameter
    name) and ["required"] (a list of names); [None] is an absent key. *)
Record Schema := mkSchema {
  properties : option dict;
  required : option (list string)
}.

Definition empty_schema : Schema := mkSchema None None.

(** A tool as a dictionary: on the wire ([name], [description],
    [inputSchema]) and as [MCPTool.to_dict] writes it.  A field is [None] when
    the key is absent; [provider] and [category] may be present and [None]. *)
Record ToolDict := mkToolDict {
  d_name : option string;
  d_description : option string;
  d_inputSchema : option Schema;
  d_input_schema : option Schema;
  d_provider : option (option string);
  d_category : option (option string);
  d_required_params : option (list string);
  d_optional_params : option (list string)
}.

(** The result of [tools/list]: [{"tools": [...]}], the key possibly absent. *)
Record ToolsListResult := mkToolsListResult { tools : option (list ToolDict) }.

Definition result_type (m : MCPMethod) : Type :=
  match m with
  | TOOLS_LIST => ToolsListResult
  | _ => pyval
  end.

Record MCPResponse (R : Type) := mkResponse {
  is_success : bool;
  result : option R;
  error_message : option string;
  error_code : option Z;
  latency_ms : Z;
  is_rate_limited : bool;
  is_auth_error : bool;
  http_status : option Z
}.
Arguments mkResponse {R}.
Arguments is_success {R}.
Arguments result {R}.
Arguments error_message {R}.
Arguments error_code {R}.
Arguments latency_ms {R}.
Arguments is_rate_limited {R}.
Arguments is_auth_error {R}.
Arguments http_status {R}.

Record MCPRequest := mkRequest { method : MCPMethod; params : dict }.

(** The transport object: whether it is connected, what its next [connect()]
    does, what it answers to the [n]-th request, and the requests sent so far. *)
Record MCPTransport := mkTransport {
  t_is_connected : bool;
  t_connect : Res bool;
  t_respond : nat -> forall m : MCPMethod, dict -> Res (MCPResponse (result_type m));
  t_sent : list MCPRequest
}.

(** Modelled from the spec: [transport.connect()] establishes the connection
    and reports it; the oracle decides whether it succeeds or raises. *)
Definition transport_connect : M MCPTransport bool :=
  fun t =>
    match t_connect t with
    | Ret b => (Ret b, mkTransport b (t_connect t) (t_respond t) (t_sent t))
    | Raise e => (Raise e, t)
    end.

(** Modelled from the spec: [transport.disconnect()] releases the connection
    and does not raise, also when never connected. *)
Definition transport_disconnect : M MCPTransport unit :=
  modify (fun t => mkTransport false (t_connect t) (t_respond t) (t_sent t)).

(** [transport.send_request(MCPRequest(method, params))]: the request is
    recorded and the oracle answers, or raises. *)
Definition transport_send (m : MCPMethod) (ps : dict)
  : M MCPTransport (MCPResponse (result_type m)) :=
  fun t =>
    (t_respond t (length (t_sent t)) m ps,
     mkTransport (t_is_connected t) (t_connect t) (t_respond t)
                 (t_sent t ++ [mkRequest m ps])).

(** ** [MCPTool] ([core/mcp/client.py]) *)

Record MCPTool := mkTool {
  name : string;
  description : string;
  input_schema : Schema;
  provider : option string;
  category : option string
}.

Definition required_params (self : MCPTool) : list string :=
  let schema := input_schema self in
  match properties schema with
  | Some _ => default [] (required schema)
  | None => []
  end.

Definition all_params (self : MCPTool) : list string :=
  let schema := input_schema self in
  match properties schema with
  | Some props => map fst props
  | None => []
  end.

Definition optional_params (self : MCPTool) : list string :=
  let schema := input_schema self in
  match properties schema with
  | Some props =>
      let all_params := map fst props in
      let required := required_params self in
      List.filter (fun p => negb (mem p required)) all_params
  | None => []
  end.

Definition get_param_info (self : MCPTool) (param_name : string) : option pyval :=
  match properties (input_schema self) with
  | Some props => dget param_name props
  | None => None
  end.

(** [validate_params]: the list of errors it returns, and the warnings it
    logs on the way. *)
Definition validation_errors (self : MCPTool) (ps : dict) : list string :=
  flat_map (fun required =>
              match dget required ps with
              | None => ["Missing required parameter: " +:+ required]
              | Some PNone => ["Required parameter cannot be null: " +:+ required]
              | Some _ => []
              end)
           (required_params self).

Definition validation_warnings (self : MCPTool) (ps : dict) : list string :=
  let known_params := all_params self in
  flat_map (fun param =>
              if negb (mem param known_params) && negb (bool_decide (known_params = []))
              then ["Unknown parameter for tool " +:+ name self +:+ ": " +:+ param]
              else [])
           (map fst ps).

Definition validate_params (self : MCPTool) (ps : dict) : list string * list string :=
  (validation_errors self ps, validation_warnings self ps).

Definition from_dict (data : ToolDict) : MCPTool :=
  {| name := default "unknown" (d_name data);
     description := default "" (d_description data);
     input_schema :=
       default (default empty_schema (d_input_schema data)) (d_inputSchema data);
     provider := mjoin (d_provider data);
     category := mjoin (d_category data) |}.

Definition to_dict (self : MCPTool) : ToolDict :=
  {| d_name := Some (name self);
     d_description := Some (description self);
     d_inputSchema := None;
     d_input_schema := Some (input_schema self);
     d_provider := Some (provider self);
     d_category := Some (category self);
     d_required_params := Some (required_params self);
     d_optional_params := Some (optional_params self) |}.

(** ** [MCPToolResult] *)

Record MCPToolResult := mkToolResult {
  success : bool;
  tool_name : string;
  tr_result : pyval;
  error : option string;
  tr_error_code : option Z;
  execution_time_ms : option Z;
  metadata : dict
}.

Definition from_response (tool_name : string) (response : MCPResponse pyval) : MCPToolResult :=
  if is_success response then
    mkToolResult true tool_name (default PNone (result response)) None None
                 (Some (latency_ms response)) []
  else
    mkToolResult false tool_name PNone (error_message response) (error_code response)
                 (Some (latency_ms response)) [].

Definition from_error (tool_name : string) (error : string) (error_code : option Z)
  : MCPToolResult :=
  mkToolResult false tool_name PNone (Some error) error_code None [].

Definition is_retriable (codes : ErrorCodes) (self : MCPToolResult) : bool :=
  if success self then false
  else match tr_error_code self with
       | Some c => (c =? SERVER_ERROR codes)%Z || (c =? RATE_LIMITED codes)%Z
       | None => false
       end.

(** ** [MCPClient] *)

Record MCPClient := mkClient {
  transport : MCPTransport;
  clock : Clock;
  cache_tools : bool;
  tool_cache_ttl : Z;
  c_validate_params : bool;
  _tools_cache : gmap string MCPTool;
  _tools_cache_time : option Z;
  _connected : bool;
  _server_info : option pyval;
  _call_count : nat;
  _error_count : nat
}.

(** [MCPClient.__init__] *)
Definition MCPClient_init (transport : MCPTransport) (clock : Clock)
    (cache_tools : bool) (tool_cache_ttl : Z) (validate_params : bool) : MCPClient :=
  mkClient transport clock cache_tools tool_cache_ttl validate_params ∅ None false None 0 0.

(** Assignments to one attribute. *)
Definition set_transport (x : MCPTransport) (self : MCPClient) : MCPClient :=
  mkClient x (clock self) (cache_tools self) (tool_cache_ttl self) (c_validate_params self) (_tools_cache self) (_tools_cache_time self) (_connected self) (_server_info self) (_call_count self) (_error_count self).
Definition set_clock (x : Clock) (self : MCPClient) : MCPClient :=
  mkClient (transport self) x (cache_tools self) (tool_cache_ttl self) (c_validate_params self) (_tools_cache self) (_tools_cache_time self) (_connected self) (_server_info self) (_call_count self) (_error_count self).
Definition set_tools_cache (x : gmap string MCPTool) (self : MCPClient) : MCPClient :=
  mkClient (transport self) (clock self) (cache_tools self) (tool_cache_ttl self) (c_validate_params self) x (_tools_cache_time self) (_connected self) (_server_info self) (_call_count self) (_error_count self).
Definition set_tools_cache_time (x : option Z) (self : MCPClient) : MCPClient :=
  mkClient (transport self) (clock self) (cache_tools self) (tool_cache_ttl self) (c_validate_params self) (_tools_cache self) x (_connected self) (_server_info self) (_call_count self) (_error_count self).
Definition set_connected (x : bool) (self : MCPClient) : MCPClient :=
  mkClient (transport self) (clock self) (cache_tools self) (tool_cache_ttl self) (c_validate_params self) (_tools_cache self) (_tools_cache_time self) x (_server_info self) (_call_count self) (_error_count self).
Definition set_server_info (x : option pyval) (self : MCPClient) : MCPClient :=
  mkClient (transport self) (clock self) (cache_tools self) (tool_cache_ttl self) (c_validate_params self) (_tools_cache self) (_tools_cache_time self) (_connected self) x (_call_count self) (_error_count self).
Definition set_call_count (x : nat) (self : MCPClient) : MCPClient :=
  mkClient (transport self) (clock self) (cache_tools self) (tool_cache_ttl self) (c_validate_params self) (_tools_cache self) (_tools_cache_time self) (_connected self) (_server_info self) x (_error_count self).
Definition set_error_count (x : nat) (self : MCPClient) : MCPClient :=
  mkClient (transport self) (clock self) (cache_tools self) (tool_cache_ttl self) (c_validate_params self) (_tools_cache self) (_tools_cache_time self) (_connected self) (_server_info self) (_call_count self) x.

(** A call on [self.transport], and [datetime.now(timezone.utc)]. *)
Definition on_transport {A} (m : M MCPTransport A) : M MCPClient A :=
  fun self => let '(r, t) := m (transport self) in (r, set_transport t self).

Definition datetime_now : M MCPClient Z :=
  fun self => let '(t, k) := read_clock (clock self) in (Ret t, set_clock k self).

Definition send_request (m : MCPMethod) (ps : dict)
  : M MCPClient (MCPResponse (result_type m)) :=
  on_transport (transport_send m ps).

Definition is_connected (self : MCPClient) : bool :=
  _connected self && t_is_connected (transport self).

Definition microseconds (seconds : Z) : Z := seconds * 1000000.

Definition _is_cache_valid : M MCPClient bool :=
  self ← get;
  if negb (cache_tools self) then mret false
  else if bool_decide (_tools_cache self = ∅) then mret false
  else match _tools_cache_time self with
       | None => mret false
       | Some cached =>
           now ← datetime_now;
           mret (bool_decide (now - cached < microseconds (tool_cache_ttl self)))
       end.

(** [_handle_error_response] returns on no path: this is the exception it
    raises. *)
Definition _handle_error_response {R} (codes : ErrorCodes)
    (response : MCPResponse R) (operation : string) : exn :=
  let code := error_code response in
  let message :=
    match error_message response with
    | Some m => if String.eqb m "" then "Unknown error" else m
    | None => "Unknown error"
    end in
  if is_auth_error response then
    AuthenticationError
      ("Authentication failed during " +:+ operation +:+ ": " +:+ message)
      (bool_decide (code = Some (AUTHENTICATION_FAILED codes)))
  else if is_rate_limited response then
    RateLimitError ("Rate limited during " +:+ operation +:+ ": " +:+ message) 60
  else if bool_decide (code = Some (METHOD_NOT_FOUND codes)) then
    ToolExecutionError ("Method not found: " +:+ operation) operation
  else if bool_decide (code = Some (INVALID_PARAMS codes)) then
    ValidationError ("Invalid parameters for " +:+ operation +:+ ": " +:+ message) []
  else
    ServerError ("Server error during " +:+ operation +:+ ": " +:+ message)
                (http_status response).

(** The loop of [list_tools] over [tools_data]: every tool is appended to the
    list returned and written into the cache under its name. *)
Definition cache_tool (cache : gmap string MCPTool) (tool : MCPTool) : gmap string MCPTool :=
  <[name tool := tool]> cache.

Definition list_tools (codes : ErrorCodes) (force_refresh : bool) : M MCPClient (list MCPTool) :=
  self ← get;
  if negb (is_connected self) then raise (ConnectionError "Not connected to MCP server")
  else
    valid ← (if force_refresh then mret false else _is_cache_valid);
    if negb force_refresh && valid then
      self ← get; mret (map_to_list (_tools_cache self)).*2
    else
      response ← send_request TOOLS_LIST [];
      (if negb (is_success response)
       then raise (_handle_error_response codes response "list_tools")
       else mret tt) ;;
      let tools_data :=
        match result response with
        | Some r => default [] (tools r)
        | None => []
        end in
      let tools := map from_dict tools_data in
      modify (fun self => set_tools_cache (foldl cache_tool (_tools_cache self) tools) self) ;;
      now ← datetime_now;
      modify (set_tools_cache_time (Some now)) ;;
      mret tools.

Definition get_tool (codes : ErrorCodes) (tool_name : string) : M MCPClient (option MCPTool) :=
  self ← get;
  (if bool_decide (_tools_cache self = ∅)
   then list_tools codes false ;; mret tt
   else mret tt) ;;
  self ← get;
  mret (_tools_cache self !! tool_name).

Definition call_tool (codes : ErrorCodes) (tool_name : string) (ps : dict)
    (validate : option bool) : M MCPClient MCPToolResult :=
  self ← get;
  if negb (is_connected self) then raise (ConnectionError "Not connected to MCP server")
  else
    modify (fun self => set_call_count (S (_call_count self)) self) ;;
    let should_validate := default (c_validate_params self) validate in
    tool ← get_tool codes tool_name;
    (match tool with
     | Some tool =>
         if should_validate then
           let errors := fst (validate_params tool ps) in
           match errors with
           | [] => mret tt
           | _ =>
               let error_msg := join "; " errors in
               raise (ValidationError
                        ("Invalid parameters for " +:+ tool_name +:+ ": " +:+ error_msg)
                        [(tool_name, errors)])
           end
         else mret tt
     | None => mret tt
     end) ;;
    response ← send_request TOOLS_CALL [("name", PStr tool_name); ("arguments", PDict ps)];
    let result := from_response tool_name response in
    (if success result then mret tt
     else
       modify (fun self => set_error_count (S (_error_count self)) self) ;;
       if is_rate_limited response then
         raise (RateLimitError ("Rate limited while executing " +:+ tool_name) 60)
       else if is_auth_error response then
         raise (AuthenticationError ("Authentication failed for " +:+ tool_name) false)
       else mret tt) ;;
    mret result.

Definition call_tool_safe (codes : ErrorCodes) (tool_name : string) (ps : dict)
  : M MCPClient MCPToolResult :=
  try_except (call_tool codes tool_name ps None)
    (fun e =>
       match e_class e with
       | MCPValidationError =>
           mret (from_error tool_name (e_message e) (Some (INVALID_PARAMS codes)))
       | MCPRateLimitError =>
           mret (from_error tool_name (e_message e) (Some (RATE_LIMITED codes)))
       | OtherException =>
           mret (from_error tool_name ("Unexpected error: " +:+ e_message e) None)
       | _ =>
           mret (from_error tool_name (e_message e) None)
       end).

Definition connect (codes : ErrorCodes) : M MCPClient bool :=
  try_except
    (connected ← on_transport transport_connect;
     if negb connected then raise (ConnectionError "Transport failed to connect")
     else
       modify (set_connected true) ;;
       try_except
         (response ← send_request INITIALIZE
            [("protocolVersion", PStr "2024-11-05");
             ("capabilities", PDict [("tools", PDict []); ("resources", PDict [])]);
             ("clientInfo", PDict [("name", PStr "CS-Agent-MCP-Client");
                                   ("version", PStr "1.0.0")])];
          if is_success response
          then modify (set_server_info (result response))
          else mret tt)
         (fun _ => mret tt) ;;
       self ← get;
       (if cache_tools self
        then try_except (list_tools codes false ;; mret tt) (fun _ => mret tt)
        else mret tt) ;;
       mret true)
    (fun e =>
       if is_MCPError e then raise e
       else raise (ConnectionError ("Failed to connect: " +:+ e_message e))).

Definition disconnect : M MCPClient unit :=
  on_transport transport_disconnect ;;
  modify (set_connected false) ;;
  modify (set_tools_cache ∅) ;;
  modify (set_tools_cache_time None) ;;
  modify (set_server_info None).

(** [type(v).__name__] and [len(v)], which raises [TypeError] on a value
    without length. *)
Definition type_name (v : pyval) : string :=
  match v with
  | PNone => "NoneType"
  | PBool _ => "bool"
  | PInt _ => "int"
  | PStr _ => "str"
  | PList _ => "list"
  | PDict _ => "dict"
  end.

Definition py_exception (message : string) : exn :=
  mkExn OtherException message None false None None [] None.

Definition py_len {S} (v : pyval) : M S nat :=
  match v with
  | PStr s => mret (len s)
  | PList l => mret (length l)
  | PDict d => mret (length d)
  | _ => raise (py_exception ("object of type '" +:+ type_name v +:+ "' has no len()"))
  end.

(** [v.get(k, dflt)] on an arbitrary value: only a dictionary has [get]. *)
Definition py_get {S} (v : pyval) (k : string) (dflt : pyval) : M S pyval :=
  match v with
  | PDict d => mret (dget_or k dflt d)
  | _ => raise (py_exception ("'" +:+ type_name v +:+ "' object has no attribute 'get'"))
  end.

Definition list_resources (codes : ErrorCodes) : M MCPClient pyval :=
  self ← get;
  if negb (is_connected self) then raise (ConnectionError "Not connected to MCP server")
  else
    response ← send_request RESOURCES_LIST [];
    (if negb (is_success response)
     then raise (_handle_error_response codes response "list_resources")
     else mret tt) ;;
    resources ←
      match result response with
      | Some r => if truthy r then py_get r "resources" (PList []) else mret (PList [])
      | None => mret (PList [])
      end;
    py_len resources ;;
    mret resources.

Definition read_resource (codes : ErrorCodes) (uri : string) : M MCPClient pyval :=
  self ← get;
  if negb (is_connected self) then raise (ConnectionError "Not connected to MCP server")
  else
    response ← send_request RESOURCES_READ [("uri", PStr uri)];
    (if negb (is_success response)
     then raise (_handle_error_response codes response "read_resource")
     else mret tt) ;;
    match result response with
    | Some r => if truthy r then mret r else mret (PDict [])
    | None => mret (PDict [])
    end.

Definition ping (codes : ErrorCodes) : M MCPClient bool :=
  self ← get;
  if negb (is_connected self) then mret false
  else
    try_except
      (response ← send_request PING [];
       mret (is_success response
             || bool_decide (error_code response = Some (METHOD_NOT_FOUND codes))))
      (fun _ => mret false).

(** ** [MCPCredentials] and [MCPSecurityManager] ([core/mcp/security.py]) *)

Record MCPCredentials := mkCredentials {
  server_url : string;
  cred_provider : string;
  server_id : option string;
  created_at : Z;
  expires_at : option Z;
  cred_metadata : dict
}.

Record MCPSecurityManager := mkSecurityManager {
  _credentials_cache : gmap string MCPCredentials;
  _mcp_enabled : bool;
  sm_clock : Clock
}.

Definition sm_now : M MCPSecurityManager Z :=
  fun self =>
    let '(t, k) := read_clock (sm_clock self) in
    (Ret t, mkSecurityManager (_credentials_cache self) (_mcp_enabled self) k).

(** The property [is_expired]: the clock is read only when an expiry is set. *)
Definition is_expired (creds : MCPCredentials) : M MCPSecurityManager bool :=
  match expires_at creds with
  | None => mret false
  | Some expiry => now ← sm_now; mret (bool_decide (now > expiry))
  end.

(** The property [is_valid]: [bool(self.server_url) and not self.is_expired]. *)
Definition is_valid (creds : MCPCredentials) : M MCPSecurityManager bool :=
  if String.eqb (server_url creds) "" then mret false
  else expired ← is_expired creds; mret (negb expired).

Definition is_zapier_configured : M MCPSecurityManager bool :=
  self ← get;
  match _credentials_cache self !! "zapier" with
  | Some creds => is_valid creds
  | None => mret false
  end.

Definition get_zapier_credentials : M MCPSecurityManager (option MCPCredentials) :=
  configured ← is_zapier_configured;
  if negb configured then mret None
  else
    self ← get;
    match _credentials_cache self !! "zapier" with
    | None => raise (mkExn OtherException "'zapier'" None false None None [] None)
    | Some creds =>
        expired ← is_expired creds;
        if (expired : bool) then
          raise (AuthenticationError "Zapier MCP credentials have expired" true)
        else mret (Some creds)
    end.

Definition sensitive_patterns : list string :=
  ["url"; "token"; "secret"; "key"; "password"; "auth"; "credential"].

Definition mask_string (value : string) : string :=
  if Nat.ltb 8 (len value) then take 4 value +:+ "..." +:+ last_n 4 value
  else "****".

Fixpoint _mask_value (key : string) (value : pyval) : pyval :=
  match value with
  | PDict d => PDict (map (fun kv => (fst kv, _mask_value (fst kv) (snd kv))) d)
  | PList l => PList (map (_mask_value key) l)
  | PStr s =>
      let key_lower := lower key in
      if any (fun pattern => str_in pattern key_lower) sensitive_patterns
      then PStr (mask_string s)
      else value
  | _ => value
  end.

Definition mask_sensitive_data (data : dict) : dict :=
  map (fun kv => (fst kv, _mask_value (fst kv) (snd kv))) data.

(** *** The identifier and the URL shown in logs *)

(** [s.rstrip(c)] and [s.split(c)] for a one-character argument, and
    [s.partition(sep)] for a separator that is not empty: the text before and
    after the first occurrence of [sep], if there is one. *)
Fixpoint rstrip (c : ascii) (s : string) : string :=
  match s with
  | "" => ""
  | String x s' =>
      match rstrip c s' with
      | "" => if Ascii.eqb x c then "" else String x ""
      | r => String x r
      end
  end.

Fixpoint split (sep : ascii) (s : string) : list string :=
  match s with
  | "" => [""]
  | String c s' =>
      if Ascii.eqb c sep then "" :: split sep s'
      else match split sep s' with
           | w :: ws => String c w :: ws
           | [] => [String c ""]
           end
  end.

Fixpoint partition (sep s : string) : option (string * string) :=
  if String.prefix sep s then Some ("", drop (len sep) s)
  else match s with
       | "" => None
       | String c s' =>
           match partition sep s' with
           | Some (before, after) => Some (String c before, after)
           | None => None
           end
       end.

(** [s.split(sep)[0]] and, when [sep] occurs in [s], [s.split(sep)[1]]. *)
Definition split_first (sep s : string) : string :=
  match partition sep s with
  | Some (before, _) => before
  | None => s
  end.

Definition split_second (sep s : string) : option string :=
  match partition sep s with
  | Some (_, after) => Some (split_first sep after)
  | None => None
  end.

Definition slash : ascii := ascii_of_nat 47.

Definition _extract_server_id (url : string) : string :=
  if String.eqb url "" then "unknown"
  else
    let parts := split slash (rstrip slash url) in
    match parts with
    | [] => "unknown"
    | _ =>
        let server_id := List.last parts "" in
        if Nat.ltb 8 (len server_id)
        then take 4 server_id +:+ "..." +:+ last_n 4 server_id
        else "****"
    end.

Definition masked_url (self : MCPCredentials) : string :=
  if String.eqb (server_url self) "" then "[NO_URL]"
  else if str_in "://" (server_url self) then
    let scheme_host := split_first "://" (server_url self) +:+ "://" in
    match split_second "://" (server_url self) with
    | Some rest =>
        if str_in "/" rest then
          let host := default "" (head (split slash rest)) in
          scheme_host +:+ host +:+ "/***MASKED***"
        else scheme_host +:+ take 10 rest +:+ "...***"
    | None => "***MASKED_URL***"
    end
  else "***MASKED_URL***".

(** *** Loading and rotating the credentials

    The process environment is a finite map from names to values;
    [os.getenv(name)] is a lookup. *)

Definition ENV_ZAPIER_MCP_URL : string := "ZAPIER_MCP_SERVER_URL".
Definition ENV_ZAPIER_MCP_SECRET : string := "ZAPIER_MCP_SERVER_SECRET".
Definition ENV_MCP_ENABLED : string := "MCP_ENABLED".

Definition _validate_zapier_url (url : string) : bool :=
  if String.eqb url "" then false
  else if negb (startswith url "https://") then false
  else if negb (str_in "zapier.com" (lower url)) then false
  else true.

(** [MCPCredentials(server_url=url, provider="zapier", metadata=...)]: the
    creation time is read off the clock and [__post_init__] derives the
    identifier. *)
Definition new_credentials (url : string) (has_secret : bool)
  : M MCPSecurityManager MCPCredentials :=
  now ← sm_now;
  mret (mkCredentials url "zapier"
          (if negb (String.eqb url "") then Some (_extract_server_id url) else None)
          now None [("has_secret", PBool has_secret)]).

Definition set_credentials_cache (x : gmap string MCPCredentials)
    (self : MCPSecurityManager) : MCPSecurityManager :=
  mkSecurityManager x (_mcp_enabled self) (sm_clock self).

Definition set_mcp_enabled (x : bool) (self : MCPSecurityManager) : MCPSecurityManager :=
  mkSecurityManager (_credentials_cache self) x (sm_clock self).

(** [_load_environment]: the result of [_validate_zapier_url] only selects a
    warning for the log, the URL is stored whatever it is. *)
Definition _load_environment (env : gmap string string) : M MCPSecurityManager unit :=
  modify (set_mcp_enabled
            (String.eqb (lower (default "false" (env !! ENV_MCP_ENABLED))) "true")) ;;
  match env !! ENV_ZAPIER_MCP_URL with
  | Some zapier_url =>
      if negb (String.eqb zapier_url "") then
        let has_secret :=
          match env !! ENV_ZAPIER_MCP_SECRET with
          | Some secret => negb (String.eqb secret "")
          | None => false
          end in
        creds ← new_credentials zapier_url has_secret;
        modify (fun self =>
                  set_credentials_cache (<["zapier" := creds]> (_credentials_cache self)) self)
      else mret tt
  | None => mret tt
  end.

(** [MCPSecurityManager.__init__], in the environment [env]. *)
Definition MCPSecurityManager_init (env : gmap string string) (clock : Clock)
  : MCPSecurityManager :=
  (_load_environment env (mkSecurityManager ∅ false clock)).2.

Definition is_mcp_enabled (self : MCPSecurityManager) : bool := _mcp_enabled self.

(** [rotate_credentials(provider)]; [env] is the environment after
    [load_dotenv(override=True)] has reloaded it. *)
Definition rotate_credentials (env : gmap string string) (provider : string)
  : M MCPSecurityManager bool :=
  modify (fun self =>
            set_credentials_cache (delete provider (_credentials_cache self)) self) ;;
  _load_environment env ;;
  self ← get;
  mret (bool_decide (is_Some (_credentials_cache self !! provider))).

(** ** Zapier tools and their categories ([core/mcp/zapier_integration.py]) *)

Inductive ZapierToolCategory :=
| EMAIL | CRM | SPREADSHEET | CALENDAR | MESSAGING | PROJECT | STORAGE | SOCIAL
| ECOMMERCE | SUPPORT | AUTOMATION | DATABASE | MARKETING | ANALYTICS | FINANCE
| HR | OTHER.

(** [category.value] *)
Definition category_value (c : ZapierToolCategory) : string :=
  match c with
  | EMAIL => "email" | CRM => "crm" | SPREADSHEET => "spreadsheet"
  | CALENDAR => "calendar" | MESSAGING => "messaging" | PROJECT => "project"
  | STORAGE => "storage" | SOCIAL => "social" | ECOMMERCE => "ecommerce"
  | SUPPORT => "support" | AUTOMATION => "automation" | DATABASE => "database"
  | MARKETING => "marketing" | ANALYTICS => "analytics" | FINANCE => "finance"
  | HR => "hr" | OTHER => "other"
  end.

Record ZapierTool := mkZapierTool {
  mcp_tool : MCPTool;
  app_name : string;
  action_name : string;
  zt_category : ZapierToolCategory;
  requires_auth : bool;
  is_configured : bool
}.

Definition CATEGORY_PREFIXES : list (string * ZapierToolCategory) :=
  [("gmail", EMAIL);
   ("outlook", EMAIL);
   ("sendgrid", EMAIL);
   ("mailchimp", EMAIL);
   ("mailgun", EMAIL);
   ("postmark", EMAIL);
   ("slack", MESSAGING);
   ("discord", MESSAGING);
   ("teams", MESSAGING);
   ("telegram", MESSAGING);
   ("whatsapp", MESSAGING);
   ("twilio", MESSAGING);
   ("sms", MESSAGING);
   ("google_sheets", SPREADSHEET);
   ("sheets", SPREADSHEET);
   ("excel", SPREADSHEET);
   ("airtable", SPREADSHEET);
   ("smartsheet", SPREADSHEET);
   ("notion", PROJECT);
   ("trello", PROJECT);
   ("asana", PROJECT);
   ("jira", PROJECT);
   ("monday", PROJECT);
   ("clickup", PROJECT);
   ("basecamp", PROJECT);
   ("todoist", PROJECT);
   ("calendar", CALENDAR);
   ("google_calendar", CALENDAR);
   ("outlook_calendar", CALENDAR);
   ("calendly", CALENDAR);
   ("salesforce", CRM);
   ("hubspot", CRM);
   ("pipedrive", CRM);
   ("zoho", CRM);
   ("copper", CRM);
   ("freshsales", CRM);
   ("zendesk", SUPPORT);
   ("intercom", SUPPORT);
   ("freshdesk", SUPPORT);
   ("helpscout", SUPPORT);
   ("crisp", SUPPORT);
   ("shopify", ECOMMERCE);
   ("stripe", ECOMMERCE);
   ("woocommerce", ECOMMERCE);
   ("square", ECOMMERCE);
   ("paypal", ECOMMERCE);
   ("google_drive", STORAGE);
   ("drive", STORAGE);
   ("dropbox", STORAGE);
   ("onedrive", STORAGE);
   ("box", STORAGE);
   ("twitter", SOCIAL);
   ("facebook", SOCIAL);
   ("instagram", SOCIAL);
   ("linkedin", SOCIAL);
   ("youtube", SOCIAL);
   ("tiktok", SOCIAL);
   ("mysql", DATABASE);
   ("postgres", DATABASE);
   ("mongodb", DATABASE);
   ("firebase", DATABASE);
   ("supabase", DATABASE);
   ("mailerlite", MARKETING);
   ("convertkit", MARKETING);
   ("activecampaign", MARKETING);
   ("drip", MARKETING);
   ("google_analytics", ANALYTICS);
   ("mixpanel", ANALYTICS);
   ("amplitude", ANALYTICS);
   ("zapier", AUTOMATION);
   ("webhook", AUTOMATION);
   ("code", AUTOMATION)].

(** [s.replace(a, b)] for characters and [s.title()]. *)
Fixpoint replace (a b : ascii) (s : string) : string :=
  match s with
  | "" => ""
  | String c s' => String (if Ascii.eqb c a then b else c) (replace a b s')
  end.

Definition is_upper (c : ascii) : bool :=
  let n := nat_of_ascii c in ((65 <=? n) && (n <=? 90))%nat.
Definition is_lower (c : ascii) : bool :=
  let n := nat_of_ascii c in ((97 <=? n) && (n <=? 122))%nat.
Definition upper_ascii (c : ascii) : ascii :=
  if is_lower c then ascii_of_nat (nat_of_ascii c - 32) else c.

Fixpoint title_from (previous_cased : bool) (s : string) : string :=
  match s with
  | "" => ""
  | String c s' =>
      if is_upper c || is_lower c
      then String (if previous_cased then lower_ascii c else upper_ascii c)
                  (title_from true s')
      else String c (title_from false s')
  end.

Definition title (s : string) : string := title_from false s.

Definition underscore : ascii := ascii_of_nat 95.
Definition space : ascii := ascii_of_nat 32.
Definition full_stop : ascii := ascii_of_nat 46.

(** The loop of [_categorize_tool] over the prefix table: the first entry that
    matches decides. *)
Fixpoint find_category (name_lower : string)
    (table : list (string * ZapierToolCategory)) : ZapierToolCategory :=
  match table with
  | [] => OTHER
  | (prefix, cat) :: rest =>
      if startswith name_lower prefix || str_in ("_" +:+ prefix) name_lower
      then cat
      else find_category name_lower rest
  end.

Definition _categorize_tool (mcp_tool : MCPTool) : ZapierTool :=
  let name_lower := lower (name mcp_tool) in
  let category := find_category name_lower CATEGORY_PREFIXES in
  let parts := split underscore (name mcp_tool) in
  let '(app_name, action_name) :=
    match parts with
    | first :: (_ :: _) as action_parts =>
        (title (replace underscore space first),
         title (replace underscore space (join " " action_parts)))
    | _ => (title (name mcp_tool), "Action")
    end in
  let action_name :=
    if negb (String.eqb (description mcp_tool) "") then
      let first_sentence := default "" (head (split full_stop (description mcp_tool))) in
      if Nat.ltb (len first_sentence) 50 then first_sentence else action_name
    else action_name in
  mkZapierTool mcp_tool app_name action_name category true true.

(** ** [ZapierMCPClient] *)

Record ZapierMCPClient := mkZapierClient {
  z_client : option MCPClient;
  _tools : gmap string ZapierTool;
  z_connected : bool;
  _action_count : nat;
  _success_count : nat;
  z_error_count : nat;
  _actions_by_category : gmap string nat;
  _actions_by_tool : gmap string nat
}.

Definition zset_client (x : option MCPClient) (self : ZapierMCPClient) : ZapierMCPClient :=
  mkZapierClient x (_tools self) (z_connected self) (_action_count self) (_success_count self) (z_error_count self) (_actions_by_category self) (_actions_by_tool self).
Definition zset_tools (x : gmap string ZapierTool) (self : ZapierMCPClient) : ZapierMCPClient :=
  mkZapierClient (z_client self) x (z_connected self) (_action_count self) (_success_count self) (z_error_count self) (_actions_by_category self) (_actions_by_tool self).
Definition zset_connected (x : bool) (self : ZapierMCPClient) : ZapierMCPClient :=
  mkZapierClient (z_client self) (_tools self) x (_action_count self) (_success_count self) (z_error_count self) (_actions_by_category self) (_actions_by_tool self).
Definition zset_action_count (x : nat) (self : ZapierMCPClient) : ZapierMCPClient :=
  mkZapierClient (z_client self) (_tools self) (z_connected self) x (_success_count self) (z_error_count self) (_actions_by_category self) (_actions_by_tool self).
Definition zset_success_count (x : nat) (self : ZapierMCPClient) : ZapierMCPClient :=
  mkZapierClient (z_client self) (_tools self) (z_connected self) (_action_count self) x (z_error_count self) (_actions_by_category self) (_actions_by_tool self).
Definition zset_error_count (x : nat) (self : ZapierMCPClient) : ZapierMCPClient :=
  mkZapierClient (z_client self) (_tools self) (z_connected self) (_action_count self) (_success_count self) x (_actions_by_category self) (_actions_by_tool self).
Definition zset_actions_by_category (x : gmap string nat) (self : ZapierMCPClient) : ZapierMCPClient :=
  mkZapierClient (z_client self) (_tools self) (z_connected self) (_action_count self) (_success_count self) (z_error_count self) x (_actions_by_tool self).
Definition zset_actions_by_tool (x : gmap string nat) (self : ZapierMCPClient) : ZapierMCPClient :=
  mkZapierClient (z_client self) (_tools self) (z_connected self) (_action_count self) (_success_count self) (z_error_count self) (_actions_by_category self) x.

(** ** [ZapierToolManager] *)

Record ZapierToolManager := mkToolManager {
  m_client : option ZapierMCPClient;
  _initialized : bool;
  prefix : string
}.

(** [ZapierToolManager.__init__] *)
Definition ZapierToolManager_init (prefix : string) : ZapierToolManager :=
  mkToolManager None false prefix.

(** The property [display_name] of a tool, and the schema that
    [_generate_schema] hands to the language model: a dictionary with these
    nine keys. *)
Definition display_name (tool : ZapierTool) : string :=
  app_name tool +:+ ": " +:+ action_name tool.

Record ToolSchema := mkToolSchema {
  ts_name : string;
  ts_display_name : string;
  ts_description : string;
  ts_category : string;
  ts_app : string;
  ts_action : string;
  ts_parameters : Schema;
  ts_required : list string;
  ts_optional : list string
}.

Definition _generate_schema (self : ZapierToolManager) (tool : ZapierTool) : ToolSchema :=
  mkToolSchema (prefix self +:+ name (mcp_tool tool))
               (display_name tool)
               (description (mcp_tool tool))
               (category_value (zt_category tool))
               (app_name tool)
               (action_name tool)
               (input_schema (mcp_tool tool))
               (required_params (mcp_tool tool))
               (optional_params (mcp_tool tool)).

(** What escapes from one step of the scan of a result: a value returned, the
    next item, or an exception that the outer handler turns into [None]. *)
Inductive scan :=
| Return (v : pyval)
| Next
| Abort.

Fixpoint for_items (body : pyval -> scan) (items : list pyval) : scan :=
  match items with
  | [] => Next
  | item :: rest =>
      match body item with
      | Next => for_items body rest
      | out => out
      end
  end.

(** What [json.loads] does with a string: it returns the decoded value,
    raises [JSONDecodeError] on a text that is not JSON, or raises another
    exception ([RecursionError] on a nesting beyond the interpreter's limit,
    [ValueError] on an integer beyond its limit of digits). *)
Inductive json_outcome :=
| Decoded (v : pyval)
| NotJson
| JsonFailure.

Section Zapier.

(** The integer constants of [JSONRPCErrorCode], the standard library's
    [json.loads] on a string and the builtin [str]. *)
Variable codes : ErrorCodes.
Variable json_loads : string -> json_outcome.
Variable py_str : pyval -> string.

(** A call on [self._client]; on [None] Python raises [AttributeError]. *)
Definition on_client {A} (m : M MCPClient A) : M ZapierMCPClient A :=
  fun self =>
    match z_client self with
    | Some c => let '(r, c') := m c in (r, zset_client (Some c') self)
    | None =>
        (Raise (mkExn OtherException "'NoneType' object has no attribute"
                      None false None None [] None), self)
    end.

Definition increment (k : string) (counts : gmap string nat) : gmap string nat :=
  <[k := (default 0 (counts !! k) + 1)%nat]> counts.

Definition refresh_tools : M ZapierMCPClient (list ZapierTool) :=
  self ← get;
  match z_client self with
  | None => raise (ConnectionError "Not connected to Zapier")
  | Some _ =>
      mcp_tools ← on_client (list_tools codes true);
      modify (zset_tools ∅) ;;
      modify (fun self =>
                zset_tools
                  (foldl (fun tools tool =>
                            let zapier_tool := _categorize_tool tool in
                            <[name (mcp_tool zapier_tool) := zapier_tool]> tools)
                         (_tools self) mcp_tools)
                  self) ;;
      self ← get;
      mret (map_to_list (_tools self)).*2
  end.

Definition zapier_get_tool (tool_name : string) : M ZapierMCPClient (option ZapierTool) :=
  self ← get;
  (if bool_decide (_tools self = ∅) then refresh_tools ;; mret tt else mret tt) ;;
  self ← get;
  mret (_tools self !! tool_name).

Definition count_error : M ZapierMCPClient unit :=
  modify (fun self => zset_error_count (S (z_error_count self)) self).

Definition execute_action (tool_name : string) (ps : dict)
  : M ZapierMCPClient MCPToolResult :=
  self ← get;
  match z_client self with
  | None => raise (ConnectionError "Not connected to Zapier")
  | Some _ =>
      modify (fun self => zset_action_count (S (_action_count self)) self) ;;
      tool ← zapier_get_tool tool_name;
      (match tool with
       | Some tool =>
           let cat := category_value (zt_category tool) in
           modify (fun self =>
                     zset_actions_by_category (increment cat (_actions_by_category self)) self)
       | None => mret tt
       end) ;;
      modify (fun self =>
                zset_actions_by_tool (increment tool_name (_actions_by_tool self)) self) ;;
      let safe_params := mask_sensitive_data ps in
      try_except
        (result ← on_client (call_tool codes tool_name ps None);
         (if success result
          then modify (fun self => zset_success_count (S (_success_count self)) self)
          else count_error) ;;
         mret result)
        (fun e =>
           count_error ;;
           if is_MCPError e then raise e
           else raise (ToolExecutionError ("Unexpected error: " +:+ e_message e) tool_name))
  end.


(** [ZapierMCPClient.disconnect] and the property [is_connected]: the client
    object is kept. *)
Definition zapier_disconnect : M ZapierMCPClient unit :=
  self ← get;
  (match z_client self with
   | Some _ => on_client disconnect
   | None => mret tt
   end) ;;
  modify (zset_connected false) ;;
  modify (zset_tools ∅).

Definition zapier_is_connected (self : ZapierMCPClient) : bool :=
  z_connected self &&
  match z_client self with
  | Some c => is_connected c
  | None => false
  end.

(** [json.loads(text)] inside [try ... except json.JSONDecodeError]: a value,
    the decode error, or an exception that only the outer handler catches: a
    [TypeError] for a [text] that is no string, or what [json.loads] raises
    on a string besides the decode error. *)
Inductive loaded :=
| Parsed (v : pyval)
| DecodeError (text : string)
| TypeError
| OtherError.

Definition loads (text : pyval) : loaded :=
  match text with
  | PStr s =>
      match json_loads s with
      | Decoded v => Parsed v
      | NotJson => DecodeError s
      | JsonFailure => OtherError
      end
  | _ => TypeError
  end.

Definition is_question_text (text : string) : bool :=
  str_in "Question:" text || (str_in "?" text && str_in "which" (lower text)).

Definition is_question_error (error : pyval) : bool :=
  truthy error && (str_in "Question:" (py_str error) || str_in "?" (py_str error)).

Definition is_text_item (item : pyval) : option pyval :=
  match item with
  | PDict d =>
      if eq_str (dget_or "type" PNone d) "text"
      then Some (dget_or "text" (PStr "") d)
      else None
  | _ => None
  end.

Definition _extract_zapier_error_or_question (result : pyval) : pyval :=
  if negb (truthy result) then PNone
  else
    match result with
    | PDict result =>
        if truthy (dget_or "isError" PNone result) then
          let found :=
            match dget_or "content" (PList []) result with
            | PList content =>
                for_items
                  (fun item =>
                     match is_text_item item with
                     | Some text =>
                         match loads text with
                         | Parsed (PDict parsed) =>
                             if truthy (dget_or "error" PNone parsed)
                             then Return (dget_or "error" PNone parsed)
                             else Next
                         | Parsed _ => Next
                         | DecodeError _ => Next
                         | TypeError | OtherError => Abort
                         end
                     | None => Next
                     end)
                  content
            | _ => Next
            end in
          match found with
          | Return v => v
          | Next => PStr "Zapier returned an error"
          | Abort => PNone
          end
        else
          let found :=
            match dget_or "content" (PList []) result with
            | PList content =>
                for_items
                  (fun item =>
                     match is_text_item item with
                     | Some text =>
                         match loads text with
                         | Parsed (PDict parsed) =>
                             if truthy (dget_or "isError" PNone parsed) then
                               Return (dget_or "error" (PStr "Zapier returned an error") parsed)
                             else
                               let error := dget_or "error" (PStr "") parsed in
                               if is_question_error error then Return error
                               else
                                 let question := dget_or "question" (PStr "") parsed in
                                 if truthy question then Return question else Next
                         | Parsed _ => Next
                         | DecodeError text =>
                             if is_question_text text then Return (PStr text) else Next
                         | TypeError | OtherError => Abort
                         end
                     | None => Next
                     end)
                  content
            | _ => Next
            end in
          match found with
          | Return v => v
          | _ => PNone
          end
    | PStr result =>
        match json_loads result with
        | Decoded (PDict parsed) =>
            if truthy (dget_or "isError" PNone parsed) then
              dget_or "error" (PStr "Zapier returned an error") parsed
            else
              let error := dget_or "error" (PStr "") parsed in
              if is_question_error error then error else PNone
        | Decoded _ => PNone
        | NotJson => if is_question_text result then PStr result else PNone
        | JsonFailure => PNone
        end
    | _ => PNone
    end.

Definition _extract_zapier_question (result : pyval) : pyval :=
  _extract_zapier_error_or_question result.

(** A call on the manager's [self._client]. *)
Definition on_zapier {A} (m : M ZapierMCPClient A) : M ZapierToolManager A :=
  fun self =>
    match m_client self with
    | Some z =>
        let '(r, z') := m z in
        (r, mkToolManager (Some z') (_initialized self) (prefix self))
    | None =>
        (Raise (mkExn OtherException "'NoneType' object has no attribute"
                      None false None None [] None), self)
    end.

Definition opt_str (s : option string) : pyval :=
  match s with Some s => PStr s | None => PNone end.

Definition opt_int (z : option Z) : pyval :=
  match z with Some z => PInt z | None => PNone end.

(** [tool_name[len(prefix):]] when the name starts with the prefix, and
    [params or {}]. *)
Definition actual_tool_name (prefix tool_name : string) : string :=
  if startswith tool_name prefix then drop (len prefix) tool_name else tool_name.

Definition or_empty (ps : option dict) : dict := default [] ps.

Definition execute (query : string) (user_id : option string)
    (tool_name : option string) (ps : option dict) : M ZapierToolManager dict :=
  self ← get;
  if negb (_initialized self) || negb (bool_decide (is_Some (m_client self))) then
    mret [("success", PBool false);
          ("error", PStr "ZapierToolManager not initialized");
          ("tool", opt_str tool_name);
          ("provider", PStr "zapier_mcp")]
  else
    match tool_name with
    | None | Some "" =>
        mret [("success", PBool false);
              ("error", PStr "No tool_name provided");
              ("tool", PNone);
              ("provider", PStr "zapier_mcp")]
    | Some tool_name =>
        let actual_tool_name := actual_tool_name (prefix self) tool_name in
        try_except
          (result ← on_zapier (execute_action actual_tool_name (or_empty ps));
           let zapier_question := _extract_zapier_question (tr_result result) in
           if truthy zapier_question then
             mret [("success", PBool false);
                   ("tool", PStr tool_name);
                   ("result", tr_result result);
                   ("error", PStr ("Zapier needs more information: "
                                   +:+ py_str zapier_question));
                   ("needs_clarification", PBool true);
                   ("clarification_question", zapier_question);
                   ("execution_time_ms", opt_int (execution_time_ms result));
                   ("provider", PStr "zapier_mcp")]
           else
             mret [("success", PBool (success result));
                   ("tool", PStr tool_name);
                   ("result", tr_result result);
                   ("error", opt_str (error result));
                   ("execution_time_ms", opt_int (execution_time_ms result));
                   ("provider", PStr "zapier_mcp")])
          (fun e =>
             if is_MCPError e then
               mret [("success", PBool false);
                     ("tool", PStr tool_name);
                     ("error", PStr (e_message e));
                     ("provider", PStr "zapier_mcp")]
             else
               mret [("success", PBool false);
                     ("tool", PStr tool_name);
                     ("error", PStr ("Unexpected error: " +:+ e_message e));
                     ("provider", PStr "zapier_mcp")])
    end.

End Zapier.

(** ** Instances of the builtins for concrete runs

    [json_decode] decodes the JSON fragment without fractions, exponents and
    [\u] escapes the way [json.loads] does (a later duplicate key overwrites
    the value of the earlier one); [json_loads_ascii] is [json.loads] on the
    texts of that fragment whose integers and nesting stay within the limits
    of the interpreter, where it returns or raises [JSONDecodeError];
    [py_str_ascii] is [str] on values whose strings are ASCII. *)

Module Json.

Definition quote : ascii := ascii_of_nat 34.
Definition backslash : ascii := ascii_of_nat 92.

Definition is_ws (c : ascii) : bool :=
  let n := nat_of_ascii c in
  (n =? 32)%nat || (n =? 9)%nat || (n =? 10)%nat || (n =? 13)%nat.

Fixpoint skip_ws (s : string) : string :=
  match s with
  | String c s' => if is_ws c then skip_ws s' else s
  | "" => ""
  end.

Definition unescape (c : ascii) : option ascii :=
  let n := nat_of_ascii c in
  if (n =? 34)%nat then Some quote
  else if (n =? 92)%nat then Some backslash
  else if (n =? 47)%nat then Some (ascii_of_nat 47)
  else if (n =? 98)%nat then Some (ascii_of_nat 8)
  else if (n =? 102)%nat then Some (ascii_of_nat 12)
  else if (n =? 110)%nat then Some (ascii_of_nat 10)
  else if (n =? 114)%nat then Some (ascii_of_nat 13)
  else if (n =? 116)%nat then Some (ascii_of_nat 9)
  else None.

(** The characters of a string literal after its opening quote. *)
Fixpoint string_body (s : string) : option (string * string) :=
  match s with
  | "" => None
  | String c s' =>
      if Ascii.eqb c quote then Some ("", s')
      else if Ascii.eqb c backslash then
        match s' with
        | String e s'' =>
            match unescape e, string_body s'' with
            | Some c', Some (body, rest) => Some (String c' body, rest)
            | _, _ => None
            end
        | "" => None
        end
      else if (nat_of_ascii c <? 32)%nat then None
      else match string_body s' with
           | Some (body, rest) => Some (String c body, rest)
           | None => None
           end
  end.

Definition digit (c : ascii) : option Z :=
  let n := nat_of_ascii c in
  if ((48 <=? n) && (n <=? 57))%nat then Some (Z.of_nat (n - 48)) else None.

Fixpoint digits (acc : Z) (s : string) : Z * string :=
  match s with
  | String c s' =>
      match digit c with
      | Some d => digits (10 * acc + d) s'
      | None => (acc, s)
      end
  | "" => (acc, s)
  end.

Definition ends_number (s : string) : bool :=
  match s with
  | String c _ =>
      let n := nat_of_ascii c in
      negb ((n =? 46)%nat || (n =? 101)%nat || (n =? 69)%nat)
  | "" => true
  end.

Definition number (s : string) : option (Z * string) :=
  let '(negative, s) :=
    match s with
    | String c s' => if (nat_of_ascii c =? 45)%nat then (true, s') else (false, s)
    | "" => (false, s)
    end in
  match s with
  | String c _ =>
      match digit c with
      | Some _ =>
          let '(n, rest) := digits 0 s in
          if ends_number rest then Some (if negative then - n else n, rest) else None
      | None => None
      end
  | "" => None
  end.

(** [d[k] = v] *)
Fixpoint dset (k : string) (v : pyval) (d : dict) : dict :=
  match d with
  | [] => [(k, v)]
  | (k', v') :: d' => if String.eqb k k' then (k, v) :: d' else (k', v') :: dset k v d'
  end.

Definition literal (word : string) (v : pyval) (s : string) : option (pyval * string) :=
  if String.prefix word s then Some (v, drop (len word) s) else None.

Fixpoint value (fuel : nat) (s : string) : option (pyval * string) :=
  match fuel with
  | O => None
  | S fuel =>
      match skip_ws s with
      | "" => None
      | String c rest =>
          let n := nat_of_ascii c in
          if (n =? 123)%nat then
            match skip_ws rest with
            | String c' rest' =>
                if (nat_of_ascii c' =? 125)%nat then Some (PDict [], rest')
                else members fuel [] rest
            | "" => None
            end
          else if (n =? 91)%nat then
            match skip_ws rest with
            | String c' rest' =>
                if (nat_of_ascii c' =? 93)%nat then Some (PList [], rest')
                else elements fuel [] rest
            | "" => None
            end
          else if (n =? 34)%nat then
            match string_body rest with
            | Some (body, rest') => Some (PStr body, rest')
            | None => None
            end
          else if (n =? 116)%nat then literal "true" (PBool true) (String c rest)
          else if (n =? 102)%nat then literal "false" (PBool false) (String c rest)
          else if (n =? 110)%nat then literal "null" PNone (String c rest)
          else match number (String c rest) with
               | Some (z, rest') => Some (PInt z, rest')
               | None => None
               end
      end
  end
with members (fuel : nat) (acc : dict) (s : string) : option (pyval * string) :=
  match fuel with
  | O => None
  | S fuel =>
      match skip_ws s with
      | String c rest =>
          if Ascii.eqb c quote then
            match string_body rest with
            | Some (key, rest) =>
                match skip_ws rest with
                | String colon rest =>
                    if (nat_of_ascii colon =? 58)%nat then
                      match value fuel rest with
                      | Some (v, rest) =>
                          let acc := dset key v acc in
                          match skip_ws rest with
                          | String c' rest' =>
                              if (nat_of_ascii c' =? 44)%nat then members fuel acc rest'
                              else if (nat_of_ascii c' =? 125)%nat then Some (PDict acc, rest')
                              else None
                          | "" => None
                          end
                      | None => None
                      end
                    else None
                | "" => None
                end
            | None => None
            end
          else None
      | "" => None
      end
  end
with elements (fuel : nat) (acc : list pyval) (s : string) : option (pyval * string) :=
  match fuel with
  | O => None
  | S fuel =>
      match value fuel s with
      | Some (v, rest) =>
          let acc := (acc ++ [v])%list in
          match skip_ws rest with
          | String c' rest' =>
              if (nat_of_ascii c' =? 44)%nat then elements fuel acc rest'
              else if (nat_of_ascii c' =? 93)%nat then Some (PList acc, rest')
              else None
          | "" => None
          end
      | None => None
      end
  end.

Definition json_decode (s : string) : option pyval :=
  match value (S (len s)) s with
  | Some (v, rest) => if String.eqb (skip_ws rest) "" then Some v else None
  | None => None
  end.

End Json.

Definition json_loads_ascii (s : string) : json_outcome :=
  match Json.json_decode s with
  | Some v => Decoded v
  | None => NotJson
  end.

Definition hex_digit (n : nat) : ascii :=
  if (n <? 10)%nat then ascii_of_nat (48 + n) else ascii_of_nat (87 + n).

Definition repr_char (q c : ascii) : string :=
  let n := nat_of_ascii c in
  if Ascii.eqb c Json.backslash || Ascii.eqb c q then String Json.backslash (String c "")
  else if (n =? 10)%nat then String Json.backslash "n"
  else if (n =? 13)%nat then String Json.backslash "r"
  else if (n =? 9)%nat then String Json.backslash "t"
  else if (n <? 32)%nat || (n =? 127)%nat then
    String Json.backslash
      (String "x" (String (hex_digit (n / 16)) (String (hex_digit (n mod 16)) "")))
  else String c "".

Fixpoint repr_chars (q : ascii) (s : string) : string :=
  match s with
  | "" => ""
  | String c s' => repr_char q c +:+ repr_chars q s'
  end.

Definition repr_str (s : string) : string :=
  let q :=
    if str_in "'" s && negb (str_in (String Json.quote "") s)
    then Json.quote else "'"%char in
  String q (repr_chars q s) +:+ String q "".

Fixpoint py_repr (v : pyval) : string :=
  match v with
  | PNone => "None"
  | PBool true => "True"
  | PBool false => "False"
  | PInt z => pretty z
  | PStr s => repr_str s
  | PList l => "[" +:+ join ", " (map py_repr l) +:+ "]"
  | PDict d =>
      "{" +:+ join ", " (map (fun kv => repr_str (fst kv) +:+ ": " +:+ py_repr (snd kv)) d)
          +:+ "}"
  end.

Definition py_str_ascii (v : pyval) : string :=
  match v with
  | PStr s => s
  | _ => py_repr v
  end.

(** ** Reference definitions, in the words of the specification *)

(** A schema is well formed when every name under ["required"] is a key of
    ["properties"]; nothing in the code checks it. *)
Definition required_declared (schema : Schema) : bool :=
  match properties schema with
  | Some props => forallb (fun r => mem r (map fst props)) (default [] (required schema))
  | None => true
  end.

(** Masking as specified literally: the key name itself, in the case it is
    written in, contains a sensitive term. *)
Fixpoint _mask_value_as_specified (key : string) (value : pyval) : pyval :=
  match value with
  | PDict d => PDict (map (fun kv => (fst kv, _mask_value_as_specified (fst kv) (snd kv))) d)
  | PList l => PList (map (_mask_value_as_specified key) l)
  | PStr s =>
      if any (fun pattern => str_in pattern key) sensitive_patterns
      then PStr (mask_string s)
      else value
  | _ => value
  end.

Definition mask_sensitive_data_as_specified (data : dict) : dict :=
  map (fun kv => (fst kv, _mask_value_as_specified (fst kv) (snd kv))) data.

(** The offending parameters of a call: the required names that are missing
    from the parameters or explicitly null, in the order of the schema. *)
Definition is_offending (ps : dict) (required : string) : bool :=
  match dget required ps with
  | None | Some PNone => true
  | Some _ => false
  end.

Definition offending (tool : MCPTool) (ps : dict) : list string :=
  List.filter (is_offending ps) (required_params tool).

(** The message of [validate_params] about an offending parameter. *)
Definition offence_message (ps : dict) (required : string) : string :=
  match dget required ps with
  | None => "Missing required parameter: " +:+ required
  | Some _ => "Required parameter cannot be null: " +:+ required
  end.

(** The parameters of a call that the schema does not declare. *)
Definition unknown_params (tool : MCPTool) (ps : dict) : list string :=
  List.filter (fun param => negb (mem param (all_params tool))) (map fst ps).


(** The tools a response of [tools/list] carries. *)
Definition tools_in (response : MCPResponse ToolsListResult) : list MCPTool :=
  map from_dict
      match result response with
      | Some r => default [] (tools r)
      | None => []
      end.

(** The payload [{"content": [{"type": "text", "text": t}]}]. *)
Definition text_payload (t : string) : pyval :=
  PDict [("content", PList [PDict [("type", PStr "text"); ("text", PStr t)]])].

(** The text items of a content list all carry a string as their text, on
    which [json.loads] returns or raises [JSONDecodeError]: nothing reaches
    the outer handler. *)
Definition text_is_loadable (json_loads : string → json_outcome) (item : pyval) : bool :=
  match is_text_item item with
  | Some (PStr s) =>
      match json_loads s with
      | JsonFailure => false
      | _ => true
      end
  | Some _ => false
  | None => true
  end.

Definition texts_are_loadable (json_loads : string → json_outcome) (content : pyval)
  : bool :=
  match content with
  | PList items => forallb (text_is_loadable json_loads) items
  | _ => true
  end.

(** The three usage counters of [z'] are those of [z]. *)
Definition same_usage (z z' : ZapierMCPClient) : Prop :=
  _action_count z = _action_count z'
  ∧ _success_count z = _success_count z'
  ∧ z_error_count z = z_error_count z'.

(** A key is sensitive when its lower-cased name contains a sensitive term. *)
Definition sensitive (key : string) : Prop :=
  ∃ pattern a b, pattern ∈ sensitive_patterns ∧ lower key = a +:+ pattern +:+ b.

(** [Masked key v v']: [v'] is [v] with the strings under sensitive keys
    masked, [key] being the nearest enclosing key of [v]. *)
Inductive Masked : string → pyval → pyval → Prop :=
| Masked_dict key d d' :
    Forall2 (fun kv kv' => fst kv' = fst kv ∧ Masked (fst kv) (snd kv) (snd kv')) d d' →
    Masked key (PDict d) (PDict d')
| Masked_list key l l' :
    Forall2 (Masked key) l l' →
    Masked key (PList l) (PList l')
| Masked_long key s :
    sensitive key → (8 < len s)%nat →
    Masked key (PStr s) (PStr (take 4 s +:+ "..." +:+ last_n 4 s))
| Masked_short key s :
    sensitive key → (len s ≤ 8)%nat →
    Masked key (PStr s) (PStr "****")
| Masked_plain key s :
    ¬ sensitive key →
    Masked key (PStr s) (PStr s)
| Masked_none key : Masked key PNone PNone
| Masked_bool key b : Masked key (PBool b) (PBool b)
| Masked_int key z : Masked key (PInt z) (PInt z).

(** The operations on a client, and the state a sequence of them leaves. *)
Inductive ClientOp :=
| OpConnect
| OpDisconnect
| OpListTools (force_refresh : bool)
| OpGetTool (tool_name : string)
| OpCallTool (tool_name : string) (ps : dict) (validate : option bool)
| OpCallToolSafe (tool_name : string) (ps : dict)
| OpWorld (t : MCPTransport) (k : Clock).

Definition run_op (codes : ErrorCodes) (op : ClientOp) (c : MCPClient) : MCPClient :=
  match op with
  | OpConnect => (connect codes c).2
  | OpDisconnect => (disconnect c).2
  | OpListTools force_refresh => (list_tools codes force_refresh c).2
  | OpGetTool tool_name => (get_tool codes tool_name c).2
  | OpCallTool tool_name ps validate => (call_tool codes tool_name ps validate c).2
  | OpCallToolSafe tool_name ps => (call_tool_safe codes tool_name ps c).2
  | OpWorld t k => set_clock k (set_transport t c)
  end.

Definition run_ops (codes : ErrorCodes) (ops : list ClientOp) (c : MCPClient) : MCPClient :=
  foldl (fun c op => run_op codes op c) c ops.

(** The call and error counters of [c'] are at least, respectively exactly,
    those of [c]. *)
Definition counters_le (c c' : MCPClient) : Prop :=
  (_call_count c ≤ _call_count c')%nat ∧ (_error_count c ≤ _error_count c')%nat.

Definition counters_eq (c c' : MCPClient) : Prop :=
  _call_count c = _call_count c' ∧ _error_count c = _error_count c'.

(** A computation preserves [R] when [R] relates every state it starts in to
    the state it leaves, whether it returns or raises. *)
Definition preserves {S A} (R : relation S) (m : M S A) : Prop :=
  ∀ s, R s (m s).2.

(** ** A concrete gateway, for runs of the model *)

Definition example_codes : ErrorCodes :=
  mkErrorCodes (-32000) (-32029) (-32601) (-32602) (-32001).

(** The tool of the specification's example: it requires [to] and [subject]. *)
Definition gmail_schema : Schema :=
  mkSchema (Some [("to", PDict [("type", PStr "string")]);
                  ("subject", PDict [("type", PStr "string")]);
                  ("body", PDict [("type", PStr "string")])])
           (Some ["to"; "subject"]).

Definition gmail_tool : MCPTool :=
  mkTool "gmail_send_email" "Send an email" gmail_schema None None.

Definition calendar_tool : MCPTool :=
  mkTool "google_calendar_find_event" "Find an event" empty_schema None None.

Definition wire (tool : MCPTool) : ToolDict :=
  mkToolDict (Some (name tool)) (Some (description tool)) (Some (input_schema tool))
             None None None None None.

(** The text [{"error": "Which calendar did you mean?"}]. *)
Definition question_text : string :=
  "{" +:+ String Json.quote "error" +:+ String Json.quote ": "
      +:+ String Json.quote "Which calendar did you mean?" +:+ String Json.quote "}".

Definition question_payload : pyval :=
  PDict [("content", PList [PDict [("type", PStr "text"); ("text", PStr question_text)]])].

Definition ok_response {R} (payload : R) : MCPResponse R :=
  mkResponse true (Some payload) None None 12 false false (Some 200).

(** A gateway that offers [offered] and answers every call with [payload]. *)
Definition gateway (offered : list MCPTool) (payload : pyval)
    (n : nat) (m : MCPMethod) (ps : dict) : Res (MCPResponse (result_type m)) :=
  match m with
  | TOOLS_LIST => Ret (ok_response (mkToolsListResult (Some (map wire offered))))
  | TOOLS_CALL => Ret (ok_response payload)
  | _ => Ret (ok_response (PDict []))
  end.

Definition example_transport (offered : list MCPTool) (payload : pyval) : MCPTransport :=
  mkTransport true (Ret true) (gateway offered payload) [].

Definition example_clock : Clock := mkClock (fun n => 1000000 * Z.of_nat n) 0.

(** A connected client whose cache holds [cached]. *)
Definition example_client (cached offered : list MCPTool) (payload : pyval) : MCPClient :=
  mkClient (example_transport offered payload) example_clock true 300 true
           (foldl cache_tool ∅ cached) (Some 0) true None 0 0.

(** A manager after a successful [initialize], over a connected client. *)
Definition example_zapier (offered : list MCPTool) (payload : pyval) : ZapierMCPClient :=
  mkZapierClient (Some (example_client offered offered payload))
                 (foldl (fun zs t => <[name t := _categorize_tool t]> zs) ∅ offered)
                 true 0 0 0 ∅ ∅.

Definition example_manager (offered : list MCPTool) (payload : pyval) : ZapierToolManager :=
  mkToolManager (Some (example_zapier offered payload)) true "zapier_".

(** A gateway that offers [offered] and answers every call with a rate-limit
    error, and a client and a manager connected to it. *)
Definition limited_response : MCPResponse pyval :=
  mkResponse false None (Some "Too many requests") (Some (-32029)) 7 true false (Some 429).

Definition limiting_gateway (offered : list MCPTool)
    (n : nat) (m : MCPMethod) (ps : dict) : Res (MCPResponse (result_type m)) :=
  match m with
  | TOOLS_LIST => Ret (ok_response (mkToolsListResult (Some (map wire offered))))
  | TOOLS_CALL => Ret limited_response
  | _ => Ret (ok_response (PDict []))
  end.

Definition limited_client (offered : list MCPTool) : MCPClient :=
  mkClient (mkTransport true (Ret true) (limiting_gateway offered) []) example_clock
           true 300 true (foldl cache_tool ∅ offered) (Some 0) true None 0 0.



(** Credentials that expired at instant 1000, in a cache read at instant
    2000. *)
Definition expired_credentials : MCPCredentials :=
  mkCredentials "https://mcp.zapier.com/api/v1/abc123xyz789" "zapier"
                (Some "abc1...z789") 0 (Some 1000) [].

Definition expired_manager : MCPSecurityManager :=
  mkSecurityManager {["zapier" := expired_credentials]} true (mkClock (fun _ => 2000) 0).

Definition undeclared_required_tool : MCPTool :=
  mkTool "gmail_send_email" "Send an email"
         (mkSchema (Some [("a", PDict [])]) (Some ["b"])) None None.

Definition subject_only : dict := [("subject", PStr "hi")].

Definition email_params : dict :=
  [("to", PStr "user@example.com"); ("subject", PStr "hi")].

(** A bridge that still holds the calendar tool while the gateway now offers
    the mail tool only, and a payload flagged as an error by the gateway. *)
Definition stale_zapier : ZapierMCPClient :=
  mkZapierClient (Some (example_client [calendar_tool] [gmail_tool] PNone))
                 (foldl (fun zs t => <[name t := _categorize_tool t]> zs) ∅ [calendar_tool])
                 true 0 0 0 ∅ ∅.

Definition error_payload : pyval :=
  PDict [("isError", PBool true);
         ("content", PList [PDict [("type", PStr "text");
                                   ("text", PStr "upstream failure")]])].

Definition sent_payload : pyval := PDict [("id", PStr "msg-1")].

(** An environment whose URL is neither on HTTPS nor at Zapier, an empty
    environment, and a manager that holds credentials loaded earlier. *)
Definition foreign_environment : gmap string string :=
  {[ ENV_ZAPIER_MCP_URL := "http://example.org/hooks/abc123xyz789" ]}.

Definition empty_environment : gmap string string := ∅.

Definition loaded_manager : MCPSecurityManager :=
  mkSecurityManager
    {[ "zapier" := mkCredentials "https://mcp.zapier.com/api/v1/abc123xyz789"
                     "zapier" (Some "abc1...z789") 0 None [] ]}
    true example_clock.

(** ** Parts of the code and states named in the statements *)

(** A client that was constructed and never connected, over a transport
    that would answer. *)
Definition fresh_client : MCPClient :=
  MCPClient_init (mkTransport false (Ret true) (gateway [gmail_tool] PNone) [])
                 example_clock true 300 true.

(** The state a successful forced discovery leaves. *)
Definition after_discovery (c : MCPClient) (fetched : list MCPTool) : MCPClient :=
  set_tools_cache_time (Some (now_at (clock c) (reads (clock c))))
    (set_clock (mkClock (now_at (clock c)) (S (reads (clock c))))
       (set_tools_cache (foldl cache_tool (_tools_cache c) fetched)
          (set_transport
             (mkTransport (t_is_connected (transport c)) (t_connect (transport c))
                          (t_respond (transport c))
                          (t_sent (transport c) ++ [mkRequest TOOLS_LIST []]))
             c))).

(** The parameters pass the check of [call_tool]: validation is off, the tool
    is unknown, or [validate_params] finds no error. *)
Definition passes_validation (c : MCPClient) (tn : string) (ps : dict)
    (validate : option bool) : Prop :=
  default (c_validate_params c) validate = false
  ∨ _tools_cache c !! tn = None
  ∨ ∃ tool, _tools_cache c !! tn = Some tool ∧ validation_errors tool ps = [].

(** The state [call_tool] leaves once the request went out: one call
    counted, the request recorded, and the error counted if there is one. *)
Definition after_call (c : MCPClient) (tn : string) (ps : dict) (failed : bool) : MCPClient :=
  let sent :=
    set_transport
      (mkTransport (t_is_connected (transport c)) (t_connect (transport c))
                   (t_respond (transport c))
                   (t_sent (transport c)
                      ++ [mkRequest TOOLS_CALL [("name", PStr tn); ("arguments", PDict ps)]]))
      (set_call_count (S (_call_count c)) c) in
  if failed then set_error_count (S (_error_count c)) sent else sent.

(** The last part of [call_tool]: the request and what follows it. *)
Definition dispatch_call (tn : string) (ps : dict) : M MCPClient MCPToolResult :=
  response ← send_request TOOLS_CALL [("name", PStr tn); ("arguments", PDict ps)];
  let result := from_response tn response in
  (if success result then mret tt
   else
     modify (fun self => set_error_count (S (_error_count self)) self) ;;
     if is_rate_limited response then
       raise (RateLimitError ("Rate limited while executing " +:+ tn) 60)
     else if is_auth_error response then
       raise (AuthenticationError ("Authentication failed for " +:+ tn) false)
     else mret tt) ;;
  mret result.

(** The error count is within the call count. *)
Definition errors_within_calls (c : MCPClient) : Prop :=
  (_error_count c ≤ _call_count c)%nat.

(** The flag [_connected] of [c'] is that of [c]. *)
Definition same_connected (c c' : MCPClient) : Prop := _connected c = _connected c'.

(** The handshake and the prefetch of [connect], after the flag is set. *)
Definition handshake_and_prefetch (codes : ErrorCodes) : M MCPClient bool :=
  try_except
    (response ← send_request INITIALIZE
       [("protocolVersion", PStr "2024-11-05");
        ("capabilities", PDict [("tools", PDict []); ("resources", PDict [])]);
        ("clientInfo", PDict [("name", PStr "CS-Agent-MCP-Client");
                              ("version", PStr "1.0.0")])];
     if is_success response
     then modify (set_server_info (result response))
     else mret tt)
    (fun _ => mret tt) ;;
  self ← get;
  (if cache_tools self
   then try_except (list_tools codes false ;; mret tt) (fun _ => mret tt)
   else mret tt) ;;
  mret true.

(** * Properties *)

(** ** Strings *)

Lemma append_assoc (a b c : string) : (a +:+ b) +:+ c = a +:+ (b +:+ c).
Proof.
  induction a as [|x a IH]; [done |].
  change (String x ((a +:+ b) +:+ c) = String x (a +:+ b +:+ c)). by f_equal.
Qed.

Lemma prefix_app (p s : string) : String.prefix p (p +:+ s) = true.
Proof.
  induction p as [|c p IH]; simpl.
  - by destruct s.
  - destruct (Ascii.ascii_dec c c); [done | congruence].
Qed.

Lemma prefix_split (p s : string) :
  String.prefix p s = true → ∃ rest, s = p +:+ rest.
Proof.
  revert s; induction p as [|c p IH]; intros s H.
  - by exists s.
  - destruct s as [|c' s]; simpl in H; [done |].
    destruct (Ascii.ascii_dec c c') as [->|]; [| done].
    destruct (IH _ H) as [rest ->]. by exists rest.
Qed.

Lemma str_in_nil (sub : string) : str_in sub "" = String.prefix sub "".
Proof. simpl. apply orb_false_r. Qed.

Lemma str_in_cons (sub : string) (c : ascii) (s : string) :
  str_in sub (String c s) = String.prefix sub (String c s) || str_in sub s.
Proof. done. Qed.

Lemma prefix_refl (s : string) : String.prefix s s = true.
Proof.
  induction s as [|c s IH]; simpl; [done |].
  destruct (Ascii.ascii_dec c c); [done | congruence].
Qed.

Lemma str_in_refl (s : string) : str_in s s = true.
Proof.
  destruct s as [|c s]; [done |].
  rewrite str_in_cons, prefix_refl. done.
Qed.

Lemma str_in_app_r (sub a s : string) :
  str_in sub s = true → str_in sub (a +:+ s) = true.
Proof.
  intros H. induction a as [|c a IH]; [done |].
  change (String c a +:+ s) with (String c (a +:+ s)).
  rewrite str_in_cons, IH. apply orb_true_r.
Qed.

Lemma str_in_app_l (sub s b : string) :
  str_in sub s = true → str_in sub (s +:+ b) = true.
Proof.
  induction s as [|c s IH]; intros H.
  - rewrite str_in_nil in H. apply prefix_split in H as [rest Hrest].
    destruct sub; [| done]. by destruct b.
  - rewrite str_in_cons in H.
    change (String c s +:+ b) with (String c (s +:+ b)). rewrite str_in_cons.
    apply orb_true_iff in H as [H | H].
    + apply prefix_split in H as [rest Hrest].
      assert (E : String c (s +:+ b) = sub +:+ (rest +:+ b)).
      { change (String c (s +:+ b)) with (String c s +:+ b).
        rewrite Hrest. by rewrite append_assoc. }
      rewrite E, prefix_app. done.
    + rewrite (IH H). apply orb_true_r.
Qed.

(** [sub in s] holds exactly when [s] is [a + sub + b] for some [a], [b]. *)
Lemma str_in_spec (sub s : string) :
  str_in sub s = true ↔ ∃ a b, s = a +:+ sub +:+ b.
Proof.
  split.
  - induction s as [|c s IH]; intros H.
    + rewrite str_in_nil in H. apply prefix_split in H as [rest ->].
      by exists "", rest.
    + rewrite str_in_cons in H. apply orb_true_iff in H as [H | H].
      * apply prefix_split in H as [rest ->]. by exists "", rest.
      * destruct (IH H) as (a & b & ->). by exists (String c a), b.
  - intros (a & b & ->). apply str_in_app_r, str_in_app_l, str_in_refl.
Qed.

(** ** [MCPTool]: parameters and the dictionary round trip *)

Lemma mem_true (x : string) (l : list string) : mem x l = true ↔ x ∈ l.
Proof.
  unfold mem. rewrite existsb_exists. split.
  - intros (y & Hy & E). apply String.eqb_eq in E as ->. by apply list_elem_of_In.
  - intros H. exists x. split; [by apply list_elem_of_In | apply String.eqb_refl].
Qed.

Lemma optional_params_filter (tool : MCPTool) :
  optional_params tool =
  List.filter (fun p => negb (mem p (required_params tool))) (all_params tool).
Proof.
  unfold optional_params, all_params. by destruct (properties (input_schema tool)).
Qed.

(** C6, as the code has it: for every tool, [optional_params] is
    [all_params] without the names in [required_params], in the order of
    [all_params]; [required_params] is included in [all_params] exactly for
    the schemas whose ["required"] names are all keys of ["properties"]
    (among them every schema without ["properties"]). *)
Theorem C6_optional_is_all_minus_required (tool : MCPTool) :
  (∀ p, p ∈ optional_params tool ↔ p ∈ all_params tool ∧ p ∉ required_params tool)
  ∧ optional_params tool =
      List.filter (fun p => negb (mem p (required_params tool))) (all_params tool)
  ∧ (required_params tool ⊆ all_params tool ↔
     required_declared (input_schema tool) = true).
Proof.
  split; [| split].
  - intros p. rewrite optional_params_filter, !list_elem_of_In, filter_In.
    rewrite negb_true_iff, <- not_true_iff_false, mem_true, list_elem_of_In. tauto.
  - apply optional_params_filter.
  - unfold required_params, all_params, required_declared.
    destruct (properties (input_schema tool)) as [props|]; [| done].
    rewrite forallb_forall. split.
    + intros H r Hr. apply mem_true, H. by apply list_elem_of_In.
    + intros H r Hr. apply mem_true, H. by apply list_elem_of_In.
Qed.

(** C6 fails as stated: a schema may require a name it does not declare, and
    then [required_params] is not included in [all_params]. *)
Lemma C6_required_not_subset :
  required_params undeclared_required_tool = ["b"]
  ∧ all_params undeclared_required_tool = ["a"]
  ∧ ¬ (required_params undeclared_required_tool ⊆ all_params undeclared_required_tool).
Proof.
  split; [done | split; [done |]].
  intros H. specialize (H "b"). cbn in H.
  assert (Hb : "b" ∈ ["a"]) by (apply H; constructor).
  apply list_elem_of_In in Hb. destruct Hb as [Hb | []]. discriminate Hb.
Qed.

(** C7: [MCPTool.from_dict(tool.to_dict())] has the name, the description,
    the required and the optional parameters of [tool]. *)
Theorem C7_from_dict_to_dict (tool : MCPTool) :
  name (from_dict (to_dict tool)) = name tool
  ∧ description (from_dict (to_dict tool)) = description tool
  ∧ required_params (from_dict (to_dict tool)) = required_params tool
  ∧ optional_params (from_dict (to_dict tool)) = optional_params tool.
Proof. by destruct tool. Qed.

(** The round trip returns the tool itself. *)
Lemma from_dict_to_dict_id (tool : MCPTool) : from_dict (to_dict tool) = tool.
Proof. by destruct tool. Qed.

(** ** [mask_sensitive_data] *)

(** Induction on Python values, through lists and dictionaries. *)
Lemma pyval_induction (P : pyval → Prop) :
  P PNone →
  (∀ b, P (PBool b)) →
  (∀ z, P (PInt z)) →
  (∀ s, P (PStr s)) →
  (∀ l, Forall P l → P (PList l)) →
  (∀ d, Forall (fun kv => P (snd kv)) d → P (PDict d)) →
  ∀ v, P v.
Proof.
  intros HNone HBool HInt HStr HList HDict.
  fix IH 1. intros [| b | z | s | l | d].
  - exact HNone.
  - apply HBool.
  - apply HInt.
  - apply HStr.
  - apply HList. induction l as [|x l IHl]; constructor; [apply IH | exact IHl].
  - apply HDict. induction d as [|[k x] d IHd]; constructor; [apply IH | exact IHd].
Qed.

Lemma any_sensitive (key : string) :
  any (fun pattern => str_in pattern (lower key)) sensitive_patterns = true ↔ sensitive key.
Proof.
  unfold any, sensitive. rewrite existsb_exists. split.
  - intros (pattern & Hin & H). apply str_in_spec in H as (a & b & E).
    exists pattern, a, b. split; [by apply list_elem_of_In | done].
  - intros (pattern & a & b & Hin & E). exists pattern.
    split; [by apply list_elem_of_In |]. apply str_in_spec. by exists a, b.
Qed.

Lemma _mask_value_masked (v : pyval) : ∀ key, Masked key v (_mask_value key v).
Proof.
  induction v as [| b | z | s | l IH | d IH] using pyval_induction; intros key.
  - constructor.
  - constructor.
  - constructor.
  - cbn [_mask_value].
    destruct (any _ sensitive_patterns) eqn:Hany.
    + apply any_sensitive in Hany. unfold mask_string.
      destruct (Nat.ltb 8 (len s)) eqn:Hlen.
      * apply Nat.ltb_lt in Hlen. by constructor.
      * apply Nat.ltb_ge in Hlen. by constructor.
    + apply Masked_plain. rewrite <- any_sensitive. by rewrite Hany.
  - cbn [_mask_value]. constructor.
    induction IH as [|x l Hx _ IHl]; constructor; [apply Hx | exact IHl].
  - cbn [_mask_value]. constructor.
    induction IH as [|[k x] d Hx _ IHd]; constructor; [| exact IHd].
    split; [done | apply Hx].
Qed.

Lemma take_drop (n : nat) (s : string) : take n s +:+ drop n s = s.
Proof.
  revert s; induction n as [|n IH]; intros [|c s]; try done.
  change (String c (take n s +:+ drop n s) = String c s). by rewrite IH.
Qed.

Lemma len_take (n : nat) (s : string) : (n ≤ len s)%nat → len (take n s) = n.
Proof.
  revert s; induction n as [|n IH]; intros [|c s] H; try done.
  - unfold len in H. simpl in H. lia.
  - unfold len in *. simpl in *. rewrite IH; [done | lia].
Qed.

Lemma len_drop (n : nat) (s : string) : len (drop n s) = (len s - n)%nat.
Proof.
  revert s; induction n as [|n IH]; intros [|c s]; try done. apply IH.
Qed.

Lemma drop_drop (n m : nat) (s : string) : drop n (drop m s) = drop (m + n) s.
Proof.
  revert s; induction m as [|m IH]; intros s; [done |].
  destruct s as [|c s]; [by destruct n | apply IH].
Qed.

(** The mask of a string longer than 8 characters keeps its first four and
    its last four characters. *)
Lemma mask_string_head_tail (s : string) :
  (8 < len s)%nat →
  mask_string s = take 4 s +:+ "..." +:+ last_n 4 s
  ∧ len (take 4 s) = 4%nat
  ∧ len (last_n 4 s) = 4%nat
  ∧ ∃ middle, s = take 4 s +:+ middle +:+ last_n 4 s.
Proof.
  intros H. split; [| split; [| split]].
  - unfold mask_string. apply Nat.ltb_lt in H. by rewrite H.
  - apply len_take. lia.
  - unfold last_n. rewrite len_drop. lia.
  - exists (take (len s - 8) (drop 4 s)). unfold last_n.
    replace (drop (len s - 4) s) with (drop (len s - 8) (drop 4 s))
      by (rewrite drop_drop; f_equal; lia).
    by rewrite !take_drop.
Qed.

(** C8, as the code has it: [mask_sensitive_data] keeps every key and the
    shape of the data, and replaces exactly the strings whose nearest
    enclosing key, lower-cased, contains one of the sensitive terms: by their
    first four characters, ["..."] and their last four characters when longer
    than 8 characters, by ["****"] otherwise. *)
Theorem C8_mask_sensitive_data (data : dict) :
  Forall2 (fun kv kv' => fst kv' = fst kv ∧ Masked (fst kv) (snd kv) (snd kv'))
          data (mask_sensitive_data data)
  ∧ mask_sensitive_data [("api_key", PStr "abcdefgh1234")]
    = [("api_key", PStr "abcd...1234")].
Proof.
  split; [| done]. unfold mask_sensitive_data.
  induction data as [|[k v] data IH]; constructor; [| exact IH].
  split; [done | apply _mask_value_masked].
Qed.

(** C8 fails as stated: the key [Authorization] contains none of the
    sensitive terms as written, so the specified masking leaves its value
    alone, while the code, which lower-cases the key first, masks it. *)
Lemma C8_upper_case_key_is_masked :
  any (fun pattern => str_in pattern "Authorization") sensitive_patterns = false
  ∧ mask_sensitive_data_as_specified [("Authorization", PStr "Bearer abcdef")]
    = [("Authorization", PStr "Bearer abcdef")]
  ∧ mask_sensitive_data [("Authorization", PStr "Bearer abcdef")]
    = [("Authorization", PStr "Bear...cdef")].
Proof. done. Qed.

(** ** Running computations *)

Lemma run_bind {S A B} (m : M S A) (k : A → M S B) (s : S) :
  (m ≫= k) s = match m s with
               | (Ret a, s') => k a s'
               | (Raise e, s') => (Raise e, s')
               end.
Proof. done. Qed.

Lemma run_ret {S A} (a : A) (s : S) : (mret a : M S A) s = (Ret a, s).
Proof. done. Qed.

Ltac run :=
  repeat first
    [ rewrite run_bind
    | rewrite run_ret
    | progress cbn [get modify raise ret try_except fst snd negb andb orb] ].

(** ** [call_tool]: validation of the parameters *)

Lemma cache_not_empty (c : MCPClient) (tool_name : string) (tool : MCPTool) :
  _tools_cache c !! tool_name = Some tool → bool_decide (_tools_cache c = ∅) = false.
Proof.
  intros H. apply bool_decide_eq_false. intros E. rewrite E in H.
  by rewrite lookup_empty in H.
Qed.

Lemma get_tool_cached (codes : ErrorCodes) (c : MCPClient) (tool_name : string)
    (tool : MCPTool) :
  _tools_cache c !! tool_name = Some tool →
  get_tool codes tool_name c = (Ret (Some tool), c).
Proof.
  intros H. unfold get_tool. run. rewrite (cache_not_empty _ _ _ H). run.
  by rewrite H.
Qed.

Lemma validation_errors_offending (tool : MCPTool) (ps : dict) :
  validation_errors tool ps = map (offence_message ps) (offending tool ps).
Proof.
  unfold validation_errors, offending.
  induction (required_params tool) as [|r rs IH]; [done |].
  cbn [flat_map List.filter]. rewrite IH.
  change (is_offending ps r)
    with (match dget r ps with None | Some PNone => true | Some _ => false end).
  destruct (dget r ps) as [[]|] eqn:E; cbn [map app]; try done;
    f_equal; unfold offence_message; by rewrite E.
Qed.

(** The warnings name the undeclared parameters, when the schema declares
    any parameter at all. *)
Lemma validation_warnings_unknown (tool : MCPTool) (ps : dict) :
  all_params tool ≠ [] →
  validation_warnings tool ps =
  map (fun param => "Unknown parameter for tool " +:+ name tool +:+ ": " +:+ param)
      (unknown_params tool ps).
Proof.
  intros Hne. unfold validation_warnings, unknown_params.
  induction (map fst ps) as [|k ks IH]; [done |].
  cbn [flat_map List.filter]. rewrite IH.
  rewrite (bool_decide_eq_false_2 _ Hne). cbn [negb]. rewrite andb_true_r.
  by destruct (negb (mem k (all_params tool))).
Qed.

(** Without declared parameters nothing is logged, and a schema without
    ["properties"] requires nothing. *)
Lemma validation_warnings_none (tool : MCPTool) (ps : dict) :
  all_params tool = [] → validation_warnings tool ps = [].
Proof.
  intros H. unfold validation_warnings. rewrite H.
  induction (map fst ps) as [|k ks IH]; [done |].
  cbn [flat_map]. rewrite IH. cbn [mem existsb negb]. by rewrite bool_decide_eq_true_2.
Qed.

Lemma offending_without_properties (tool : MCPTool) (ps : dict) :
  properties (input_schema tool) = None → offending tool ps = [].
Proof. intros H. unfold offending, required_params. by rewrite H. Qed.

(** C4, as the code has it: on a connected client, with validation on and
    the tool's definition in the cache, a call with offending parameters (the
    names of [required_params] that are missing or null) raises
    [MCPValidationError] and sends nothing; the error's [field_errors] maps
    the tool name to one message per offending parameter, in schema order
    (for the schema with the properties [to], [subject] and [body] that
    requires [to] and [subject], and the parameters [{subject: "hi"}], the
    list [["Missing required parameter: to"]]).  Without offending parameters
    the request is sent whatever other parameters are passed.  The undeclared
    ones produce one warning each when the schema declares a parameter, and
    none when it declares no parameter.  A schema without ["properties"] has
    no required parameter, whatever its ["required"] says: its calls are
    sent unchecked. *)
Theorem C4_call_tool_validation (codes : ErrorCodes) (c : MCPClient)
    (tool_name : string) (ps : dict) (validate : option bool) (tool : MCPTool) :
  is_connected c = true →
  default (c_validate_params c) validate = true →
  _tools_cache c !! tool_name = Some tool →
  (offending tool ps ≠ [] →
   ∃ e c',
     call_tool codes tool_name ps validate c = (Raise e, c')
     ∧ e_class e = MCPValidationError
     ∧ e_field_errors e = [(tool_name, map (offence_message ps) (offending tool ps))]
     ∧ t_sent (transport c') = t_sent (transport c))
  ∧ (offending tool ps = [] →
     (validate_params tool ps).1 = []
     ∧ t_sent (transport (call_tool codes tool_name ps validate c).2)
       = (t_sent (transport c)
            ++ [mkRequest TOOLS_CALL [("name", PStr tool_name); ("arguments", PDict ps)]])%list)
  ∧ (validate_params tool ps).2
    = (if bool_decide (all_params tool = []) then []
       else map (fun param => "Unknown parameter for tool " +:+ name tool +:+ ": " +:+ param)
                (unknown_params tool ps))
  ∧ (properties (input_schema tool) = None →
     offending tool ps = []
     ∧ t_sent (transport (call_tool codes tool_name ps validate c).2)
       = (t_sent (transport c)
            ++ [mkRequest TOOLS_CALL [("name", PStr tool_name); ("arguments", PDict ps)]])%list).
Proof.
  intros Hconn Hval Hknown.
  assert (Hsent : offending tool ps = [] →
            t_sent (transport (call_tool codes tool_name ps validate c).2)
            = (t_sent (transport c)
                 ++ [mkRequest TOOLS_CALL
                       [("name", PStr tool_name); ("arguments", PDict ps)]])%list).
  { intros Hoff.
    unfold call_tool. run. rewrite Hconn. cbn [negb]. run.
    rewrite (get_tool_cached codes _ tool_name tool) by done. run.
    rewrite Hval. cbn [validate_params fst].
    rewrite validation_errors_offending, Hoff. cbn [map]. run.
    unfold send_request, on_transport, transport_send. cbn [transport set_call_count].
    destruct (t_respond _ _ _ _) as [response | e]; run; [| reflexivity].
    change (MCPResponse pyval) in response. unfold from_response.
    destruct (is_success response); cbn [success]; run; [reflexivity |].
    destruct (is_rate_limited response); run; [reflexivity |].
    destruct (is_auth_error response); run; reflexivity. }
  split; [| split; [| split]].
  4: { intros Hprops. pose proof (offending_without_properties tool ps Hprops) as Hoff.
       split; [exact Hoff | by apply Hsent]. }
  3: { cbn [validate_params snd]. case_bool_decide as Hall.
       - by apply validation_warnings_none.
       - by apply validation_warnings_unknown. }
  all: intros Hoff.
  - destruct (offending tool ps) as [|o os] eqn:E; [done |].
    eexists _, _. unfold call_tool. run. rewrite Hconn. cbn [negb]. run.
    rewrite (get_tool_cached codes _ tool_name tool) by done. run.
    rewrite Hval. cbn [validate_params fst].
    rewrite validation_errors_offending, E.
    cbn [map]. run. split; [reflexivity | repeat split].
  - cbn [validate_params fst]. rewrite validation_errors_offending, Hoff.
    split; [done | by apply Hsent].
Qed.

(** The specification's example: [to] and [subject] are required, only
    [subject] is passed. *)
Lemma C4_call_tool_validation_witness :
  ∃ e c',
    call_tool example_codes "gmail_send_email" subject_only None
              (example_client [gmail_tool] [gmail_tool] PNone) = (Raise e, c')
    ∧ e_class e = MCPValidationError
    ∧ e_field_errors e = [("gmail_send_email", ["Missing required parameter: to"])]
    ∧ t_sent (transport c') = [].
Proof.
  apply (C4_call_tool_validation example_codes
           (example_client [gmail_tool] [gmail_tool] PNone)
           "gmail_send_email" subject_only None gmail_tool);
    [reflexivity | reflexivity | vm_compute; reflexivity | discriminate].
Defined.

(** C4 fails as stated: for the schema requiring [to] and [subject] and the
    parameters [{subject: "hi"}] the error carries the message about [to],
    not the bare name. *)
Lemma C4_field_list_holds_messages :
  ∃ e c',
    call_tool example_codes "gmail_send_email" subject_only None
              (example_client [gmail_tool] [gmail_tool] PNone) = (Raise e, c')
    ∧ e_field_errors e = [("gmail_send_email", ["Missing required parameter: to"])]
    ∧ ["to"] ∉ (e_field_errors e).*2.
Proof.
  eexists _, _. split; [vm_compute; reflexivity |]. split; [reflexivity |].
  cbn. intros H. apply list_elem_of_In in H. destruct H as [H | []]. discriminate H.
Qed.

(** ** Relations that every step of a computation preserves *)

Section Preserves.
Context {S : Type} (R : relation S) `{!PreOrder R}.

Lemma preserves_ret {A} (a : A) : preserves R (mret a : M S A).
Proof. intros s. reflexivity. Qed.

Lemma preserves_raise {A} (e : exn) : preserves R (raise e : M S A).
Proof. intros s. reflexivity. Qed.

Lemma preserves_get : preserves R (get : M S S).
Proof. intros s. reflexivity. Qed.

Lemma preserves_modify (f : S → S) : (∀ s, R s (f s)) → preserves R (modify f).
Proof. intros H s. apply H. Qed.

Lemma preserves_bind {A B} (m : M S A) (k : A → M S B) :
  preserves R m → (∀ a, preserves R (k a)) → preserves R (m ≫= k).
Proof.
  intros Hm Hk s. rewrite run_bind. specialize (Hm s).
  destruct (m s) as [[a | e] s']; cbn [snd] in *; [| done].
  etrans; [exact Hm | apply Hk].
Qed.

Lemma preserves_try_except {A} (m : M S A) (h : exn → M S A) :
  preserves R m → (∀ e, preserves R (h e)) → preserves R (try_except m h).
Proof.
  intros Hm Hh s. unfold try_except. specialize (Hm s).
  destruct (m s) as [[a | e] s']; cbn [snd] in *; [done |].
  etrans; [exact Hm | apply Hh].
Qed.

End Preserves.

Create HintDb preserves.

Ltac preserve :=
  repeat first
    [ solve [auto with preserves nocore]
    | match goal with
      | |- preserves _ (_ ≫= _) => apply preserves_bind; [try tc_solve | | intros ?]
      | |- preserves _ (try_except _ _) =>
          apply preserves_try_except; [try tc_solve | | intros ?]
      | |- preserves _ (mret _) => apply preserves_ret; try tc_solve
      | |- preserves _ (raise _) => apply preserves_raise; try tc_solve
      | |- preserves _ get => apply preserves_get; try tc_solve
      | |- preserves _ (modify _) => apply preserves_modify; intros ?
      | |- preserves _ (if ?b then _ else _) => destruct b
      | |- preserves _ (match ?x with _ => _ end) => destruct x
      | |- preserves _ (let _ := _ in _) => cbv zeta
      end ].

(** ** [disconnect] and the counters *)

#[local] Instance counters_le_preorder : PreOrder counters_le.
Proof.
  split.
  - intros c. unfold counters_le. lia.
  - intros c1 c2 c3 [] []. unfold counters_le. lia.
Qed.

Lemma counters_on_transport {A} (m : M MCPTransport A) :
  preserves counters_le (on_transport m).
Proof.
  intros c. unfold on_transport. destruct (m (transport c)) as [r t].
  cbn. unfold counters_le. cbn. lia.
Qed.

Lemma counters_send_request (m : MCPMethod) (ps : dict) :
  preserves counters_le (send_request m ps).
Proof. apply counters_on_transport. Qed.

Lemma counters_datetime_now : preserves counters_le datetime_now.
Proof. intros c. unfold counters_le. cbn. lia. Qed.

#[local] Hint Resolve counters_on_transport counters_send_request
  counters_datetime_now : preserves.

Ltac counters := preserve; unfold counters_le; cbn; lia.

Lemma counters__is_cache_valid : preserves counters_le _is_cache_valid.
Proof. unfold _is_cache_valid. counters. Qed.

#[local] Hint Resolve counters__is_cache_valid : preserves.

Lemma counters_list_tools (codes : ErrorCodes) (force_refresh : bool) :
  preserves counters_le (list_tools codes force_refresh).
Proof. unfold list_tools. counters. Qed.

#[local] Hint Resolve counters_list_tools : preserves.

Lemma counters_get_tool (codes : ErrorCodes) (tool_name : string) :
  preserves counters_le (get_tool codes tool_name).
Proof. unfold get_tool. counters. Qed.

#[local] Hint Resolve counters_get_tool : preserves.

Lemma counters_call_tool (codes : ErrorCodes) (tool_name : string) (ps : dict)
    (validate : option bool) :
  preserves counters_le (call_tool codes tool_name ps validate).
Proof. unfold call_tool. counters. Qed.

#[local] Hint Resolve counters_call_tool : preserves.

Lemma counters_call_tool_safe (codes : ErrorCodes) (tool_name : string) (ps : dict) :
  preserves counters_le (call_tool_safe codes tool_name ps).
Proof. unfold call_tool_safe. counters. Qed.

Lemma counters_connect (codes : ErrorCodes) : preserves counters_le (connect codes).
Proof. unfold connect. counters. Qed.

Lemma counters_disconnect : preserves counters_le disconnect.
Proof. unfold disconnect. counters. Qed.

Lemma counters_run_op (codes : ErrorCodes) (op : ClientOp) (c : MCPClient) :
  counters_le c (run_op codes op c).
Proof.
  destruct op; cbn [run_op].
  - apply counters_connect.
  - apply counters_disconnect.
  - apply counters_list_tools.
  - apply counters_get_tool.
  - apply counters_call_tool.
  - apply counters_call_tool_safe.
  - unfold counters_le. cbn. lia.
Qed.

(** C9: [disconnect] never raises, empties the tool cache, forgets the cache
    time and the server info and clears the connected flag, and leaves the
    call and error counters as they were; whatever operations follow, among
    them the next [connect], and whatever the transport and the clock do, the
    counters never fall below their values. *)
Theorem C9_disconnect_keeps_counters (codes : ErrorCodes) (c : MCPClient)
    (ops : list ClientOp) :
  (disconnect c).1 = Ret ()
  ∧ _tools_cache (disconnect c).2 = ∅
  ∧ _tools_cache_time (disconnect c).2 = None
  ∧ _server_info (disconnect c).2 = None
  ∧ _connected (disconnect c).2 = false
  ∧ is_connected (disconnect c).2 = false
  ∧ _call_count (disconnect c).2 = _call_count c
  ∧ _error_count (disconnect c).2 = _error_count c
  ∧ counters_le c (run_ops codes ops c)
  ∧ counters_le c (run_ops codes ops (disconnect c).2).
Proof.
  assert (Hops : ∀ ops c, counters_le c (run_ops codes ops c)).
  { clear. intros ops. induction ops as [|op ops IH]; intros c; [reflexivity |].
    cbn [run_ops foldl]. etrans; [apply (counters_run_op codes op) | apply IH]. }
  repeat split; try reflexivity; try apply Hops.
  - apply (Hops ops (disconnect c).2).
  - apply (Hops ops (disconnect c).2).
Qed.

(** The counters are not reset by [connect] either: no operation but
    [call_tool] touches them. *)
#[local] Instance counters_eq_preorder : PreOrder counters_eq.
Proof.
  split.
  - by intros c.
  - intros c1 c2 c3 [] []. unfold counters_eq. split; congruence.
Qed.

Lemma counters_eq_on_transport {A} (m : M MCPTransport A) :
  preserves counters_eq (on_transport m).
Proof.
  intros c. unfold on_transport. by destruct (m (transport c)) as [r t].
Qed.

Lemma counters_eq_send_request (m : MCPMethod) (ps : dict) :
  preserves counters_eq (send_request m ps).
Proof. apply counters_eq_on_transport. Qed.

Lemma counters_eq_datetime_now : preserves counters_eq datetime_now.
Proof. by intros c. Qed.

#[local] Hint Resolve counters_eq_on_transport counters_eq_send_request
  counters_eq_datetime_now : preserves.

Lemma counters_eq__is_cache_valid : preserves counters_eq _is_cache_valid.
Proof. unfold _is_cache_valid. preserve. Qed.

#[local] Hint Resolve counters_eq__is_cache_valid : preserves.

Lemma counters_eq_list_tools (codes : ErrorCodes) (force_refresh : bool) :
  preserves counters_eq (list_tools codes force_refresh).
Proof. unfold list_tools. preserve; done. Qed.

#[local] Hint Resolve counters_eq_list_tools : preserves.

Lemma connect_keeps_counters (codes : ErrorCodes) (c : MCPClient) :
  _call_count (connect codes c).2 = _call_count c
  ∧ _error_count (connect codes c).2 = _error_count c.
Proof.
  assert (H : preserves counters_eq (connect codes)).
  { unfold connect. preserve; done. }
  destruct (H c). by split.
Qed.

(** ** [list_tools]: what a discovery call does to the cache *)

Lemma dom_cache_tools (cache : gmap string MCPTool) (fetched : list MCPTool) :
  dom (foldl cache_tool cache fetched) = dom cache ∪ list_to_set (map name fetched).
Proof.
  revert cache; induction fetched as [|tool fetched IH]; intros cache.
  - cbn. set_solver.
  - cbn [foldl map list_to_set]. rewrite IH. unfold cache_tool.
    rewrite dom_insert_L. set_solver.
Qed.

(** Checking the cache never raises; it touches nothing but the clock, which
    it may read once. *)
Lemma _is_cache_valid_frame (c : MCPClient) :
  ∃ valid n,
    _is_cache_valid c = (Ret valid, set_clock (mkClock (now_at (clock c)) n) c)
    ∧ (reads (clock c) ≤ n)%nat.
Proof.
  unfold _is_cache_valid. run. destruct c as [t [now n] ct ttl v cache time conn info cc ec].
  cbn [cache_tools _tools_cache _tools_cache_time clock].
  destruct ct; cbn [negb]; [| by exists false, n].
  destruct (bool_decide (cache = ∅)); [by exists false, n |].
  destruct time as [cached |]; [| by exists false, n].
  eexists _, (S n). split; [reflexivity | cbn; lia].
Qed.

(** A discovery call that succeeds (the refresh is forced, or the cache is
    not valid) returns the tools of the response, writes each of them into
    the cache over what the cache held, and stamps the cache with a reading of
    the clock: the names cached afterwards are the names cached before
    together with the names of the response. *)
Lemma list_tools_discovery (codes : ErrorCodes) (c : MCPClient) (force_refresh : bool)
    (response : MCPResponse ToolsListResult) :
  is_connected c = true →
  force_refresh = true ∨ (_is_cache_valid c).1 = Ret false →
  t_respond (transport c) (length (t_sent (transport c))) TOOLS_LIST [] = Ret response →
  is_success response = true →
  ∃ c' n,
    list_tools codes force_refresh c = (Ret (tools_in response), c')
    ∧ _tools_cache c' = foldl cache_tool (_tools_cache c) (tools_in response)
    ∧ dom (_tools_cache c') =
        dom (_tools_cache c) ∪ list_to_set (map name (tools_in response))
    ∧ _tools_cache_time c' = Some (now_at (clock c) n)
    ∧ (reads (clock c) ≤ n)%nat.
Proof.
  intros Hconn Hwhy Hresp Hok.
  change (MCPResponse ToolsListResult) with (MCPResponse (result_type TOOLS_LIST))
    in response.
  assert (Hfetch : ∀ n, (reads (clock c) ≤ n)%nat →
            ∃ c' n',
              (list_tools codes true) (set_clock (mkClock (now_at (clock c)) n) c)
              = (Ret (tools_in response), c')
              ∧ _tools_cache c' = foldl cache_tool (_tools_cache c) (tools_in response)
              ∧ _tools_cache_time c' = Some (now_at (clock c) n')
              ∧ (reads (clock c) ≤ n')%nat).
  { intros n Hn. exists
      (set_tools_cache_time (Some (now_at (clock c) n))
         (set_clock (mkClock (now_at (clock c)) (S n))
            (set_tools_cache (foldl cache_tool (_tools_cache c) (tools_in response))
               (set_transport
                  (mkTransport (t_is_connected (transport c)) (t_connect (transport c))
                     (t_respond (transport c))
                     (t_sent (transport c) ++ [mkRequest TOOLS_LIST []]))
                  (set_clock (mkClock (now_at (clock c)) n) c))))), n.
    split; [| by repeat split].
    unfold list_tools. run.
    replace (is_connected (set_clock _ c)) with true by (symmetry; exact Hconn). run.
    unfold send_request, on_transport, transport_send. cbn [transport set_clock].
    rewrite Hresp. run. rewrite Hok. run. reflexivity. }
  assert (Hc : c = set_clock (mkClock (now_at (clock c)) (reads (clock c))) c).
  { by destruct c as [t [now n] ct ttl v cache time conn info cc ec]. }
  assert (Hforced : ∃ c' n,
            list_tools codes true c = (Ret (tools_in response), c')
            ∧ _tools_cache c' = foldl cache_tool (_tools_cache c) (tools_in response)
            ∧ dom (_tools_cache c') =
                dom (_tools_cache c) ∪ list_to_set (map name (tools_in response))
            ∧ _tools_cache_time c' = Some (now_at (clock c) n)
            ∧ (reads (clock c) ≤ n)%nat).
  { destruct (Hfetch (reads (clock c))) as (c' & n' & Hrun & Hcache & Htime & Hn');
      [done |].
    rewrite <- Hc in Hrun. exists c', n'.
    repeat split; try done. rewrite Hcache. apply dom_cache_tools. }
  destruct Hwhy as [-> | Hinvalid]; [exact Hforced |].
  destruct force_refresh; [exact Hforced |].
  destruct (_is_cache_valid_frame c) as (valid & n & Hvalid & Hn).
  rewrite Hvalid in Hinvalid. cbn in Hinvalid. injection Hinvalid as ->.
  destruct (Hfetch n Hn) as (c' & n' & Hrun & Hcache & Htime & Hn').
  exists c', n'. split.
  - rewrite <- Hrun. unfold list_tools. run. rewrite Hconn. run. rewrite Hvalid. run.
    replace (is_connected (set_clock _ c)) with true by (symmetry; exact Hconn).
    by run.
  - repeat split; try done. rewrite Hcache. apply dom_cache_tools.
Qed.

(** C3 on a concrete run: the cache holds [google_calendar_find_event], the
    gateway now offers [gmail_send_email] only, and after the forced discovery
    the cache holds both: the tool that left the response is still cached. *)
Theorem C3_refresh_keeps_stale_tools :
  ∃ c',
    list_tools example_codes true (example_client [calendar_tool] [gmail_tool] PNone)
    = (Ret [gmail_tool], c')
    ∧ _tools_cache c' !! "gmail_send_email" = Some gmail_tool
    ∧ _tools_cache c' !! "google_calendar_find_event" = Some calendar_tool
    ∧ ("google_calendar_find_event" ∉ map name [gmail_tool])
    ∧ _tools_cache_time c' = Some 0.
Proof.
  eexists. split; [vm_compute; reflexivity |].
  split; [vm_compute; reflexivity |]. split; [vm_compute; reflexivity |].
  split; [| reflexivity].
  intros H. apply list_elem_of_In in H. destruct H as [H | []]. discriminate H.
Qed.

(** ** [get_zapier_credentials] *)

(** Without an entry for Zapier the result is [None]. *)
Lemma get_zapier_credentials_unconfigured (sm : MCPSecurityManager) :
  _credentials_cache sm !! "zapier" = None →
  get_zapier_credentials sm = (Ret None, sm).
Proof.
  intros H. unfold get_zapier_credentials, is_zapier_configured. run.
  rewrite H. run. done.
Qed.

(** Credentials without expiry are returned. *)
Lemma get_zapier_credentials_configured (sm : MCPSecurityManager)
    (creds : MCPCredentials) :
  _credentials_cache sm !! "zapier" = Some creds →
  server_url creds ≠ "" →
  expires_at creds = None →
  get_zapier_credentials sm = (Ret (Some creds), sm).
Proof.
  intros H Hurl Hexp. unfold get_zapier_credentials, is_zapier_configured. run.
  rewrite H. unfold is_valid, is_expired. rewrite Hexp.
  apply String.eqb_neq in Hurl. rewrite Hurl. run. rewrite H, Hexp. run. reflexivity.
Qed.

(** Credentials found expired by the first reading of the clock make
    [is_zapier_configured] false: the result is [None], and the branch that
    raises is not reached. *)
Lemma get_zapier_credentials_expired (sm : MCPSecurityManager)
    (creds : MCPCredentials) (expiry : Z) :
  _credentials_cache sm !! "zapier" = Some creds →
  expires_at creds = Some expiry →
  now_at (sm_clock sm) (reads (sm_clock sm)) > expiry →
  (get_zapier_credentials sm).1 = Ret None.
Proof.
  intros H Hexp Hnow. unfold get_zapier_credentials, is_zapier_configured. run.
  rewrite H. unfold is_valid, is_expired. rewrite Hexp.
  destruct (String.eqb (server_url creds) ""); run; [done |].
  unfold sm_now, read_clock. run.
  rewrite (bool_decide_eq_true_2 _ Hnow). by run.
Qed.

(** The only way to the exception: the credentials are not yet expired at the
    first reading of the clock and expired at the second. *)
Lemma get_zapier_credentials_raises (sm : MCPSecurityManager) (e : exn) :
  (get_zapier_credentials sm).1 = Raise e →
  ∃ creds expiry,
    _credentials_cache sm !! "zapier" = Some creds
    ∧ expires_at creds = Some expiry
    ∧ (now_at (sm_clock sm) (reads (sm_clock sm)) ≤ expiry)%Z
    ∧ (expiry < now_at (sm_clock sm) (S (reads (sm_clock sm))))%Z.
Proof.
  destruct sm as [cache enabled [now n]].
  cbn [_credentials_cache sm_clock now_at reads].
  unfold get_zapier_credentials, is_zapier_configured. run.
  cbn [_credentials_cache].
  destruct (cache !! "zapier") as [creds |] eqn:H; run; [| done].
  unfold is_valid, is_expired.
  destruct (String.eqb (server_url creds) ""); run; [done |].
  destruct (expires_at creds) as [expiry |] eqn:Hexp; run.
  - unfold sm_now, read_clock. run. cbn [_credentials_cache sm_clock now_at reads].
    case_bool_decide as Hfirst; run; [done |].
    cbn [_credentials_cache sm_clock now_at reads].
    rewrite H. run. rewrite Hexp. run. cbn [_credentials_cache sm_clock now_at reads].
    case_bool_decide as Hsecond; run; [| done].
    intros _. exists creds, expiry. split_and!; [done | done | lia | lia].
  - cbn [_credentials_cache]. rewrite H. run. rewrite Hexp. by run.
Qed.

(** C5 on a concrete run: the cache holds credentials that expired at
    instant 1000, the clock reads 2000, and [get_zapier_credentials] returns
    [None]; it does not raise. *)
Theorem C5_expired_credentials_return_none :
  _credentials_cache expired_manager !! "zapier" = Some expired_credentials
  ∧ expires_at expired_credentials = Some 1000
  ∧ now_at (sm_clock expired_manager) 0 = 2000
  ∧ (get_zapier_credentials expired_manager).1 = Ret None.
Proof. repeat split; vm_compute; reflexivity. Qed.

(** ** The safe variants and [ZapierToolManager.execute] *)

Section Bridge.

Variable codes : ErrorCodes.
Variable json_loads : string → json_outcome.
Variable py_str : pyval → string.

(** C10: before a successful [initialize] (the manager is not initialised or
    has no client), or without a tool name, [execute] returns a failure
    dictionary for the provider ["zapier_mcp"] with a message saying which of
    the two it is; it does not raise and leaves the manager, its client, the
    counters and the transport as they were: nothing is dispatched. *)
Theorem C10_execute_not_ready (m : ZapierToolManager) (query : string)
    (user_id tn : option string) (ps : option dict) :
  _initialized m = false ∨ m_client m = None ∨ tn = None →
  ∃ d msg,
    execute codes json_loads py_str query user_id tn ps m = (Ret d, m)
    ∧ dget "success" d = Some (PBool false)
    ∧ dget "provider" d = Some (PStr "zapier_mcp")
    ∧ dget "error" d = Some (PStr msg)
    ∧ (msg = "ZapierToolManager not initialized" ∨ msg = "No tool_name provided").
Proof.
  intros H. unfold execute. run.
  destruct (negb (_initialized m) || negb (bool_decide (is_Some (m_client m)))) eqn:E.
  - eexists _, _. split; [reflexivity |]. repeat split. by left.
  - destruct H as [H | [H | ->]].
    + rewrite H in E. discriminate E.
    + rewrite H in E. rewrite orb_false_iff in E. destruct E as [_ E].
      rewrite negb_false_iff, bool_decide_eq_true in E. by destruct E.
    + eexists _, _. split; [reflexivity |]. repeat split. by right.
Qed.







Lemma question_not_empty (e : string) : str_in "?" e = true → truthy (PStr e) = true.
Proof. by destruct e. Qed.

Lemma extract_question_in_error (t : string) (parsed : dict) (e : string) :
  (∀ s, py_str (PStr s) = s) →
  json_loads t = Decoded (PDict parsed) →
  dget "error" parsed = Some (PStr e) →
  str_in "?" e = true →
  _extract_zapier_error_or_question json_loads py_str (text_payload t) = PStr e.
Proof.
  intros Hstr Hloads Herror Hq.
  unfold _extract_zapier_error_or_question, text_payload.
  cbn [truthy negb dget dget_or default from_option id String.eqb Ascii.eqb Bool.eqb
       for_items is_text_item eq_str loads].
  rewrite Hloads. unfold dget_or. rewrite Herror. cbn [default from_option id].
  destruct (truthy (default PNone (dget "isError" parsed))); [done |].
  unfold is_question_error. rewrite Hstr, Hq, (question_not_empty e Hq).
  by rewrite orb_true_r.
Qed.

(** C1: the manager is initialised, the action it dispatches returns a result
    whose payload is [{"content": [{"type": "text", "text": t}]}], [t] decodes
    to an object and the [error] of that object is a string with a question
    mark: [execute] returns a dictionary with [success] false,
    [needs_clarification] true and the question as [clarification_question]. *)
Theorem C1_execute_asks_for_clarification (m : ZapierToolManager)
    (z z' : ZapierMCPClient) (query : string) (user_id : option string)
    (tn : string) (ps : option dict) (r : MCPToolResult)
    (t : string) (parsed : dict) (e : string) :
  (∀ s, py_str (PStr s) = s) →
  _initialized m = true →
  m_client m = Some z →
  tn ≠ "" →
  execute_action codes (actual_tool_name (prefix m) tn) (or_empty ps) z = (Ret r, z') →
  tr_result r = text_payload t →
  json_loads t = Decoded (PDict parsed) →
  dget "error" parsed = Some (PStr e) →
  str_in "?" e = true →
  ∃ d,
    execute codes json_loads py_str query user_id (Some tn) ps m
    = (Ret d, mkToolManager (Some z') true (prefix m))
    ∧ dget "success" d = Some (PBool false)
    ∧ dget "needs_clarification" d = Some (PBool true)
    ∧ dget "clarification_question" d = Some (PStr e)
    ∧ dget "error" d = Some (PStr ("Zapier needs more information: " +:+ e)).
Proof.
  intros Hstr Hinit Hclient Hname Hrun Hpayload Hloads Herror Hq.
  unfold execute. run. rewrite Hinit, Hclient. cbn [negb orb].
  rewrite bool_decide_eq_true_2 by by eexists. cbn [negb].
  destruct tn as [|ch tn]; [done |].
  unfold try_except. rewrite run_bind. unfold on_zapier at 1.
  rewrite Hclient, Hrun, Hinit. unfold _extract_zapier_question.
  rewrite Hpayload, (extract_question_in_error t parsed e) by done.
  rewrite (question_not_empty e Hq), Hstr.
  eexists. split; [reflexivity |]. by repeat split.
Qed.

End Bridge.

(** A manager that was constructed and never initialised. *)
Lemma C10_execute_not_ready_witness :
  ∃ d msg,
    execute example_codes json_loads_ascii py_str_ascii "send an email" None
            (Some "zapier_gmail_send_email") (Some subject_only)
            (ZapierToolManager_init "zapier_")
    = (Ret d, ZapierToolManager_init "zapier_")
    ∧ dget "success" d = Some (PBool false)
    ∧ dget "provider" d = Some (PStr "zapier_mcp")
    ∧ dget "error" d = Some (PStr msg)
    ∧ (msg = "ZapierToolManager not initialized" ∨ msg = "No tool_name provided").
Proof.
  apply (C10_execute_not_ready example_codes json_loads_ascii py_str_ascii
           (ZapierToolManager_init "zapier_")).
  left. reflexivity.
Defined.

(** The gateway answers the specification's payload: the question reaches
    the caller of [execute]. *)
Lemma C1_execute_asks_for_clarification_witness :
  Json.json_decode question_text
  = Some (PDict [("error", PStr "Which calendar did you mean?")])
  ∧ ∃ d m',
      execute example_codes json_loads_ascii py_str_ascii "when is the meeting?" None
              (Some "zapier_google_calendar_find_event") None
              (example_manager [calendar_tool] question_payload)
      = (Ret d, m')
      ∧ dget "success" d = Some (PBool false)
      ∧ dget "needs_clarification" d = Some (PBool true)
      ∧ dget "clarification_question" d = Some (PStr "Which calendar did you mean?")
      ∧ str_in "Which calendar" "Which calendar did you mean?" = true.
Proof.
  split; [vm_compute; reflexivity |].
  epose proof (C1_execute_asks_for_clarification example_codes json_loads_ascii
                 py_str_ascii
                 (example_manager [calendar_tool] question_payload)
                 (example_zapier [calendar_tool] question_payload)
                 _ "when is the meeting?" None
                 "zapier_google_calendar_find_event" None _
                 question_text [("error", PStr "Which calendar did you mean?")]
                 "Which calendar did you mean?") as H.
  edestruct H as (d & Hd & Hsuccess & Hneeds & Hquestion & _).
  - reflexivity.
  - reflexivity.
  - reflexivity.
  - discriminate.
  - vm_compute. reflexivity.
  - reflexivity.
  - vm_compute. reflexivity.
  - reflexivity.
  - reflexivity.
  - exists d. eexists. split; [exact Hd |]. repeat split; assumption.
Defined.



(** * Further properties of the client *)

(** ** Operations on a client that is not connected *)

(** X1: on a client that is not connected, [list_tools], [call_tool],
    [list_resources] and [read_resource] raise [MCPConnectionError],
    [call_tool_safe] returns the failure without an error code and [ping]
    returns [False]; none of them sends a request, counts a call or changes
    the client in any other way. *)
Theorem not_connected_nothing_happens (codes : ErrorCodes) (c : MCPClient)
    (force_refresh : bool) (tn uri : string) (ps : dict) (validate : option bool) :
  is_connected c = false →
  list_tools codes force_refresh c
  = (Raise (ConnectionError "Not connected to MCP server"), c)
  ∧ call_tool codes tn ps validate c
    = (Raise (ConnectionError "Not connected to MCP server"), c)
  ∧ list_resources codes c = (Raise (ConnectionError "Not connected to MCP server"), c)
  ∧ read_resource codes uri c
    = (Raise (ConnectionError "Not connected to MCP server"), c)
  ∧ call_tool_safe codes tn ps c
    = (Ret (from_error tn "Not connected to MCP server" None), c)
  ∧ ping codes c = (Ret false, c).
Proof.
  intros H.
  assert (Hcall : ∀ validate, call_tool codes tn ps validate c
                  = (Raise (ConnectionError "Not connected to MCP server"), c)).
  { intros v. unfold call_tool. run. rewrite H. by run. }
  split_and!.
  - unfold list_tools. run. rewrite H. by run.
  - apply Hcall.
  - unfold list_resources. run. rewrite H. by run.
  - unfold read_resource. run. rewrite H. by run.
  - unfold call_tool_safe, try_except. by rewrite Hcall.
  - unfold ping. run. rewrite H. by run.
Qed.

Lemma not_connected_nothing_happens_witness :
  call_tool example_codes "gmail_send_email" subject_only None fresh_client
  = (Raise (ConnectionError "Not connected to MCP server"), fresh_client)
  ∧ ping example_codes fresh_client = (Ret false, fresh_client).
Proof.
  pose proof (not_connected_nothing_happens example_codes fresh_client false
                "gmail_send_email" "file:///x" subject_only None eq_refl)
    as (_ & Hcall & _ & _ & _ & Hping).
  split; [exact Hcall | exact Hping].
Defined.

(** ** [ping] *)

(** X2: [ping] never raises.  It answers [True] exactly when the client is
    connected and the transport answers the request, successfully or with the
    error code [METHOD_NOT_FOUND]; a transport that raises makes it answer
    [False]. *)
Theorem ping_alive (codes : ErrorCodes) (c : MCPClient) :
  ∃ alive c',
    ping codes c = (Ret alive, c')
    ∧ (alive = true ↔
       is_connected c = true
       ∧ ∃ response,
           t_respond (transport c) (length (t_sent (transport c))) PING [] = Ret response
           ∧ (is_success response = true
              ∨ error_code response = Some (METHOD_NOT_FOUND codes))).
Proof.
  unfold ping. run. destruct (is_connected c) eqn:Hconn; run.
  - unfold try_except, send_request, on_transport, transport_send. run.
    destruct (t_respond (transport c) (length (t_sent (transport c))) PING [])
      as [response | e] eqn:Hresp; run.
    + eexists _, _. split; [reflexivity |].
      change (MCPResponse pyval) in response.
      rewrite orb_true_iff, bool_decide_eq_true. split.
      * intros H. split; [done |]. by exists response.
      * intros (_ & response' & [= <-] & H). exact H.
    + eexists _, _. split; [reflexivity |]. split; [done |].
      by intros (_ & response' & [=] & _).
  - eexists _, _. split; [reflexivity |]. split; [done |]. by intros [[=] _].
Qed.

(** ** [list_tools]: failed discoveries and cache hits *)

Lemma _handle_error_response_is_MCPError {R} (codes : ErrorCodes)
    (response : MCPResponse R) (operation : string) :
  is_MCPError (_handle_error_response codes response operation) = true.
Proof.
  unfold _handle_error_response.
  destruct (is_auth_error response); [done |].
  destruct (is_rate_limited response); [done |].
  by repeat case_bool_decide.
Qed.

(** X3: a forced discovery that the gateway answers with an error raises the
    exception of [_handle_error_response], an authentication error if the
    response is flagged so, else a rate-limit error if it is flagged so; the
    tool cache and its time stamp stay as they were.  The same holds when the
    transport itself raises: its exception passes through. *)
Theorem failed_discovery_keeps_cache (codes : ErrorCodes) (c : MCPClient) :
  is_connected c = true →
  match t_respond (transport c) (length (t_sent (transport c))) TOOLS_LIST [] with
  | Ret response =>
      is_success response = false →
      ∃ c',
        list_tools codes true c
        = (Raise (_handle_error_response codes response "list_tools"), c')
        ∧ is_MCPError (_handle_error_response codes response "list_tools") = true
        ∧ (is_auth_error response = true →
           e_class (_handle_error_response codes response "list_tools")
           = MCPAuthenticationError)
        ∧ (is_auth_error response = false → is_rate_limited response = true →
           e_class (_handle_error_response codes response "list_tools")
           = MCPRateLimitError)
        ∧ _tools_cache c' = _tools_cache c
        ∧ _tools_cache_time c' = _tools_cache_time c
  | Raise e =>
      ∃ c',
        list_tools codes true c = (Raise e, c')
        ∧ _tools_cache c' = _tools_cache c
        ∧ _tools_cache_time c' = _tools_cache_time c
  end.
Proof.
  intros Hconn.
  destruct (t_respond (transport c) (length (t_sent (transport c))) TOOLS_LIST [])
    as [response | e] eqn:Hresp.
  - intros Hfail. cbn [result_type] in response, Hfail |- *. eexists. split_and!.
    + unfold list_tools. run. rewrite Hconn. run.
      unfold send_request, on_transport, transport_send. rewrite Hresp. run.
      cbn [result_type]. rewrite Hfail. run. reflexivity.
    + apply _handle_error_response_is_MCPError.
    + intros H. unfold _handle_error_response. by rewrite H.
    + intros H1 H2. unfold _handle_error_response. by rewrite H1, H2.
    + reflexivity.
    + reflexivity.
  - eexists. split_and!.
    + unfold list_tools. run. rewrite Hconn. run.
      unfold send_request, on_transport, transport_send. rewrite Hresp. run.
      reflexivity.
    + reflexivity.
    + reflexivity.
Qed.

Lemma failed_discovery_keeps_cache_witness :
  ∃ c',
    list_tools example_codes true
      (mkClient (mkTransport true (Ret true)
                   (fun _ m _ =>
                      Raise (py_exception "connection reset"))
                   [])
                example_clock true 300 true (foldl cache_tool ∅ [gmail_tool])
                (Some 0) true None 0 0)
    = (Raise (py_exception "connection reset"), c')
    ∧ _tools_cache c' = foldl cache_tool ∅ [gmail_tool]
    ∧ _tools_cache_time c' = Some 0.
Proof.
  exact (failed_discovery_keeps_cache example_codes
           (mkClient (mkTransport true (Ret true)
                        (fun _ m _ => Raise (py_exception "connection reset")) [])
                     example_clock true 300 true (foldl cache_tool ∅ [gmail_tool])
                     (Some 0) true None 0 0)
           eq_refl).
Defined.

Lemma cache_tools_not_empty (cache : gmap string MCPTool) (fetched : list MCPTool) :
  fetched ≠ [] → foldl cache_tool cache fetched ≠ ∅.
Proof.
  destruct fetched as [|tool fetched]; [done |]. intros _ H.
  assert (Hdom : name tool ∈ dom (foldl cache_tool cache (tool :: fetched))).
  { rewrite dom_cache_tools. cbn [map list_to_set]. set_solver. }
  rewrite H, dom_empty_L in Hdom. set_solver.
Qed.

Lemma forced_discovery (codes : ErrorCodes) (c : MCPClient)
    (response : MCPResponse ToolsListResult) :
  is_connected c = true →
  t_respond (transport c) (length (t_sent (transport c))) TOOLS_LIST [] = Ret response →
  is_success response = true →
  list_tools codes true c = (Ret (tools_in response), after_discovery c (tools_in response)).
Proof.
  intros Hconn Hresp Hok. unfold list_tools. run. rewrite Hconn. run.
  unfold send_request, on_transport, transport_send. rewrite Hresp. run.
  cbn [result_type]. rewrite Hok. run. reflexivity.
Qed.

(** X4: after a successful forced discovery that brought at least one tool,
    on a client that caches, the next [list_tools()] is served from the cache
    without a request when the clock has advanced by less than the TTL, and
    sends a new request as soon as it has advanced by the TTL or more. *)
Theorem discovery_then_cached_until_ttl (codes : ErrorCodes) (c : MCPClient)
    (response : MCPResponse ToolsListResult) :
  is_connected c = true →
  cache_tools c = true →
  t_respond (transport c) (length (t_sent (transport c))) TOOLS_LIST [] = Ret response →
  is_success response = true →
  tools_in response ≠ [] →
  ∃ c1,
    list_tools codes true c = (Ret (tools_in response), c1)
    ∧ (now_at (clock c) (S (reads (clock c))) - now_at (clock c) (reads (clock c))
       < microseconds (tool_cache_ttl c) →
       ∃ c2,
         list_tools codes false c1 = (Ret (map_to_list (_tools_cache c1)).*2, c2)
         ∧ t_sent (transport c2) = t_sent (transport c1)
         ∧ _tools_cache c2 = _tools_cache c1
         ∧ _tools_cache_time c2 = _tools_cache_time c1)
    ∧ ((microseconds (tool_cache_ttl c)
        ≤ now_at (clock c) (S (reads (clock c))) - now_at (clock c) (reads (clock c)))%Z →
       length (t_sent (transport (list_tools codes false c1).2))
       = S (length (t_sent (transport c1)))).
Proof.
  intros Hconn Hcaches Hresp Hok Hsome.
  exists (after_discovery c (tools_in response)).
  split; [by apply forced_discovery |].
  assert (Hne : bool_decide (foldl cache_tool (_tools_cache c) (tools_in response) = ∅)
                = false).
  { apply bool_decide_eq_false. by apply cache_tools_not_empty. }
  split; intros Hage.
  - eexists. unfold list_tools. run.
    replace (is_connected (after_discovery _ _)) with true by (symmetry; exact Hconn).
    run. unfold _is_cache_valid. run.
    cbn [after_discovery cache_tools set_tools_cache_time set_clock set_tools_cache
         set_transport _tools_cache _tools_cache_time].
    rewrite Hcaches, Hne. run. unfold datetime_now, read_clock. run.
    cbn [clock now_at reads tool_cache_ttl].
    rewrite (bool_decide_eq_true_2 _ Hage). run. by split_and!.
  - unfold list_tools. run.
    replace (is_connected (after_discovery _ _)) with true by (symmetry; exact Hconn).
    run. unfold _is_cache_valid. run.
    cbn [after_discovery cache_tools set_tools_cache_time set_clock set_tools_cache
         set_transport _tools_cache _tools_cache_time].
    rewrite Hcaches, Hne. run. unfold datetime_now, read_clock. run.
    cbn [clock now_at reads tool_cache_ttl].
    rewrite bool_decide_eq_false_2
      by (unfold after_discovery;
          cbn [clock now_at reads tool_cache_ttl set_tools_cache_time set_clock
               set_tools_cache set_transport];
          lia).
    run. unfold send_request, on_transport, transport_send.
    unfold after_discovery.
    cbn [transport set_tools_cache_time set_clock set_tools_cache set_transport
         t_respond t_sent t_is_connected t_connect].
    match goal with
    | |- context [t_respond ?t ?n ?m ?ps] =>
        destruct (t_respond t n m ps) as [response' | e]
    end; run; [| cbn; rewrite !length_app; cbn; lia].
    cbn [result_type] in response' |- *.
    destruct (is_success response'); run;
      cbn; rewrite !length_app; cbn; lia.
Qed.

Lemma discovery_then_cached_until_ttl_witness :
  ∃ c1 c2,
    list_tools example_codes true (example_client [] [gmail_tool] PNone)
    = (Ret [gmail_tool], c1)
    ∧ list_tools example_codes false c1 = (Ret (map_to_list (_tools_cache c1)).*2, c2)
    ∧ t_sent (transport c2) = t_sent (transport c1).
Proof.
  destruct (discovery_then_cached_until_ttl example_codes
              (example_client [] [gmail_tool] PNone)
              (ok_response (mkToolsListResult (Some [wire gmail_tool])))
              eq_refl eq_refl eq_refl eq_refl)
    as (c1 & H1 & Hhit & _); [discriminate |].
  destruct Hhit as (c2 & H2 & Hsent & _); [vm_compute; reflexivity |].
  exists c1, c2. split; [exact H1 |]. split; [exact H2 | exact Hsent].
Defined.

(** ** [call_tool]: what becomes of the gateway's answer *)

Lemma get_tool_loaded (codes : ErrorCodes) (c : MCPClient) (tn : string) :
  _tools_cache c ≠ ∅ → get_tool codes tn c = (Ret (_tools_cache c !! tn), c).
Proof.
  intros H. unfold get_tool. run. rewrite (bool_decide_eq_false_2 _ H). by run.
Qed.

Lemma call_tool_answered (codes : ErrorCodes) (c : MCPClient) (tn : string) (ps : dict)
    (validate : option bool) (response : MCPResponse pyval) :
  is_connected c = true →
  _tools_cache c ≠ ∅ →
  passes_validation c tn ps validate →
  t_respond (transport c) (length (t_sent (transport c))) TOOLS_CALL
            [("name", PStr tn); ("arguments", PDict ps)] = Ret response →
  call_tool codes tn ps validate c
  = (if is_success response then Ret (from_response tn response)
     else if is_rate_limited response then
       Raise (RateLimitError ("Rate limited while executing " +:+ tn) 60)
     else if is_auth_error response then
       Raise (AuthenticationError ("Authentication failed for " +:+ tn) false)
     else Ret (from_response tn response),
     after_call c tn ps (negb (is_success response))).
Proof.
  intros Hconn Hloaded Hpass Hresp. unfold call_tool. run. rewrite Hconn. run.
  rewrite get_tool_loaded by done. run. cbn [set_call_count _tools_cache].
  assert (Hcheck :
            match _tools_cache c !! tn with
            | Some tool =>
                if default (c_validate_params c) validate
                then match (validate_params tool ps).1 with
                     | [] => mret ()
                     | _ :: _ =>
                         raise (ValidationError
                                  ("Invalid parameters for " +:+ tn +:+ ": "
                                   +:+ join "; " (validate_params tool ps).1)
                                  [(tn, (validate_params tool ps).1)])
                     end
                else mret ()
            | None => mret ()
            end = (mret () : M MCPClient ())).
  { destruct Hpass as [H | [H | (tool & H & Herr)]].
    - rewrite H. by destruct (_ !! _).
    - by rewrite H.
    - rewrite H. cbn [validate_params fst]. rewrite Herr. by destruct (default _ _). }
  rewrite Hcheck. run.
  unfold send_request, on_transport, transport_send. cbn [transport set_call_count].
  rewrite Hresp. run. unfold after_call, from_response.
  destruct (is_success response); cbn [success negb]; run; [reflexivity |].
  destruct (is_rate_limited response); run; [reflexivity |].
  destruct (is_auth_error response); run; reflexivity.
Qed.

(** X5: on a connected client with a loaded cache, a call whose parameters
    pass validation counts one call and sends one request.  A successful
    answer is returned with its payload and no error is counted; a failed one
    counts one error and is raised as [MCPRateLimitError] (retry after 60) when
    flagged rate limited, else as [MCPAuthenticationError] when flagged as an
    authentication error, and otherwise returned as a result with [success]
    false carrying the response's message and code. *)
Theorem call_tool_maps_the_answer (codes : ErrorCodes) (c : MCPClient) (tn : string)
    (ps : dict) (validate : option bool) (response : MCPResponse pyval) :
  is_connected c = true →
  _tools_cache c ≠ ∅ →
  passes_validation c tn ps validate →
  t_respond (transport c) (length (t_sent (transport c))) TOOLS_CALL
            [("name", PStr tn); ("arguments", PDict ps)] = Ret response →
  ∃ outcome c',
    call_tool codes tn ps validate c = (outcome, c')
    ∧ _call_count c' = S (_call_count c)
    ∧ length (t_sent (transport c')) = S (length (t_sent (transport c)))
    ∧ (is_success response = true →
       _error_count c' = _error_count c
       ∧ ∃ r, outcome = Ret r ∧ success r = true ∧ error r = None
              ∧ tr_result r = default PNone (result response))
    ∧ (is_success response = false →
       _error_count c' = S (_error_count c)
       ∧ (is_rate_limited response = true →
          ∃ e, outcome = Raise e ∧ e_class e = MCPRateLimitError
               ∧ e_retry_after e = Some 60)
       ∧ (is_rate_limited response = false → is_auth_error response = true →
          ∃ e, outcome = Raise e ∧ e_class e = MCPAuthenticationError)
       ∧ (is_rate_limited response = false → is_auth_error response = false →
          ∃ r, outcome = Ret r ∧ success r = false
               ∧ error r = error_message response
               ∧ tr_error_code r = error_code response)).
Proof.
  intros Hconn Hloaded Hpass Hresp. eexists _, _.
  split; [by apply call_tool_answered |].
  unfold after_call, from_response.
  destruct (is_success response) eqn:Hok; cbn [negb].
  - split_and!; try done.
    + cbn. rewrite length_app. cbn. lia.
    + intros _. split; [done |]. by eexists.
  - split_and!; try done.
    + cbn. rewrite length_app. cbn. lia.
    + intros _. split_and!; [done | | |].
      * intros ->. by eexists.
      * intros -> ->. by eexists.
      * intros -> ->. by eexists.
Qed.

Lemma call_tool_maps_the_answer_witness :
  ∃ e c',
    call_tool example_codes "gmail_send_email" email_params None
              (limited_client [gmail_tool]) = (Raise e, c')
    ∧ e_class e = MCPRateLimitError
    ∧ _call_count c' = 1%nat
    ∧ _error_count c' = 1%nat.
Proof.
  destruct (call_tool_maps_the_answer example_codes (limited_client [gmail_tool])
              "gmail_send_email" email_params None limited_response)
    as (outcome & c' & Hcall & Hcount & _ & _ & Hfailed).
  - reflexivity.
  - apply (cache_tools_not_empty ∅ [gmail_tool]). discriminate.
  - right. right. exists gmail_tool. split; vm_compute; reflexivity.
  - reflexivity.
  - destruct Hfailed as (Herrors & Hlimited & _); [reflexivity |].
    destruct Hlimited as (e & -> & Hclass & _); [reflexivity |].
    exists e, c'. split; [exact Hcall |]. split; [exact Hclass |].
    split; [exact Hcount | exact Herrors].
Defined.

(** X6: a tool that the loaded cache does not hold is no obstacle: [get_tool]
    answers [None] without a request and without raising, and [call_tool] on a
    connected client checks no parameter and sends the call as it is. *)
Theorem unknown_tool_is_called_unchecked (codes : ErrorCodes) (c : MCPClient)
    (tn : string) (ps : dict) (validate : option bool) :
  _tools_cache c ≠ ∅ →
  _tools_cache c !! tn = None →
  get_tool codes tn c = (Ret None, c)
  ∧ (is_connected c = true →
     t_sent (transport (call_tool codes tn ps validate c).2)
     = (t_sent (transport c)
          ++ [mkRequest TOOLS_CALL [("name", PStr tn); ("arguments", PDict ps)]])%list).
Proof.
  intros Hloaded Hunknown. split.
  - rewrite get_tool_loaded by done. by rewrite Hunknown.
  - intros Hconn.
    destruct (t_respond (transport c) (length (t_sent (transport c))) TOOLS_CALL
                [("name", PStr tn); ("arguments", PDict ps)])
      as [response | e0] eqn:Hresp.
    + rewrite (call_tool_answered codes c tn ps validate response);
        [| done | done | right; by left | done].
      unfold after_call. cbn [result_type] in response |- *.
      by destruct (is_success response).
    + unfold call_tool. run. rewrite Hconn. run.
      rewrite get_tool_loaded by done. run. cbn [set_call_count _tools_cache].
      rewrite Hunknown. run.
      unfold send_request, on_transport, transport_send. cbn [transport set_call_count].
      rewrite Hresp. run. reflexivity.
Qed.

Lemma unknown_tool_is_called_unchecked_witness :
  get_tool example_codes "slack_post_message" (example_client [gmail_tool] [gmail_tool] PNone)
  = (Ret None, example_client [gmail_tool] [gmail_tool] PNone).
Proof.
  apply (unknown_tool_is_called_unchecked example_codes
           (example_client [gmail_tool] [gmail_tool] PNone)
           "slack_post_message" [] None).
  - apply (cache_tools_not_empty ∅ [gmail_tool]). discriminate.
  - vm_compute. reflexivity.
Defined.

(** ** The counters: errors never outnumber calls *)

Lemma counters_eq_get_tool (codes : ErrorCodes) (tn : string) :
  preserves counters_eq (get_tool codes tn).
Proof. unfold get_tool. preserve; done. Qed.

Lemma counters_eq_disconnect : preserves counters_eq disconnect.
Proof. unfold disconnect. preserve; done. Qed.

Lemma counters_eq_connect (codes : ErrorCodes) : preserves counters_eq (connect codes).
Proof. unfold connect. preserve; done. Qed.

Lemma call_tool_dispatch (codes : ErrorCodes) (tn : string) (ps : dict)
    (validate : option bool) :
  call_tool codes tn ps validate
  = (self ← get;
     if negb (is_connected self) then raise (ConnectionError "Not connected to MCP server")
     else
       modify (fun self => set_call_count (S (_call_count self)) self) ;;
       tool ← get_tool codes tn;
       (match tool with
        | Some tool =>
            if default (c_validate_params self) validate then
              match (validate_params tool ps).1 with
              | [] => mret tt
              | _ =>
                  raise (ValidationError
                           ("Invalid parameters for " +:+ tn +:+ ": "
                            +:+ join "; " (validate_params tool ps).1)
                           [(tn, (validate_params tool ps).1)])
              end
            else mret tt
        | None => mret tt
        end) ;;
       dispatch_call tn ps).
Proof. reflexivity. Qed.

Lemma dispatch_call_counts (tn : string) (ps : dict) (c : MCPClient) :
  _call_count (dispatch_call tn ps c).2 = _call_count c
  ∧ (_error_count c ≤ _error_count (dispatch_call tn ps c).2)%nat
  ∧ (_error_count (dispatch_call tn ps c).2 ≤ S (_error_count c))%nat.
Proof.
  unfold dispatch_call. run. unfold send_request, on_transport, transport_send.
  destruct (t_respond _ _ _ _) as [response | e]; run; [| cbn; lia].
  cbn [result_type] in response |- *. unfold from_response.
  destruct (is_success response); cbn [success]; run; [cbn; lia |].
  destruct (is_rate_limited response); run; [cbn; lia |].
  destruct (is_auth_error response); run; cbn; lia.
Qed.

(** One [call_tool] counts exactly one call when the client is connected,
    and at most one error. *)
Lemma call_tool_counts (codes : ErrorCodes) (c : MCPClient) (tn : string) (ps : dict)
    (validate : option bool) :
  (is_connected c = false → (call_tool codes tn ps validate c).2 = c)
  ∧ (is_connected c = true →
     _call_count (call_tool codes tn ps validate c).2 = S (_call_count c)
     ∧ (_error_count c ≤ _error_count (call_tool codes tn ps validate c).2)%nat
     ∧ (_error_count (call_tool codes tn ps validate c).2 ≤ S (_error_count c))%nat).
Proof.
  rewrite call_tool_dispatch.
  split; intros Hconn; run; rewrite Hconn; run; [done |].
  pose proof (counters_eq_get_tool codes tn (set_call_count (S (_call_count c)) c))
    as [Hcalls Herrors].
  destruct (get_tool codes tn (set_call_count (S (_call_count c)) c)) as [[tool | e] c1];
    cbn [snd set_call_count _call_count _error_count] in Hcalls, Herrors |- *;
    [| lia].
  pose proof (dispatch_call_counts tn ps c1) as Hsend.
  destruct tool as [tool |]; run.
  - destruct (default (c_validate_params c) validate); run.
    + destruct (validate_params tool ps).1; run; lia.
    + lia.
  - lia.
Qed.

(** X7: the error count never exceeds the call count: a client constructed
    with both at zero keeps [_error_count ≤ _call_count] through every
    sequence of connects, disconnects, discoveries, lookups and calls, strict
    or safe, whatever the gateway answers. *)
Theorem errors_never_exceed_calls (codes : ErrorCodes) (ops : list ClientOp)
    (c : MCPClient) :
  errors_within_calls c → errors_within_calls (run_ops codes ops c).
Proof.
  revert c. induction ops as [|op ops IH]; intros c Hc; [done |].
  cbn [run_ops foldl]. apply IH. unfold errors_within_calls in *.
  destruct op as [| | force | tn | tn ps validate | tn ps | t k]; cbn [run_op].
  - destruct (counters_eq_connect codes c). lia.
  - destruct (counters_eq_disconnect c). lia.
  - destruct (counters_eq_list_tools codes force c). lia.
  - destruct (counters_eq_get_tool codes tn c). lia.
  - destruct (call_tool_counts codes c tn ps validate) as [Hoff Hon].
    destruct (is_connected c); [destruct Hon as (? & ? & ?); [done | lia] |].
    by rewrite Hoff.
  - assert (Hsame : (call_tool_safe codes tn ps c).2 = (call_tool codes tn ps None c).2).
    { unfold call_tool_safe, try_except.
      destruct (call_tool codes tn ps None c) as [[r | e] c']; [done |].
      by destruct (e_class e). }
    rewrite Hsame.
    destruct (call_tool_counts codes c tn ps None) as [Hoff Hon].
    destruct (is_connected c); [destruct Hon as (? & ? & ?); [done | lia] |].
    by rewrite Hoff.
  - cbn. lia.
Qed.

Lemma errors_never_exceed_calls_witness :
  errors_within_calls
    (run_ops example_codes
       [OpConnect; OpCallTool "gmail_send_email" email_params None;
        OpCallToolSafe "gmail_send_email" subject_only; OpDisconnect]
       fresh_client).
Proof.
  apply (errors_never_exceed_calls example_codes). unfold errors_within_calls.
  cbn. lia.
Defined.

(** ** [connect] *)

#[local] Instance same_connected_preorder : PreOrder same_connected.
Proof. split; [by intros c | intros c1 c2 c3; unfold same_connected; congruence]. Qed.

Lemma same_connected_on_transport {A} (m : M MCPTransport A) :
  preserves same_connected (on_transport m).
Proof. intros c. unfold on_transport. by destruct (m (transport c)). Qed.

Lemma same_connected_send_request (m : MCPMethod) (ps : dict) :
  preserves same_connected (send_request m ps).
Proof. apply same_connected_on_transport. Qed.

Lemma same_connected_datetime_now : preserves same_connected datetime_now.
Proof. by intros c. Qed.

#[local] Hint Resolve same_connected_on_transport same_connected_send_request
  same_connected_datetime_now : preserves.

Lemma same_connected__is_cache_valid : preserves same_connected _is_cache_valid.
Proof. unfold _is_cache_valid. preserve. Qed.

#[local] Hint Resolve same_connected__is_cache_valid : preserves.

Lemma same_connected_list_tools (codes : ErrorCodes) (force_refresh : bool) :
  preserves same_connected (list_tools codes force_refresh).
Proof. unfold list_tools. preserve; done. Qed.

(** A block [try: ... except Exception: pass] returns. *)
Lemma try_except_pass {S} (m : M S ()) (s : S) :
  try_except m (fun _ => mret ()) s = (Ret (), (m s).2).
Proof. unfold try_except. by destruct (m s) as [[[] | e] s']. Qed.

Lemma handshake_and_prefetch_returns (codes : ErrorCodes) (c : MCPClient) :
  ∃ c', handshake_and_prefetch codes c = (Ret true, c') ∧ _connected c' = _connected c.
Proof.
  assert (H : preserves same_connected (handshake_and_prefetch codes)).
  { unfold handshake_and_prefetch. preserve; try done.
    apply same_connected_list_tools. }
  exists (handshake_and_prefetch codes c).2. split; [| symmetry; apply H].
  unfold handshake_and_prefetch. rewrite run_bind, try_except_pass. run.
  destruct (cache_tools _); [rewrite try_except_pass |]; by run.
Qed.

(** X8: [connect] succeeds exactly when [transport.connect()] returns [True]:
    it then returns [True] with the connected flag set, whatever becomes of
    the handshake and of the prefetch of the tools.  When the transport
    reports [False], or raises, [connect] raises an MCP error (the
    transport's own if it is one, else an [MCPConnectionError] carrying its
    message) and the connected flag stays as it was. *)
Theorem connect_depends_on_transport_only (codes : ErrorCodes) (c : MCPClient) :
  match t_connect (transport c) with
  | Ret true =>
      ∃ c', connect codes c = (Ret true, c') ∧ _connected c' = true
  | Ret false =>
      ∃ c',
        connect codes c = (Raise (ConnectionError "Transport failed to connect"), c')
        ∧ _connected c' = _connected c
  | Raise e =>
      connect codes c
      = (Raise (if is_MCPError e then e
                else ConnectionError ("Failed to connect: " +:+ e_message e)), c)
  end.
Proof.
  assert (Heq : connect codes
                = try_except
                    (connected ← on_transport transport_connect;
                     if negb connected
                     then raise (ConnectionError "Transport failed to connect")
                     else modify (set_connected true) ;; handshake_and_prefetch codes)
                    (fun e =>
                       if is_MCPError e then raise e
                       else raise (ConnectionError
                                     ("Failed to connect: " +:+ e_message e))))
    by reflexivity.
  rewrite Heq. unfold try_except. rewrite run_bind.
  unfold on_transport, transport_connect.
  destruct (t_connect (transport c)) as [[|] | e] eqn:Hconnect; run.
  - destruct (handshake_and_prefetch_returns codes
                (set_connected true
                   (set_transport
                      (mkTransport true (Ret true) (t_respond (transport c))
                                   (t_sent (transport c))) c)))
      as (c' & Hrun & Hflag).
    rewrite Hrun. by exists c'.
  - eexists. by split.
  - destruct c as [[]]. cbn in *. subst. by destruct (is_MCPError e).
Qed.

(** ** Which failures of [call_tool_safe] are worth a retry *)

(** X9: when [call_tool] raises, the result that [call_tool_safe] returns in
    its place is retriable exactly when the exception was a rate-limit error,
    provided the code for invalid parameters is neither the server-error nor
    the rate-limit code; a result that reports success is never retriable. *)
Theorem safe_failure_retriable_iff_rate_limited (codes : ErrorCodes) (c c' : MCPClient)
    (tn : string) (ps : dict) (e : exn) :
  INVALID_PARAMS codes ≠ SERVER_ERROR codes →
  INVALID_PARAMS codes ≠ RATE_LIMITED codes →
  call_tool codes tn ps None c = (Raise e, c') →
  ∃ r,
    call_tool_safe codes tn ps c = (Ret r, c')
    ∧ (is_retriable codes r = true ↔ e_class e = MCPRateLimitError)
    ∧ ∀ r', success r' = true → is_retriable codes r' = false.
Proof.
  intros Hserver Hlimit Hraise. unfold call_tool_safe, try_except. rewrite Hraise.
  assert (Hok : ∀ r', success r' = true → is_retriable codes r' = false).
  { intros r' H. unfold is_retriable. by rewrite H. }
  destruct (e_class e) eqn:Hclass; eexists; (split; [reflexivity |]);
    (split; [| exact Hok]); unfold is_retriable; cbn [from_error success tr_error_code];
    try done.
  - rewrite Z.eqb_refl, orb_true_r. done.
  - apply Z.eqb_neq in Hserver, Hlimit. rewrite Hserver, Hlimit. done.
Qed.

Lemma safe_failure_retriable_iff_rate_limited_witness :
  ∃ r c',
    call_tool_safe example_codes "gmail_send_email" email_params
                   (limited_client [gmail_tool]) = (Ret r, c')
    ∧ is_retriable example_codes r = true.
Proof.
  epose proof (safe_failure_retriable_iff_rate_limited example_codes
                 (limited_client [gmail_tool]) _ "gmail_send_email" email_params _)
    as H.
  edestruct H as (r & Hsafe & Hretry & _).
  - discriminate.
  - discriminate.
  - vm_compute. reflexivity.
  - exists r. eexists. split; [exact Hsafe |]. apply Hretry. reflexivity.
Defined.

(** * Further properties of the security manager *)

(** ** Strings *)

Lemma len_app (a b : string) : len (a +:+ b) = (len a + len b)%nat.
Proof.
  induction a as [|c a IH]; [done |].
  change (S (len (a +:+ b)) = S (len a + len b)). by rewrite IH.
Qed.

Lemma take_app_len (a b : string) : take (len a) (a +:+ b) = a.
Proof.
  induction a as [|c a IH]; [by destruct b |].
  change (String c (take (len a) (a +:+ b)) = String c a). by rewrite IH.
Qed.

Lemma drop_app_len (a b : string) : drop (len a) (a +:+ b) = b.
Proof. induction a as [|c a IH]; [done | exact IH]. Qed.

Lemma prefix_empty (s : string) : String.prefix "" s = true.
Proof. by destruct s. Qed.

Lemma prefix_cons (x c : ascii) (p s : string) :
  String.prefix (String x p) (String c s) = Ascii.eqb c x && String.prefix p s.
Proof.
  simpl. destruct (Ascii.ascii_dec x c) as [-> | Hne].
  - by rewrite Ascii.eqb_refl.
  - assert (E : Ascii.eqb c x = false) by (apply Ascii.eqb_neq; congruence).
    by rewrite E.
Qed.

(** [c in s] for a character, read off the first character of [s]. *)
Lemma str_in_char_cons (c x : ascii) (s : string) :
  str_in (String c "") (String x s) = Ascii.eqb x c || str_in (String c "") s.
Proof. by rewrite str_in_cons, prefix_cons, prefix_empty, andb_true_r. Qed.

Lemma app_not_empty (a b : string) : b ≠ "" → a +:+ b ≠ "".
Proof. destruct a; [done |]. intros _. discriminate. Qed.

(** ** [rstrip], [split] and [partition] *)

Lemma rstrip_app (c : ascii) (a b : string) :
  rstrip c b ≠ "" → rstrip c (a +:+ b) = a +:+ rstrip c b.
Proof.
  intros H. induction a as [|y a IH]; [done |].
  change (String y a +:+ b) with (String y (a +:+ b)).
  change (String y a +:+ rstrip c b) with (String y (a +:+ rstrip c b)).
  cbn [rstrip]. rewrite IH.
  pose proof (app_not_empty a _ H) as Hne.
  by destruct (a +:+ rstrip c b).
Qed.

Lemma rstrip_no_sep (c : ascii) (s : string) :
  s ≠ "" → str_in (String c "") s = false → rstrip c s = s.
Proof.
  induction s as [|x s IH]; [done |]. intros _ H.
  rewrite str_in_char_cons in H. apply orb_false_iff in H as [Hx Hs].
  cbn [rstrip]. destruct s as [|y s]; [by cbn [rstrip]; rewrite Hx |].
  by rewrite IH.
Qed.

Lemma rstrip_sep_end (c : ascii) (s : string) :
  rstrip c (s +:+ String c "") = rstrip c s.
Proof.
  induction s as [|x s IH].
  { change (rstrip c (String c "") = ""). cbn [rstrip]. by rewrite Ascii.eqb_refl. }
  change (String x s +:+ String c "") with (String x (s +:+ String c "")).
  cbn [rstrip]. by rewrite IH.
Qed.

Lemma split_no_sep (c : ascii) (s : string) :
  str_in (String c "") s = false → split c s = [s].
Proof.
  induction s as [|x s IH]; [done |]. intros H.
  rewrite str_in_char_cons in H. apply orb_false_iff in H as [Hx Hs].
  cbn [split]. by rewrite Hx, IH.
Qed.

Lemma split_head (c : ascii) (host rest : string) :
  str_in (String c "") host = false →
  split c (host +:+ String c rest) = host :: split c rest.
Proof.
  induction host as [|x host IH]; intros H.
  - change (split c (String c rest) = "" :: split c rest).
    cbn [split]. by rewrite Ascii.eqb_refl.
  - rewrite str_in_char_cons in H. apply orb_false_iff in H as [Hx Hs].
    change (String x host +:+ String c rest) with (String x (host +:+ String c rest)).
    cbn [split]. by rewrite Hx, IH.
Qed.

Lemma split_tail (c : ascii) (a b : string) :
  ∃ front, split c (a +:+ String c b) = (front ++ split c b)%list ∧ front ≠ [].
Proof.
  induction a as [|x a (front & IH & Hne)].
  - exists [""]. split; [| done].
    change (split c (String c b) = "" :: split c b).
    cbn [split]. by rewrite Ascii.eqb_refl.
  - change (String x a +:+ String c b) with (String x (a +:+ String c b)).
    cbn [split]. rewrite IH. destruct (Ascii.eqb x c).
    + by exists ("" :: front).
    + destruct front as [|w front]; [done |]. by exists (String x w :: front).
Qed.

Lemma last_after (front l : list string) (d : string) :
  l ≠ [] → List.last (front ++ l)%list d = List.last l d.
Proof.
  intros H. induction front as [|w front IH]; [done |].
  cbn [app]. destruct (front ++ l)%list eqn:E.
  - by apply app_eq_nil in E as [_ ->].
  - exact IH.
Qed.

Lemma partition_cons (sep : string) (c : ascii) (s : string) :
  partition sep (String c s) =
  if String.prefix sep (String c s) then Some ("", drop (len sep) (String c s))
  else match partition sep s with
       | Some (before, after) => Some (String c before, after)
       | None => None
       end.
Proof. done. Qed.

(** The first occurrence of a separator is where a text free of its first
    character ends. *)
Lemma partition_first (x : ascii) (sep before after : string) :
  str_in (String x "") before = false →
  partition (String x sep) (before +:+ String x sep +:+ after) = Some (before, after).
Proof.
  induction before as [|c before IH]; intros H.
  - change ("" +:+ String x sep +:+ after) with (String x (sep +:+ after)).
    rewrite partition_cons, prefix_cons, Ascii.eqb_refl, prefix_app.
    cbn [andb]. f_equal. f_equal.
    change (drop (len sep) (sep +:+ after) = after). apply drop_app_len.
  - rewrite str_in_char_cons in H. apply orb_false_iff in H as [Hx Hs].
    change (String c before +:+ String x sep +:+ after)
      with (String c (before +:+ String x sep +:+ after)).
    rewrite partition_cons, prefix_cons, Hx. cbn [andb]. by rewrite IH.
Qed.

(** ** Masking *)

Lemma len_mask_string (s : string) : (len (mask_string s) ≤ 11)%nat.
Proof.
  unfold mask_string. destruct (Nat.ltb_spec 8 (len s)) as [H | H].
  - rewrite !len_app, len_take by lia. unfold last_n. rewrite len_drop.
    change (len "...") with 3%nat. lia.
  - change (len "****") with 4%nat. lia.
Qed.

Lemma mask_string_idempotent (s : string) :
  mask_string (mask_string s) = mask_string s.
Proof.
  unfold mask_string at 2 3. destruct (Nat.ltb_spec 8 (len s)) as [H | H]; [| done].
  set (h := take 4 s). set (t := last_n 4 s).
  assert (Hh : len h = 4%nat) by (apply len_take; lia).
  assert (Ht : len t = 4%nat) by (unfold t, last_n; rewrite len_drop; lia).
  unfold mask_string.
  assert (Hlen : len (h +:+ "..." +:+ t) = 11%nat).
  { rewrite !len_app, Hh, Ht. done. }
  rewrite Hlen. cbn [Nat.ltb Nat.leb]. f_equal.
  - rewrite <- Hh at 1. apply take_app_len.
  - f_equal. unfold last_n. rewrite Hlen.
    rewrite <- append_assoc.
    replace (11 - 4)%nat with (len (h +:+ "...")) by (rewrite len_app, Hh; done).
    apply drop_app_len.
Qed.

Lemma _mask_value_idempotent (v : pyval) :
  ∀ key, _mask_value key (_mask_value key v) = _mask_value key v.
Proof.
  induction v as [| b | z | s | l IH | d IH] using pyval_induction; intros key;
    try done.
  - cbn [_mask_value].
    destruct (any _ sensitive_patterns) eqn:E; cbn [_mask_value]; rewrite E; [| done].
    by rewrite mask_string_idempotent.
  - cbn [_mask_value]. f_equal.
    induction IH as [|v l Hv _ IHl]; [done |]. cbn [map]. by rewrite Hv, IHl.
  - cbn [_mask_value]. f_equal.
    induction IH as [|[k v] d Hv _ IHd]; [done |]. cbn [map fst snd].
    cbn [snd] in Hv. by rewrite Hv, IHd.
Qed.

(** X10. Masking is idempotent: masking data that has been masked already
    changes nothing, so a value that passes through [mask_sensitive_data]
    more than once on its way to the log is shown as after the first pass. *)
Theorem masking_is_idempotent (data : dict) :
  mask_sensitive_data (mask_sensitive_data data) = mask_sensitive_data data.
Proof.
  unfold mask_sensitive_data.
  induction data as [|[k v] data IH]; [done |].
  cbn [map fst snd]. by rewrite _mask_value_idempotent, IH.
Qed.

(** ** The identifier shown in logs *)

Lemma split_not_empty (c : ascii) (s : string) : split c s ≠ [].
Proof.
  destruct s as [|x s]; [done |]. cbn [split].
  destruct (Ascii.eqb x c); [done |]. by destruct (split c s).
Qed.

Lemma _extract_server_id_mask (url : string) :
  url ≠ "" →
  _extract_server_id url = mask_string (List.last (split slash (rstrip slash url)) "").
Proof.
  intros H. unfold _extract_server_id, mask_string.
  apply String.eqb_neq in H. rewrite H.
  pose proof (split_not_empty slash (rstrip slash url)) as Hne.
  by destruct (split slash (rstrip slash url)).
Qed.

(** X11. The identifier derived from a URL is the mask of its last path
    segment, with or without a slash at the end of the URL, and is never
    longer than 11 characters: of a segment of more than 8 characters it shows
    the first four and the last four, of a shorter one nothing. *)
Theorem server_id_masks_last_segment (base segment : string) :
  segment ≠ "" →
  str_in "/" segment = false →
  _extract_server_id (base +:+ "/" +:+ segment) = mask_string segment
  ∧ _extract_server_id (base +:+ "/" +:+ segment +:+ "/") = mask_string segment
  ∧ (len (mask_string segment) ≤ 11)%nat.
Proof.
  intros Hne Hslash.
  assert (Hstrip : rstrip slash (base +:+ "/" +:+ segment) = base +:+ "/" +:+ segment).
  { rewrite <- append_assoc.
    rewrite rstrip_app; rewrite (rstrip_no_sep slash segment Hne Hslash); done. }
  assert (Hlast : List.last (split slash (base +:+ "/" +:+ segment)) "" = segment).
  { destruct (split_tail slash base segment) as (front & E & Hfront).
    change (base +:+ "/" +:+ segment) with (base +:+ String slash segment).
    rewrite E, last_after by apply split_not_empty.
    by rewrite (split_no_sep slash segment Hslash). }
  split_and!.
  - rewrite _extract_server_id_mask by (apply app_not_empty; discriminate).
    by rewrite Hstrip, Hlast.
  - rewrite _extract_server_id_mask by (apply app_not_empty; discriminate).
    replace (base +:+ "/" +:+ segment +:+ "/")
      with ((base +:+ "/" +:+ segment) +:+ String slash "")
      by (by rewrite !append_assoc).
    by rewrite rstrip_sep_end, Hstrip, Hlast.
  - apply len_mask_string.
Qed.

Lemma server_id_masks_last_segment_witness :
  _extract_server_id "https://mcp.zapier.com/api/v1/abc123xyz789" = "abc1...z789"
  ∧ _extract_server_id "https://mcp.zapier.com/api/v1/abc123xyz789/" = "abc1...z789"
  ∧ _extract_server_id "https://mcp.zapier.com/api/v1/short" = "****".
Proof.
  pose proof (server_id_masks_last_segment "https://mcp.zapier.com/api/v1"
                "abc123xyz789" ltac:(discriminate) eq_refl) as (H1 & H2 & _).
  pose proof (server_id_masks_last_segment "https://mcp.zapier.com/api/v1"
                "short" ltac:(discriminate) eq_refl) as (H3 & _).
  split_and!; [exact H1 | exact H2 | exact H3].
Defined.

(** ** The URL shown in logs *)

Lemma last_n_app_len (a b : string) : last_n (len b) (a +:+ b) = b.
Proof.
  unfold last_n. rewrite len_app.
  replace (len a + len b - len b)%nat with (len a) by lia.
  apply drop_app_len.
Qed.

(** Up to the first [://] of a text that starts with a host followed by a
    slash, the host and the slash are kept. *)
Lemma split_first_host (host path : string) :
  str_in "/" host = false →
  (∀ h, host ≠ h +:+ ":") →
  ∃ q, split_first "://" (host +:+ "/" +:+ path) = host +:+ "/" +:+ q.
Proof.
  unfold split_first. induction host as [|c host IH]; intros Hslash Hcolon.
  - change ("" +:+ "/" +:+ path) with (String slash path).
    rewrite partition_cons, prefix_cons. cbn [andb Ascii.eqb Bool.eqb slash ascii_of_nat].
    change (Ascii.eqb slash ":"%char) with false. cbn [andb].
    destruct (partition "://" path) as [[before after] |].
    + by exists before.
    + by exists path.
  - change (String c host +:+ "/" +:+ path) with (String c (host +:+ "/" +:+ path)).
    change (str_in (String slash "") (String c host) = false) in Hslash.
    rewrite str_in_char_cons in Hslash. apply orb_false_iff in Hslash as [Hc Hs].
    rewrite partition_cons.
    assert (Hp : String.prefix "://" (String c (host +:+ "/" +:+ path)) = false).
    { rewrite prefix_cons. destruct (Ascii.eqb_spec c ":"%char) as [-> | _]; [| done].
      cbn [andb]. destruct host as [|y host].
      - exfalso. by apply (Hcolon "").
      - change (String y host +:+ "/" +:+ path) with (String y (host +:+ "/" +:+ path)).
        rewrite prefix_cons.
        change (str_in (String slash "") (String y host) = false) in Hs.
        rewrite str_in_char_cons in Hs. apply orb_false_iff in Hs as [Hy _].
        change "/"%char with slash. by rewrite Hy. }
    rewrite Hp.
    destruct IH as (q & IH); [exact Hs | |].
    { intros h E. apply (Hcolon (String c h)). by rewrite E. }
    destruct (partition "://" (host +:+ "/" +:+ path)) as [[before after] |].
    + exists q. by rewrite IH.
    + exists q. by rewrite IH.
Qed.

(** X12. Of a URL made of a scheme, [://], a host, a slash and a path, the
    masked URL shows the scheme and the host and nothing of the path, which
    holds the secret: the result is the same for every path. The scheme has no
    colon; the host, which may carry a port, has no slash and does not end in
    a colon. *)
Theorem masked_url_hides_the_path (creds : MCPCredentials) (scheme host path : string) :
  server_url creds = scheme +:+ "://" +:+ host +:+ "/" +:+ path →
  str_in ":" scheme = false →
  str_in "/" host = false →
  last_n 1 host ≠ ":" →
  masked_url creds = scheme +:+ "://" +:+ host +:+ "/***MASKED***".
Proof.
  intros Hurl Hscheme Hhost Hend.
  assert (Hcolon : ∀ h, host ≠ h +:+ ":").
  { intros h ->. apply Hend. apply (last_n_app_len h ":"). }
  unfold masked_url, split_second, split_first. rewrite Hurl.
  assert (Hne : String.eqb (scheme +:+ "://" +:+ host +:+ "/" +:+ path) "" = false).
  { apply String.eqb_neq, app_not_empty. discriminate. }
  rewrite Hne.
  assert (Hin : str_in "://" (scheme +:+ "://" +:+ host +:+ "/" +:+ path) = true).
  { apply str_in_spec. by exists scheme, (host +:+ "/" +:+ path). }
  rewrite Hin.
  rewrite (partition_first ":"%char "//" scheme (host +:+ "/" +:+ path) Hscheme).
  destruct (split_first_host host path Hhost Hcolon) as (q & Hq).
  unfold split_first in Hq. rewrite Hq.
  assert (Hslash : str_in "/" (host +:+ "/" +:+ q) = true).
  { apply str_in_spec. by exists host, q. }
  rewrite Hslash.
  change (host +:+ "/" +:+ q) with (host +:+ String slash q).
  rewrite (split_head slash host q Hhost). cbn [head default from_option id].
  by rewrite append_assoc.
Qed.

Lemma masked_url_hides_the_path_witness :
  masked_url (mkCredentials "https://mcp.zapier.com:443/api/v1/abc123xyz789" "zapier"
                 None 0 None [])
  = "https://mcp.zapier.com:443/***MASKED***".
Proof.
  apply (masked_url_hides_the_path _ "https" "mcp.zapier.com:443" "api/v1/abc123xyz789");
    [reflexivity | reflexivity | reflexivity | discriminate].
Defined.

(** ** Loading and rotating the credentials *)

Lemma _load_environment_with_url (env : gmap string string) (u : string)
    (sm : MCPSecurityManager) :
  env !! ENV_ZAPIER_MCP_URL = Some u →
  u ≠ "" →
  ∃ creds clock' enabled,
    _load_environment env sm
    = (Ret tt, mkSecurityManager (<["zapier" := creds]> (_credentials_cache sm))
                 enabled clock')
    ∧ server_url creds = u
    ∧ server_id creds = Some (_extract_server_id u)
    ∧ expires_at creds = None
    ∧ created_at creds = now_at (sm_clock sm) (reads (sm_clock sm)).
Proof.
  intros Hu Hne. apply String.eqb_neq in Hne.
  unfold _load_environment, new_credentials, sm_now, read_clock. run.
  rewrite Hu, Hne. cbn [negb]. run.
  eexists _, _, _. split; [reflexivity |]. done.
Qed.

Lemma _load_environment_without_url (env : gmap string string)
    (sm : MCPSecurityManager) :
  env !! ENV_ZAPIER_MCP_URL = None ∨ env !! ENV_ZAPIER_MCP_URL = Some "" →
  ∃ enabled,
    _load_environment env sm
    = (Ret tt, mkSecurityManager (_credentials_cache sm) enabled (sm_clock sm)).
Proof.
  intros [Hu | Hu]; unfold _load_environment; run; rewrite Hu; run; by eexists.
Qed.

(** X13. Rotation takes the credentials from the environment as it is after
    the reload: with a URL that is not empty in the environment, it reports
    success, whatever was cached before and whether or not the URL has the
    form of a Zapier URL, and the credentials returned from then on carry that
    URL, the identifier derived from it, the time of the rotation and no
    expiry. *)
Theorem rotation_loads_the_environment (env : gmap string string) (u : string)
    (sm : MCPSecurityManager) :
  env !! ENV_ZAPIER_MCP_URL = Some u →
  u ≠ "" →
  ∃ creds sm',
    rotate_credentials env "zapier" sm = (Ret true, sm')
    ∧ get_zapier_credentials sm' = (Ret (Some creds), sm')
    ∧ server_url creds = u
    ∧ server_id creds = Some (_extract_server_id u)
    ∧ expires_at creds = None
    ∧ created_at creds = now_at (sm_clock sm) (reads (sm_clock sm)).
Proof.
  intros Hu Hne.
  unfold rotate_credentials. run.
  edestruct (_load_environment_with_url env u) as (creds & clock' & enabled & E & H);
    [exact Hu | exact Hne |].
  rewrite E. run. cbn [_credentials_cache set_credentials_cache].
  exists creds. eexists. split_and!; try apply H.
  - f_equal. f_equal. apply bool_decide_eq_true_2. by simplify_map_eq.
  - destruct H as (Hurl & _ & Hexp & _).
    apply get_zapier_credentials_configured; cbn [_credentials_cache];
      [by simplify_map_eq | by rewrite Hurl | exact Hexp].
Qed.

Lemma rotation_loads_the_environment_witness :
  _validate_zapier_url "http://example.org/hooks/abc123xyz789" = false
  ∧ ∃ creds sm',
      rotate_credentials foreign_environment "zapier" loaded_manager = (Ret true, sm')
      ∧ get_zapier_credentials sm' = (Ret (Some creds), sm')
      ∧ server_url creds = "http://example.org/hooks/abc123xyz789"
      ∧ server_id creds = Some "abc1...z789".
Proof.
  split; [reflexivity |].
  destruct (rotation_loads_the_environment foreign_environment
              "http://example.org/hooks/abc123xyz789" loaded_manager
              ltac:(vm_compute; reflexivity) ltac:(discriminate))
    as (creds & sm' & H1 & H2 & H3 & H4 & _).
  exists creds, sm'. split_and!; [exact H1 | exact H2 | exact H3 | exact H4].
Defined.

(** X14. Rotation fails, and leaves no credentials cached for the provider,
    when the environment has no URL or an empty one, and for every provider
    other than ["zapier"], for which nothing is ever loaded: what was cached
    for the provider before the rotation is lost. *)
Theorem rotation_without_url_forgets (env : gmap string string) (provider : string)
    (sm : MCPSecurityManager) :
  provider ≠ "zapier"
  ∨ env !! ENV_ZAPIER_MCP_URL = None ∨ env !! ENV_ZAPIER_MCP_URL = Some "" →
  ∃ sm',
    rotate_credentials env provider sm = (Ret false, sm')
    ∧ _credentials_cache sm' !! provider = None
    ∧ (provider = "zapier" → get_zapier_credentials sm' = (Ret None, sm')).
Proof.
  intros H. unfold rotate_credentials. run.
  destruct (env !! ENV_ZAPIER_MCP_URL) as [u |] eqn:Hu;
    [destruct (decide (u = "")) as [-> | Hne] |].
  2: {
    destruct H as [Hp | [H | H]]; [| done | congruence].
    edestruct (_load_environment_with_url env u) as (creds & clock' & enabled & E & _);
      [exact Hu | exact Hne |].
    rewrite E. run. cbn [_credentials_cache set_credentials_cache].
    eexists. split_and!.
    - f_equal. f_equal. apply bool_decide_eq_false_2. simplify_map_eq.
      by intros [? ?].
    - cbn [_credentials_cache]. by simplify_map_eq.
    - done. }
  all: edestruct (_load_environment_without_url env) as (enabled & E);
    [rewrite Hu; by eauto |];
    rewrite E; run; cbn [_credentials_cache set_credentials_cache];
    eexists; split_and!;
    [ f_equal; f_equal; apply bool_decide_eq_false_2; simplify_map_eq; by intros [? ?]
    | cbn [_credentials_cache]; by simplify_map_eq
    | intros ->; apply get_zapier_credentials_unconfigured;
      cbn [_credentials_cache]; by simplify_map_eq ].
Qed.

Lemma rotation_without_url_forgets_witness :
  ∃ sm',
    rotate_credentials empty_environment "zapier" loaded_manager = (Ret false, sm')
    ∧ get_zapier_credentials sm' = (Ret None, sm').
Proof.
  destruct (rotation_without_url_forgets empty_environment "zapier" loaded_manager
              ltac:(right; left; vm_compute; reflexivity))
    as (sm' & H1 & _ & H2).
  exists sm'. split; [exact H1 | exact (H2 eq_refl)].
Defined.

(** * Further properties of the Zapier bridge *)

(** ** Categories *)

Lemma startswith_longer (n p q : string) :
  startswith n (p +:+ q) = true → startswith n p = true.
Proof.
  unfold startswith. intros H. apply prefix_split in H as [rest ->].
  rewrite append_assoc. apply prefix_app.
Qed.

Lemma str_in_longer (n p q : string) : str_in (p +:+ q) n = true → str_in p n = true.
Proof.
  rewrite !str_in_spec. intros (a & b & ->). exists a, (q +:+ b).
  by rewrite append_assoc.
Qed.

Lemma mcp_tool_categorize (tool : MCPTool) : mcp_tool (_categorize_tool tool) = tool.
Proof.
  unfold _categorize_tool. by destruct (split underscore (name tool)) as [|? [|? ?]].
Qed.

Lemma category_categorize (tool : MCPTool) :
  zt_category (_categorize_tool tool) = find_category (lower (name tool)) CATEGORY_PREFIXES.
Proof.
  unfold _categorize_tool. by destruct (split underscore (name tool)) as [|? [|? ?]].
Qed.

(** X15. The entry of the prefix table that sends [outlook_calendar] to the
    calendar category never decides: every name it matches is matched by the
    entry for [outlook], which comes before it, or by the one for [gmail], and
    the tool is filed under email. *)
Theorem outlook_calendar_is_email (tool : MCPTool) :
  startswith (lower (name tool)) "outlook_calendar" = true
  ∨ str_in ("_" +:+ "outlook_calendar") (lower (name tool)) = true →
  ("outlook_calendar", CALENDAR) ∈ CATEGORY_PREFIXES
  ∧ zt_category (_categorize_tool tool) = EMAIL.
Proof.
  intros H. split.
  { apply list_elem_of_In. unfold CATEGORY_PREFIXES.
    repeat first [left; reflexivity | right]. }
  rewrite category_categorize. set (n := lower (name tool)) in *.
  assert (Houtlook : startswith n "outlook" || str_in ("_" +:+ "outlook") n = true).
  { apply orb_true_iff. destruct H as [H | H].
    - left. by apply (startswith_longer n "outlook" "_calendar").
    - right. by apply (str_in_longer n "_outlook" "_calendar"). }
  unfold CATEGORY_PREFIXES. cbn [find_category].
  destruct (startswith n "gmail" || str_in ("_" +:+ "gmail") n); [done |].
  by rewrite Houtlook.
Qed.

Lemma outlook_calendar_is_email_witness :
  zt_category (_categorize_tool
                 (mkTool "outlook_calendar_create_event" "Create an event"
                         empty_schema None None)) = EMAIL.
Proof.
  apply (outlook_calendar_is_email
           (mkTool "outlook_calendar_create_event" "Create an event"
                   empty_schema None None)).
  left. reflexivity.
Defined.

Lemma find_category_other (n : string) (table : list (string * ZapierToolCategory)) :
  Forall (fun entry => entry.2 ≠ OTHER) table →
  find_category n table = OTHER
  ↔ Forall (fun entry => startswith n entry.1 = false
                         ∧ str_in ("_" +:+ entry.1) n = false) table.
Proof.
  induction 1 as [|[p cat] table Hcat _ IH]; cbn [find_category fst snd] in *.
  - split; [constructor | done].
  - destruct (startswith n p) eqn:E1; cbn [orb].
    + split; [done |]. intros Hall.
      apply Forall_cons in Hall as [[Ha _] _]. cbn [fst] in Ha. congruence.
    + destruct (str_in ("_" +:+ p) n) eqn:E2.
      * split; [done |]. intros Hall.
        apply Forall_cons in Hall as [[_ Hb] _]. cbn [fst] in Hb. congruence.
      * rewrite IH. split.
        -- intros Hall. by constructor.
        -- intros Hall. by apply Forall_cons in Hall as [_ Hall].
Qed.

(** X16. A tool is filed under [OTHER] exactly when no prefix of the table
    matches its lower-cased name, at its start or after an underscore: no
    entry of the table leads to [OTHER], and the categories [FINANCE] and
    [HR], to which no entry leads either, are never given. *)
Theorem other_iff_no_prefix_matches (tool : MCPTool) :
  (zt_category (_categorize_tool tool) = OTHER
   ↔ Forall (fun entry => startswith (lower (name tool)) entry.1 = false
                          ∧ str_in ("_" +:+ entry.1) (lower (name tool)) = false)
            CATEGORY_PREFIXES)
  ∧ zt_category (_categorize_tool tool) ≠ FINANCE
  ∧ zt_category (_categorize_tool tool) ≠ HR.
Proof.
  rewrite category_categorize. split.
  - apply find_category_other. unfold CATEGORY_PREFIXES.
    repeat (constructor; [discriminate |]). constructor.
  - assert (H : ∀ table n cat,
               Forall (fun entry => entry.2 ≠ cat) table → cat ≠ OTHER →
               find_category n table ≠ cat).
    { intros table n cat Hall Hcat.
      induction Hall as [|[p c] table Hc _ IH]; cbn [find_category]; [done |].
      by destruct (startswith n p || str_in ("_" +:+ p) n). }
    split; apply H; try discriminate; unfold CATEGORY_PREFIXES;
      repeat (constructor; [discriminate |]); constructor.
Qed.

(** ** Discovery through the bridge *)

Lemma categorized_fold (fetched : list MCPTool) (tools : gmap string ZapierTool) :
  dom (foldl (fun tools tool =>
                let zapier_tool := _categorize_tool tool in
                <[name (mcp_tool zapier_tool) := zapier_tool]> tools) tools fetched)
  = dom tools ∪ list_to_set (map name fetched)
  ∧ ∀ k t,
      foldl (fun tools tool =>
               let zapier_tool := _categorize_tool tool in
               <[name (mcp_tool zapier_tool) := zapier_tool]> tools) tools fetched
        !! k = Some t →
      tools !! k = Some t
      ∨ ∃ tool, tool ∈ fetched ∧ name tool = k ∧ t = _categorize_tool tool.
Proof.
  set (f := fun (tools : gmap string ZapierTool) tool =>
              let zapier_tool := _categorize_tool tool in
              <[name (mcp_tool zapier_tool) := zapier_tool]> tools).
  revert tools; induction fetched as [|tool fetched IH]; intros tools.
  - cbn. split; [set_solver | by left].
  - cbn [foldl map list_to_set].
    replace (f tools tool) with (<[name tool := _categorize_tool tool]> tools)
      by (unfold f; cbv zeta; by rewrite mcp_tool_categorize).
    destruct (IH (<[name tool := _categorize_tool tool]> tools)) as [Hdom Hentries].
    split.
    + rewrite Hdom, dom_insert_L. set_solver.
    + intros k t H. apply Hentries in H as [H | (tool' & Hin & Hname & Ht)].
      * destruct (decide (name tool = k)) as [<- | Hne].
        -- rewrite lookup_insert_eq in H. injection H as <-.
           right. exists tool. split; [left | done].
        -- rewrite lookup_insert_ne in H by done. by left.
      * right. exists tool'. split; [by right | done].
Qed.

Section Bridge2.

Variable codes : ErrorCodes.
Variable json_loads : string → json_outcome.
Variable py_str : pyval → string.

(** X17. A refresh through the bridge that the server answers leaves in the
    bridge exactly the tools of the answer, each categorised and stored under
    its own name: what the bridge held before is gone.  The cache of the
    client underneath still holds the names it held before. *)
Theorem refresh_mirrors_the_response (z : ZapierMCPClient) (c : MCPClient)
    (response : MCPResponse ToolsListResult) :
  z_client z = Some c →
  is_connected c = true →
  t_respond (transport c) (length (t_sent (transport c))) TOOLS_LIST [] = Ret response →
  is_success response = true →
  ∃ listed z' c',
    refresh_tools codes z = (Ret listed, z')
    ∧ dom (_tools z') = list_to_set (map name (tools_in response))
    ∧ (∀ k t, _tools z' !! k = Some t →
         name (mcp_tool t) = k
         ∧ ∃ tool, tool ∈ tools_in response ∧ t = _categorize_tool tool)
    ∧ z_client z' = Some c'
    ∧ dom (_tools_cache c') = dom (_tools_cache c) ∪ list_to_set (map name (tools_in response)).
Proof.
  clear json_loads py_str. intros Hclient Hconn Hresp Hok.
  destruct (list_tools_discovery codes c true response Hconn (or_introl eq_refl) Hresp Hok)
    as (c' & n & Hlist & _ & Hdom & _).
  unfold refresh_tools. run. rewrite Hclient. rewrite run_bind.
  unfold on_client at 1. rewrite Hclient, Hlist. run.
  cbn [_tools zset_tools zset_client].
  destruct (categorized_fold (tools_in response) ∅) as [Hd Hentries].
  cbv zeta in Hd, Hentries.
  eexists _, _, c'. split; [reflexivity |]. cbn [_tools z_client zset_tools zset_client].
  split_and!.
  - rewrite Hd. set_solver.
  - intros k t H. apply Hentries in H as [H | (tool & Hin & Hname & ->)].
    + by rewrite lookup_empty in H.
    + rewrite mcp_tool_categorize. split; [done | by exists tool].
  - done.
  - exact Hdom.
Qed.

(** ** The usage counters of the bridge *)

#[local] Instance same_usage_preorder : PreOrder same_usage.
Proof.
  split.
  - by intros z.
  - intros z1 z2 z3 (? & ? & ?) (? & ? & ?). unfold same_usage. split_and!; congruence.
Qed.

Lemma usage_on_client {A} (m : M MCPClient A) : preserves same_usage (on_client m).
Proof.
  intros z. unfold on_client. destruct (z_client z) as [c |]; [| done].
  by destruct (m c) as [r c'].
Qed.

#[local] Hint Resolve usage_on_client : preserves.

Lemma usage_refresh_tools : preserves same_usage (refresh_tools codes).
Proof. unfold refresh_tools. preserve; done. Qed.

#[local] Hint Resolve usage_refresh_tools : preserves.

Lemma usage_zapier_get_tool (tn : string) :
  preserves same_usage (zapier_get_tool codes tn).
Proof. unfold zapier_get_tool. preserve; done. Qed.

(** X18. Every action dispatched on a bridge that has a client is counted
    once; a result that is returned counts as one success or as one error,
    according to its [success]; an exception counts as no success and at most
    one error.  So successes and errors together never exceed the actions. *)
Theorem execute_action_accounting (z z' : ZapierMCPClient) (tn : string) (ps : dict)
    (r : Res MCPToolResult) :
  z_client z ≠ None →
  execute_action codes tn ps z = (r, z') →
  _action_count z' = S (_action_count z)
  ∧ match r with
    | Ret result =>
        if success result
        then _success_count z' = S (_success_count z)
             ∧ z_error_count z' = z_error_count z
        else _success_count z' = _success_count z
             ∧ z_error_count z' = S (z_error_count z)
    | Raise e =>
        _success_count z' = _success_count z
        ∧ (z_error_count z' ≤ S (z_error_count z))%nat
    end
  ∧ ((_success_count z + z_error_count z ≤ _action_count z)%nat →
     (_success_count z' + z_error_count z' ≤ _action_count z')%nat).
Proof.
  intros Hclient. unfold execute_action. run.
  destruct (z_client z) as [c |] eqn:Hc; [clear Hclient | done]. run.
  pose proof (usage_zapier_get_tool tn (zset_action_count (S (_action_count z)) z))
    as (Ha & Hs & He).
  destruct (zapier_get_tool codes tn _) as [[tool | e] z1];
    cbn [snd _action_count _success_count z_error_count zset_action_count] in Ha, Hs, He.
  2: { intros [= <- <-]. split_and!; lia. }
  assert (Hcall : ∀ z2, same_usage z1 z2 →
            try_except
              (result ← on_client (call_tool codes tn ps None);
               (if success result
                then modify (fun self => zset_success_count (S (_success_count self)) self)
                else count_error) ;;
               mret result)
              (fun e =>
                 count_error ;;
                 if is_MCPError e then raise e
                 else raise (ToolExecutionError ("Unexpected error: " +:+ e_message e) tn))
              z2 = (r, z') →
            _action_count z' = S (_action_count z)
            ∧ match r with
              | Ret result =>
                  if success result
                  then _success_count z' = S (_success_count z)
                       ∧ z_error_count z' = z_error_count z
                  else _success_count z' = _success_count z
                       ∧ z_error_count z' = S (z_error_count z)
              | Raise e =>
                  _success_count z' = _success_count z
                  ∧ (z_error_count z' ≤ S (z_error_count z))%nat
              end
            ∧ ((_success_count z + z_error_count z ≤ _action_count z)%nat →
               (_success_count z' + z_error_count z' ≤ _action_count z')%nat)).
  { intros z2 (Ha2 & Hs2 & He2). unfold try_except. rewrite run_bind.
    pose proof (usage_on_client (call_tool codes tn ps None) z2) as (Ha3 & Hs3 & He3).
    destruct (on_client (call_tool codes tn ps None) z2) as [[result | e] z3];
      cbn [snd] in Ha3, Hs3, He3.
    - destruct (success result) eqn:Hsuccess; unfold count_error; run;
        intros [= <- <-]; rewrite Hsuccess;
        cbn [_action_count _success_count z_error_count zset_success_count
             zset_error_count]; split_and!; lia.
    - unfold count_error. run. destruct (is_MCPError e); run;
        intros [= <- <-];
        cbn [_action_count _success_count z_error_count zset_success_count
             zset_error_count]; split_and!; lia. }
  destruct tool as [tool |]; run; apply Hcall; done.
Qed.

(** ** What [execute] reports *)

Lemma extract_top_level_error (d : dict) :
  truthy (dget_or "isError" PNone d) = true →
  texts_are_loadable json_loads (dget_or "content" (PList []) d) = true →
  truthy (_extract_zapier_error_or_question json_loads py_str (PDict d)) = true.
Proof.
  intros Herr Htexts. unfold _extract_zapier_error_or_question.
  destruct d as [|kv d]; [done |]. cbn [truthy negb]. rewrite Herr.
  destruct (dget_or "content" (PList []) (kv :: d)) as [| | | | items |]; try done.
  cbn [texts_are_loadable] in Htexts.
  match goal with
  | |- context [for_items ?body items] =>
      assert (Hscan : match for_items body items with
                      | Return v => truthy v = true
                      | Next => True
                      | Abort => False
                      end)
  end.
  { induction items as [|item items IH]; [done |].
    cbn [forallb] in Htexts. apply andb_true_iff in Htexts as [Hitem Hrest].
    cbn [for_items]. unfold text_is_loadable in Hitem.
    destruct (is_text_item item) as [[| | | text | |] |]; try done; [| by apply IH].
    cbn [loads]. destruct (json_loads text) as [[| | | | | parsed] | |];
      try done; try (by apply IH).
    destruct (truthy (dget_or "error" PNone parsed)) eqn:E; [exact E | by apply IH]. }
  by destruct (for_items _ items).
Qed.

(** X19. When the payload of a returned result is a dictionary flagged with
    [isError], and every text item of its content carries a string on which
    [json.loads] returns or raises [JSONDecodeError], [execute] reports a
    failure that asks for clarification, whatever the [success] of the result:
    the question is the [error] of the first text item that decodes to an
    object with one, or a fixed message, and is never empty. *)
Theorem flagged_error_asks_for_clarification (m : ZapierToolManager)
    (z z' : ZapierMCPClient) (query : string) (user_id : option string)
    (tn : string) (ps : option dict) (r : MCPToolResult) (d : dict) :
  _initialized m = true →
  m_client m = Some z →
  tn ≠ "" →
  execute_action codes (actual_tool_name (prefix m) tn) (or_empty ps) z = (Ret r, z') →
  tr_result r = PDict d →
  truthy (dget_or "isError" PNone d) = true →
  texts_are_loadable json_loads (dget_or "content" (PList []) d) = true →
  ∃ out q,
    execute codes json_loads py_str query user_id (Some tn) ps m
    = (Ret out, mkToolManager (Some z') true (prefix m))
    ∧ dget "success" out = Some (PBool false)
    ∧ dget "needs_clarification" out = Some (PBool true)
    ∧ dget "clarification_question" out = Some q
    ∧ truthy q = true
    ∧ dget "error" out = Some (PStr ("Zapier needs more information: " +:+ py_str q)).
Proof.
  intros Hinit Hclient Hname Hrun Hpayload Herr Htexts.
  unfold execute. run. rewrite Hinit, Hclient. cbn [negb orb].
  rewrite bool_decide_eq_true_2 by by eexists. cbn [negb].
  destruct tn as [|ch tn]; [done |].
  unfold try_except. rewrite run_bind. unfold on_zapier at 1.
  rewrite Hclient, Hrun, Hinit. unfold _extract_zapier_question.
  rewrite Hpayload. pose proof (extract_top_level_error d Herr Htexts) as Hq.
  rewrite Hq. eexists _, _. split; [reflexivity |]. by repeat split.
Qed.

(** X20. A success reported by [execute] is earned: the manager was
    initialised, an action was dispatched under the name without its prefix
    and returned a result with [success] true in whose payload no error and
    no question was found, and that payload is the [result] reported. *)
Theorem reported_success_is_earned (m m' : ZapierToolManager) (query : string)
    (user_id tn : option string) (ps : option dict) (out : dict) :
  execute codes json_loads py_str query user_id tn ps m = (Ret out, m') →
  dget "success" out = Some (PBool true) →
  ∃ z z' called r,
    _initialized m = true
    ∧ m_client m = Some z
    ∧ tn = Some called
    ∧ execute_action codes (actual_tool_name (prefix m) called) (or_empty ps) z = (Ret r, z')
    ∧ success r = true
    ∧ truthy (_extract_zapier_error_or_question json_loads py_str (tr_result r)) = false
    ∧ dget "result" out = Some (tr_result r)
    ∧ m' = mkToolManager (Some z') true (prefix m).
Proof.
  unfold execute. run.
  destruct (_initialized m) eqn:Hinit; cbn [negb orb]; [| by intros [= <- <-]].
  destruct (m_client m) as [z |] eqn:Hclient.
  2: { rewrite bool_decide_eq_false_2 by (by intros [? ?]). by intros [= <- <-]. }
  rewrite bool_decide_eq_true_2 by by eexists. cbn [negb].
  destruct tn as [[|ch tn] |]; [by intros [= <- <-] | | by intros [= <- <-]].
  unfold try_except. rewrite run_bind. unfold on_zapier at 1. rewrite Hclient.
  destruct (execute_action codes _ _ z) as [[r | e] z1] eqn:Hrun; run.
  - unfold _extract_zapier_question.
    destruct (truthy (_extract_zapier_error_or_question _ _ (tr_result r))) eqn:Hq;
      intros [= <- <-]; [done |].
    cbn [dget String.eqb Ascii.eqb Bool.eqb]. intros [= Hsuccess].
    exists z, z1, (String ch tn), r. by rewrite Hinit.
  - rewrite Hinit. destruct (is_MCPError e); by intros [= <- <-].
Qed.

End Bridge2.

Lemma refresh_mirrors_the_response_witness :
  ∃ listed z' c',
    refresh_tools example_codes stale_zapier = (Ret listed, z')
    ∧ dom (_tools stale_zapier) = {["google_calendar_find_event"]}
    ∧ dom (_tools z') = {["gmail_send_email"]}
    ∧ z_client z' = Some c'
    ∧ dom (_tools_cache c') = {["google_calendar_find_event"; "gmail_send_email"]}.
Proof.
  destruct (refresh_mirrors_the_response example_codes stale_zapier
              (example_client [calendar_tool] [gmail_tool] PNone)
              (ok_response (mkToolsListResult (Some [wire gmail_tool])))
              eq_refl eq_refl eq_refl eq_refl)
    as (listed & z' & c' & Hrun & Hdom & _ & Hc & Hcache).
  exists listed, z', c'. split_and!; [exact Hrun | | | exact Hc |].
  - cbn. rewrite dom_insert_L. set_solver.
  - rewrite Hdom. cbn. set_solver.
  - rewrite Hcache. cbn. unfold cache_tool. rewrite dom_insert_L. cbn. set_solver.
Defined.

Lemma execute_action_accounting_witness :
  ∃ result z',
    execute_action example_codes "gmail_send_email" email_params
      (example_zapier [gmail_tool] sent_payload) = (Ret result, z')
    ∧ success result = true
    ∧ _action_count z' = 1%nat
    ∧ _success_count z' = 1%nat
    ∧ z_error_count z' = 0%nat.
Proof.
  epose proof (execute_action_accounting example_codes
                 (example_zapier [gmail_tool] sent_payload) _
                 "gmail_send_email" email_params (Ret _)) as H.
  edestruct H as (Ha & Hr & _).
  - discriminate.
  - vm_compute. reflexivity.
  - cbn [success] in Hr. destruct Hr as [Hs He].
    eexists _, _. split; [vm_compute; reflexivity |].
    split_and!; [reflexivity | exact Ha | exact Hs | exact He].
Defined.

Lemma flagged_error_asks_for_clarification_witness :
  ∃ out q m',
    execute example_codes json_loads_ascii py_str_ascii "send an email" None
            (Some "zapier_gmail_send_email") (Some email_params)
            (example_manager [gmail_tool] error_payload)
    = (Ret out, m')
    ∧ dget "success" out = Some (PBool false)
    ∧ dget "needs_clarification" out = Some (PBool true)
    ∧ dget "clarification_question" out = Some q
    ∧ truthy q = true.
Proof.
  epose proof (flagged_error_asks_for_clarification example_codes json_loads_ascii
                 py_str_ascii
                 (example_manager [gmail_tool] error_payload)
                 (example_zapier [gmail_tool] error_payload)
                 _ "send an email" None
                 "zapier_gmail_send_email" (Some email_params) _
                 [("isError", PBool true);
                  ("content", PList [PDict [("type", PStr "text");
                                            ("text", PStr "upstream failure")]])]) as H.
  edestruct H as (out & q & Hrun & Hsuccess & Hneeds & Hq & Htruthy & _).
  - reflexivity.
  - reflexivity.
  - discriminate.
  - vm_compute. reflexivity.
  - reflexivity.
  - reflexivity.
  - reflexivity.
  - exists out, q. eexists. split; [exact Hrun |].
    split_and!; [exact Hsuccess | exact Hneeds | exact Hq | exact Htruthy].
Defined.

Lemma reported_success_is_earned_witness :
  ∃ z z' r,
    execute_action example_codes "gmail_send_email" email_params z = (Ret r, z')
    ∧ success r = true
    ∧ tr_result r = sent_payload.
Proof.
  epose proof (reported_success_is_earned example_codes json_loads_ascii py_str_ascii
                 (example_manager [gmail_tool] sent_payload) _
                 "send an email" None (Some "zapier_gmail_send_email")
                 (Some email_params) _) as H.
  edestruct H as (z & z' & called & r & _ & Hz & Hcalled & Hrun & Hsuccess & _ & Hresult & _).
  - vm_compute. reflexivity.
  - reflexivity.
  - injection Hcalled as <-. exists z, z', r.
    split_and!; [exact Hrun | exact Hsuccess |].
    cbn in Hresult. by injection Hresult.
Defined.

(** ** Names with the prefix of the manager *)

(** X21. The name under which [_generate_schema] announces a tool leads
    [execute] back to the tool: stripped of the prefix it is the tool's own
    name.  A name that does not start with the prefix is dispatched as it is;
    with a prefix that is not empty, a name that starts with it is never
    dispatched as it is, so a tool whose own name starts with the prefix can
    only be reached under its announced name. *)
Theorem announced_name_leads_back (self : ZapierToolManager) (tool : ZapierTool) :
  actual_tool_name (prefix self) (ts_name (_generate_schema self tool))
  = name (mcp_tool tool)
  ∧ (∀ called, startswith called (prefix self) = false →
       actual_tool_name (prefix self) called = called)
  ∧ (∀ rest, prefix self ≠ "" →
       actual_tool_name (prefix self) (prefix self +:+ rest) ≠ prefix self +:+ rest).
Proof.
  unfold actual_tool_name, startswith. cbn [ts_name _generate_schema]. split_and!.
  - by rewrite prefix_app, drop_app_len.
  - by intros called ->.
  - intros rest Hne. rewrite prefix_app, drop_app_len. intros E.
    apply (f_equal len) in E. rewrite len_app in E.
    destruct (prefix self); [done |]. unfold len in E. cbn in E. lia.
Qed.

(** ** After the bridge is disconnected *)

(** X22. Disconnecting a bridge that has a client returns, empties the
    tools of the bridge and leaves the usage counters as they were; the client
    object is kept.  An action dispatched afterwards is therefore not refused
    as not connected to Zapier: it is counted as an action, the discovery it
    starts raises the connection error of the client, and neither a success
    nor an error is counted for it. *)
Theorem actions_after_disconnect (codes : ErrorCodes) (z : ZapierMCPClient)
    (tn : string) (ps : dict) :
  z_client z ≠ None →
  ∃ z1 z2,
    zapier_disconnect z = (Ret (), z1)
    ∧ zapier_is_connected z1 = false
    ∧ _tools z1 = ∅
    ∧ same_usage z z1
    ∧ execute_action codes tn ps z1
      = (Raise (ConnectionError "Not connected to MCP server"), z2)
    ∧ _action_count z2 = S (_action_count z)
    ∧ _success_count z2 = _success_count z
    ∧ z_error_count z2 = z_error_count z.
Proof.
  intros Hclient. destruct (z_client z) as [c |] eqn:Hc; [clear Hclient | done].
  unfold zapier_disconnect. run. rewrite Hc.
  unfold on_client at 1. rewrite Hc. unfold disconnect, on_transport, transport_disconnect.
  run. eexists _, _. split; [reflexivity |].
  split_and!.
  - unfold zapier_is_connected. done.
  - done.
  - done.
  - unfold execute_action, zapier_get_tool, refresh_tools, list_tools. run.
    cbn [z_client zset_tools zset_connected zset_client zset_action_count]. run.
    cbn [_tools zset_tools zset_connected zset_client zset_action_count].
    rewrite bool_decide_eq_true_2 by done. run.
    cbn [z_client zset_tools zset_connected zset_client zset_action_count].
    rewrite run_bind. unfold on_client at 1.
    cbn [z_client zset_tools zset_connected zset_client zset_action_count]. run.
    cbn [is_connected _connected set_connected set_tools_cache set_tools_cache_time
         set_server_info set_transport andb negb]. run. reflexivity.
  - done.
  - done.
  - done.
Qed.

Lemma actions_after_disconnect_witness :
  ∃ z1 z2,
    zapier_disconnect (example_zapier [gmail_tool] sent_payload) = (Ret (), z1)
    ∧ is_Some (z_client z1)
    ∧ execute_action example_codes "gmail_send_email" email_params z1
      = (Raise (ConnectionError "Not connected to MCP server"), z2)
    ∧ _action_count z2 = 1%nat
    ∧ z_error_count z2 = 0%nat.
Proof.
  destruct (actions_after_disconnect example_codes
              (example_zapier [gmail_tool] sent_payload)
              "gmail_send_email" email_params ltac:(discriminate))
    as (z1 & z2 & Hd & _ & _ & _ & Hrun & Ha & _ & He).
  exists z1, z2. split_and!; [exact Hd | | exact Hrun | exact Ha | exact He].
  vm_compute in Hd. injection Hd as <-. by eexists.
Defined.
